(** * Verification of the training-data generators (error injection and
      quality gate)

    The development embeds the Python generators found under
    [src/data_generation/generators] : the shared [BaseGenerator]
    primitives, the single-command, chained-command, natural-language and
    tools generators.  Python strings are lists of characters, randomness
    is an explicit tree of draws from the generator-owned [random.Random]
    object, floating-point values are IEEE binary64 values. *)

From Stdlib Require Import List ZArith Lia Bool Arith Permutation.
From Stdlib Require Ascii String DecimalString.
From Stdlib Require Import Floats.SpecFloat.
Import ListNotations.
Import Ascii.AsciiSyntax String.StringSyntax.
Delimit Scope char_scope with char.
Delimit Scope string_scope with string.

Set Implicit Arguments.
Local Open Scope list_scope.

(** ** Python strings *)

Module PyStr.

Abbreviation ascii := Ascii.ascii.

(** A Python [str] restricted to code points below 256. *)
Definition str := list ascii.

(** Literal of the source, written as a Rocq string. *)
Definition py (s : String.string) : str := String.list_ascii_of_string s.
Arguments py s%_string.

Definition dquote : ascii := "034"%char.
Definition tab : ascii := "009"%char.

Definition code (c : ascii) : nat := Ascii.nat_of_ascii c.

Fixpoint str_eqb (a b : str) : bool :=
  match a, b with
  | [], [] => true
  | x :: a', y :: b' => Ascii.eqb x y && str_eqb a' b'
  | _, _ => false
  end.

(** [str.isspace] on one character, for code points below 256. *)
Definition is_space (c : ascii) : bool :=
  let n := code c in
  ((9 <=? n) && (n <=? 13)) || ((28 <=? n) && (n <=? 32))
  || (n =? 133) || (n =? 160).

(** The class [\w] of [re] on [str] patterns, for code points below 256. *)
Definition is_word (c : ascii) : bool :=
  let n := code c in
  ((48 <=? n) && (n <=? 57)) || ((65 <=? n) && (n <=? 90)) || (n =? 95)
  || ((97 <=? n) && (n <=? 122))
  || (n =? 170) || (n =? 178) || (n =? 179) || (n =? 181) || (n =? 185)
  || (n =? 186) || ((188 <=? n) && (n <=? 190))
  || ((192 <=? n) && (n <=? 214)) || ((216 <=? n) && (n <=? 246))
  || ((248 <=? n) && (n <=? 255)).

(** [c.lower()] as far as membership in an a-z keyed table can tell:
    only A-Z map into a-z. *)
Definition lower (c : ascii) : ascii :=
  let n := code c in
  if (65 <=? n) && (n <=? 90) then Ascii.ascii_of_nat (n + 32) else c.

Fixpoint drop_while (f : ascii -> bool) (s : str) : str :=
  match s with
  | [] => []
  | c :: s' => if f c then drop_while f s' else s
  end.

(** [s.strip()] *)
Definition strip (s : str) : str :=
  rev (drop_while is_space (rev (drop_while is_space s))).

(** [s.startswith(p)] *)
Fixpoint startswith (p s : str) : bool :=
  match p, s with
  | [], _ => true
  | x :: p', y :: s' => Ascii.eqb x y && startswith p' s'
  | _ :: _, [] => false
  end.

(** [sub in s] *)
Fixpoint contains (sub s : str) : bool :=
  startswith sub s ||
  match s with
  | [] => false
  | _ :: s' => contains sub s'
  end.

(** [s.split()] : maximal runs of non-whitespace characters. *)
Fixpoint split_ws (s : str) : list str :=
  match s with
  | [] => []
  | c :: s' =>
      if is_space c then split_ws s'
      else match s' with
           | [] => [[c]]
           | d :: _ =>
               if is_space d then [c] :: split_ws s'
               else match split_ws s' with
                    | w :: ws => (c :: w) :: ws
                    | [] => [[c]]
                    end
           end
  end.

(** [sep.join(parts)] *)
Fixpoint join (sep : str) (parts : list str) : str :=
  match parts with
  | [] => []
  | [p] => p
  | p :: ps => p ++ sep ++ join sep ps
  end.

(** [s.split(sep)] for a non-empty separator: [skip] counts the characters
    of a separator occurrence still to be passed over, [cur] is the
    current field in reverse. *)
Fixpoint split_go (sep : str) (skip : nat) (cur : str) (s : str) : list str :=
  match s with
  | [] => [rev cur]
  | c :: s' =>
      match skip with
      | S k => split_go sep k cur s'
      | O => if startswith sep s
             then rev cur :: split_go sep (length sep - 1) [] s'
             else split_go sep 0 (c :: cur) s'
      end
  end.

Definition split_sep (sep s : str) : list str := split_go sep 0 [] s.

(** [s.replace(old, new, 1)] *)
Fixpoint replace_first (old new s : str) : str :=
  if startswith old s then new ++ skipn (length old) s
  else match s with
       | [] => []
       | c :: s' => c :: replace_first old new s'
       end.

(** [s.replace(old, new)] : leftmost non-overlapping occurrences.  The
    scan resumes after each replaced occurrence, so the recursion is on
    a counter that exceeds the number of characters left. *)
Fixpoint replace_fuel (fuel : nat) (old new s : str) : str :=
  match fuel with
  | O => s
  | S f =>
      if startswith old s then new ++ replace_fuel f old new (skipn (length old) s)
      else match s with
           | [] => []
           | c :: s' => c :: replace_fuel f old new s'
           end
  end.

Definition replace_all (old new s : str) : str :=
  match old with
  | [] => new ++ flat_map (fun c => c :: new) s
  | _ :: _ => replace_fuel (S (length s)) old new s
  end.

(** Longest prefix of [\w] characters, and what follows it. *)
Fixpoint span_word (s : str) : str * str :=
  match s with
  | [] => ([], [])
  | c :: s' =>
      if is_word c then let (w, r) := span_word s' in (c :: w, r)
      else ([], s)
  end.

Definition lbrace : ascii := "{"%char.
Definition rbrace : ascii := "}"%char.

(** Does [\{(\w+)\}] match at the head of [s]?  The greedy [\w+] can only
    be followed by the closing brace when it took every word character. *)
Definition placeholder_at (s : str) : option str :=
  match s with
  | [] => None
  | c :: s' =>
      if Ascii.eqb c lbrace then
        match span_word s' with
        | ((_ :: _) as w, d :: _) => if Ascii.eqb d rbrace then Some w else None
        | _ => None
        end
      else None
  end.

(** [re.findall(r"\{(\w+)\}", s)].  A match contains no opening brace
    after its first character, so resuming the scan one character later
    finds the same later matches as resuming after the match. *)
Fixpoint findall_placeholders (s : str) : list str :=
  match s with
  | [] => []
  | _ :: s' =>
      match placeholder_at s with
      | Some w => w :: findall_placeholders s'
      | None => findall_placeholders s'
      end
  end.

(** [s[i]] for an index in range. *)
Definition char_at (s : str) (i : nat) : ascii := nth i s " "%char.

End PyStr.
Import PyStr.

(** ** Python floats: IEEE binary64 *)

Module PyFloat.

Definition prec : Z := 53.
Definition emax : Z := 1024.

Definition float := spec_float.

(** Conversion of a Python [int] (exact below 2^53, rounded to nearest
    even above; Python raises [OverflowError] from 2^1024 on, a size no
    count or length of this program reaches). *)
Definition of_Z (z : Z) : float := binary_normalize prec emax z 0 false.

Definition fmul : float -> float -> float := SFmul prec emax.
Definition fadd : float -> float -> float := SFadd prec emax.
Definition fdiv : float -> float -> float := SFdiv prec emax.
Definition fltb : float -> float -> bool := SFltb.
Definition fleb : float -> float -> bool := SFleb.

(** The decimal literal [n / d] of the source text: the double nearest to
    the quotient, as the correctly rounded division yields it. *)
Definition dec (n d : Z) : float := fdiv (of_Z n) (of_Z d).

Definition fzero : float := S754_zero false.

(** The value [k / 2^53] returned by [random()] for a 53-bit [k]. *)
Definition of_frac53 (k : Z) : float := binary_normalize prec emax k (-53) false.

(** [int(x)] : truncation toward zero of a finite value. *)
Definition trunc (x : float) : Z :=
  match x with
  | S754_finite s m e =>
      let v := if (0 <=? e)%Z then (Zpos m * 2 ^ e)%Z
               else (Zpos m / 2 ^ (- e))%Z in
      if s then (- v)%Z else v
  | _ => 0%Z
  end.

Definition is_finite (x : float) : bool :=
  match x with
  | S754_zero _ | S754_finite _ _ _ => true
  | _ => false
  end.

End PyFloat.
Import PyFloat.





(** ** Randomised computations

    Every generator owns one [random.Random] object, [self.rng].  A
    computation is the tree of its draws: [Random] asks for the 53-bit
    numerator of [self.rng.random()], [Randbelow n] for an integer below
    [n] ([_randbelow], on which [choice], [randint] and [shuffle] are
    built), [Raise] is a Python exception. *)

Inductive exn : Type := IndexError | ValueError.

Inductive Rand (A : Type) : Type :=
| Ret (a : A)
| Raise (e : exn)
| Random (k : Z -> Rand A)
| Randbelow (n : Z) (k : Z -> Rand A).

Arguments Raise {A} e.

Fixpoint bind {A B : Type} (m : Rand A) (f : A -> Rand B) : Rand B :=
  match m with
  | Ret a => f a
  | Raise e => Raise e
  | Random k => Random (fun x => bind (k x) f)
  | Randbelow n k => Randbelow n (fun x => bind (k x) f)
  end.

Declare Scope rand_scope.
Delimit Scope rand_scope with rand.
Bind Scope rand_scope with Rand.
Notation "x <- m ;; k" := (bind m (fun x => k))
  (at level 61, m at next level, right associativity) : rand_scope.
Notation "' p <- m ;; k" := (bind m (fun x => let 'p := x in k))
  (at level 61, p pattern, m at next level, right associativity) : rand_scope.
Local Open Scope rand_scope.

Definition two53 : Z := 2 ^ 53.

(** [for _ in range(n): s = body(s)] *)
Fixpoint for_range {S : Type} (n : nat) (body : S -> Rand S) (s : S) : Rand S :=
  match n with
  | O => Ret s
  | Datatypes.S n' => s' <- body s ;; for_range n' body s'
  end.

(** *** The operations of [random.Random] used by the generators
    (CPython's [Lib/random.py], which is not part of the repository). *)

Module PyRandom.

(** [rng.random()] *)
Definition random : Rand float := Random (fun k => Ret (of_frac53 k)).

(** [rng.choice(seq)] *)
Definition choice {A : Type} (seq : list A) : Rand A :=
  match seq with
  | [] => Raise IndexError
  | d :: _ =>
      Randbelow (Z.of_nat (length seq)) (fun i => Ret (nth (Z.to_nat i) seq d))
  end.

(** [rng.randint(a, b)], i.e. [randrange(a, b + 1)] *)
Definition randint (a b : Z) : Rand Z :=
  let width := (b + 1 - a)%Z in
  if (0 <? width)%Z then Randbelow width (fun r => Ret (a + r)%Z)
  else Raise ValueError.

(** [itertools.accumulate(weights)] *)
Fixpoint accumulate_from (acc : float) (ws : list float) : list float :=
  match ws with
  | [] => []
  | w :: ws' => let a := fadd acc w in a :: accumulate_from a ws'
  end.

Definition accumulate (ws : list float) : list float :=
  match ws with
  | [] => []
  | w :: ws' => w :: accumulate_from w ws'
  end.

(** [bisect.bisect_right(a, x, lo, hi)] *)
Fixpoint bisect_fuel (fuel : nat) (a : list float) (x : float) (lo hi : nat) : nat :=
  match fuel with
  | O => lo
  | S f =>
      if lo <? hi then
        let mid := (lo + hi) / 2 in
        if fltb x (nth mid a fzero) then bisect_fuel f a x lo mid
        else bisect_fuel f a x (S mid) hi
      else lo
  end.

Definition bisect (a : list float) (x : float) (lo hi : nat) : nat :=
  bisect_fuel (S (length a)) a x lo hi.

(** [rng.choices(population, weights=weights, k=1)[0]] *)
Definition choices {A : Type} (population : list A) (weights : list float) : Rand A :=
  let n := length population in
  let cum_weights := accumulate weights in
  if negb (length cum_weights =? n) then Raise ValueError
  else match population with
       | [] => Raise IndexError
       | d :: _ =>
           let total := fadd (last cum_weights fzero) fzero in
           if fleb total fzero then Raise ValueError
           else if negb (is_finite total) then Raise ValueError
           else
             x <- random ;;
             Ret (nth (bisect cum_weights (fmul x total) 0 (n - 1)) population d)
       end.

(** [x[i], x[j] = x[j], x[i]] *)
Definition swap {A : Type} (x : list A) (i j : nat) : list A :=
  match nth_error x i, nth_error x j with
  | Some a, Some b =>
      let x1 := firstn i x ++ b :: skipn (S i) x in
      firstn j x1 ++ a :: skipn (S j) x1
  | _, _ => x
  end.

(** [rng.shuffle(x)] : [for i in reversed(range(1, len(x)))];
    [shuffle_from i] runs the iterations [i, i-1, ..., 1]. *)
Fixpoint shuffle_from {A : Type} (i : nat) (x : list A) : Rand (list A) :=
  match i with
  | O => Ret x
  | S i' =>
      Randbelow (Z.of_nat i + 1) (fun j => shuffle_from i' (swap x i (Z.to_nat j)))
  end.

Definition shuffle {A : Type} (x : list A) : Rand (list A) :=
  shuffle_from (length x - 1) x.

End PyRandom.
Import PyRandom.

(** ** [base_generator.py] *)

Module BaseGenerator.

(** [@dataclass class TrainingExample] *)
Record TrainingExample : Type := {
  shell : str;
  incorrect_command : str;
  correct_command : str;
  category : str;
  error_type : str;
  source : str;
  metadata : list (str * str)
}.

(** A catalog entry is a Python dict whose keys are among ["correct"],
    ["errors"] and ["category"]; an absent key is [None]. *)
Record entry : Type := {
  entry_correct : option str;
  entry_errors : option (list str);
  entry_category : option str
}.

(** [{"correct": c, "errors": errs, "category": cat}] *)
Definition pattern (c : str) (errs : list str) (cat : str) : entry :=
  {| entry_correct := Some c; entry_errors := Some errs; entry_category := Some cat |}.

(** [{"correct": c, "errors": errs}] *)
Definition command (c : str) (errs : list str) : entry :=
  {| entry_correct := Some c; entry_errors := Some errs; entry_category := None |}.

(** [d.get(k)] on a dict kept in insertion order. *)
Fixpoint dict_get {V : Type} (k : str) (d : list (str * V)) : option V :=
  match d with
  | [] => None
  | (k', v) :: d' => if str_eqb k k' then Some v else dict_get k d'
  end.

(** [d.get(k, default)] *)
Definition get_or {V : Type} (o : option V) (default : V) : V :=
  match o with
  | Some v => v
  | None => default
  end.

(** [k in d] *)
Definition dict_mem {V : Type} (k : str) (d : list (str * V)) : bool :=
  match dict_get k d with
  | Some _ => true
  | None => false
  end.

(** [xs[i] = v] for an index in range. *)
Definition set_nth {A : Type} (xs : list A) (i : nat) (v : A) : list A :=
  firstn i xs ++ v :: skipn (S i) xs.

(** [xs.pop(i)] for an index in range (the list that remains). *)
Definition pop_nth {A : Type} (xs : list A) (i : nat) : list A :=
  firstn i xs ++ skipn (S i) xs.

(** [str(n)] *)
Definition str_of_N (n : N) : str :=
  String.list_ascii_of_string (DecimalString.NilEmpty.string_of_uint (N.to_uint n)).

Fixpoint range_fuel (fuel : nat) (start stop step : N) : list N :=
  match fuel with
  | O => []
  | S f => if (start <? stop)%N then start :: range_fuel f (start + step)%N stop step else []
  end.

(** [range(start, stop, step)] for a positive step. *)
Definition range_step (start stop step : N) : list N :=
  range_fuel (S (N.to_nat ((stop - start) / step))) start stop step.

Definition newline : ascii := "010"%char.

(** [SHELL_WEIGHTS] *)
Definition SHELL_WEIGHTS : list (str * float) :=
  [ (py "bash", dec 35 100);
    (py "zsh", dec 25 100);
    (py "powershell", dec 20 100);
    (py "cmd", dec 12 100);
    (py "fish", dec 5 100);
    (py "tcsh", dec 3 100) ].

(** [KEYBOARD_ADJACENT], keyed by the single character. *)
Definition KEYBOARD_ADJACENT : list (ascii * str) :=
  [ ("a"%char, py "qwsz"); ("b"%char, py "vghn"); ("c"%char, py "xdfv");
    ("d"%char, py "serfcx"); ("e"%char, py "wsdr"); ("f"%char, py "drtgcv");
    ("g"%char, py "ftyhbv"); ("h"%char, py "gyujnb"); ("i"%char, py "ujko");
    ("j"%char, py "huiknm"); ("k"%char, py "jiolm"); ("l"%char, py "kop");
    ("m"%char, py "njk"); ("n"%char, py "bhjm"); ("o"%char, py "iklp");
    ("p"%char, py "ol"); ("q"%char, py "wa"); ("r"%char, py "edft");
    ("s"%char, py "awedxz"); ("t"%char, py "rfgy"); ("u"%char, py "yhji");
    ("v"%char, py "cfgb"); ("w"%char, py "qase"); ("x"%char, py "zsdc");
    ("y"%char, py "tghu"); ("z"%char, py "asx") ].

Fixpoint adjacent_keys (c : ascii) (t : list (ascii * str)) : option str :=
  match t with
  | [] => None
  | (k, v) :: t' => if Ascii.eqb c k then Some v else adjacent_keys c t'
  end.

(** [string.ascii_lowercase] *)
Definition ascii_lowercase : str := py "abcdefghijklmnopqrstuvwxyz".

(** [generate_typo(text, typo_rate)] *)
Definition generate_typo (text : str) (typo_rate : float) : Rand str :=
  match text with
  | [] => Ret text
  | _ :: _ =>
    x <- random ;;
    if fltb typo_rate x then Ret text
    else
      let words := split_ws text in
      match words with
      | [] => Ret text
      | _ :: _ =>
        let word_weights := map (fun w => of_Z (Z.of_nat (length w))) words in
        idx <- choices (seq 0 (length words)) word_weights ;;
        let word := nth idx words [] in
        let n := Z.of_nat (length word) in
        if length word <? 2 then Ret text
        else
          typo_type <- choice [py "swap"; py "delete"; py "insert"; py "adjacent"; py "double"] ;;
          word' <-
            (if str_eqb typo_type (py "swap") && (3 <=? length word) then
               pos <- randint 0 (n - 2) ;;
               let p := Z.to_nat pos in
               Ret (firstn p word ++ char_at word (p + 1) :: char_at word p
                      :: skipn (p + 2) word)
             else if str_eqb typo_type (py "delete") && (3 <=? length word) then
               pos <- randint 1 (n - 1) ;;
               let p := Z.to_nat pos in
               Ret (firstn p word ++ skipn (p + 1) word)
             else if str_eqb typo_type (py "insert") then
               pos <- randint 1 (n - 1) ;;
               let p := Z.to_nat pos in
               char <- choice ascii_lowercase ;;
               Ret (firstn p word ++ char :: skipn p word)
             else if str_eqb typo_type (py "adjacent") then
               pos <- randint 0 (n - 1) ;;
               let p := Z.to_nat pos in
               let char := lower (char_at word p) in
               match adjacent_keys char KEYBOARD_ADJACENT with
               | Some adjacent =>
                   new_char <- choice adjacent ;;
                   Ret (firstn p word ++ new_char :: skipn (p + 1) word)
               | None => Ret word
               end
             else if str_eqb typo_type (py "double") && (2 <=? length word) then
               pos <- randint 0 (n - 1) ;;
               let p := Z.to_nat pos in
               Ret (firstn p word ++ char_at word p :: skipn p word)
             else Ret word) ;;
          Ret (join (py " ") (set_nth words idx word'))
      end
  end.

(** [remove_space(text)] *)
Definition remove_space (text : str) : Rand str :=
  let parts := split_ws text in
  if length parts <? 2 then Ret text
  else
    idx <- randint 0 (Z.of_nat (length parts) - 2) ;;
    let i := Z.to_nat idx in
    let parts1 := set_nth parts i (nth i parts [] ++ nth (i + 1) parts []) in
    Ret (join (py " ") (pop_nth parts1 (i + 1))).

(** [wrong_flag(text)] : the draw is made only when [" --"] occurs. *)
Definition wrong_flag (text : str) : Rand str :=
  let promote :=
    if contains (py " -") text && negb (contains (py " --") text)
    then replace_first (py " -") (py " --") text
    else text in
  if contains (py " --") text then
    x <- random ;;
    if fltb (dec 5 10) x then Ret (replace_first (py " --") (py " -") text)
    else Ret promote
  else Ret promote.

(** [expand_template(template, variables)] : the dict is walked in
    insertion order. *)
Definition expand_template (template : str) (variables : list (str * str)) : str :=
  fold_left
    (fun result kv => replace_all (lbrace :: fst kv ++ [rbrace]) (snd kv) result)
    variables template.

Definition COMMON_VARIABLES : list (str * list str) :=
  [
   (py "path",
    [py "mydir"; py "project"; py "src"; py "docs"; py "test"; py "build";
     py "dist"; py "tmp"; py "app"; py "lib"; py "bin"; py "config";
     py "scripts"; py "utils"; py "core"; py "api"; py "frontend";
     py "backend"; py "server"; py "client"; py "shared"; py "common";
     py "assets"; py "static"; py "public"; py "private"; py "internal";
     py "external"; py "/home/user/project"; py "/var/log"; py "~/Documents";
     py "./src/components"; py "/opt/app"; py "/etc/nginx";
     py "/usr/local/bin"; py "~/projects/myapp"; py "./packages/core";
     py "../shared/utils"; py "node_modules"; py "vendor"; py "migrations";
     py "seeds"; py "fixtures"; py "templates"; py "views"; py "models";
     py "controllers"; py "services"; py "repositories"; py "handlers";
     py "middleware"]);
   (py "file",
    [py "file.txt"; py "data.json"; py "config.yaml"; py "README.md";
     py "script.py"; py "main.go"; py "index.js"; py "app.ts"; py "Makefile";
     py "Dockerfile"; py "package.json"; py "requirements.txt"; py "setup.py";
     py "pyproject.toml"; py "Cargo.toml"; py "go.mod"; py "tsconfig.json";
     py "webpack.config.js"; py ".env"; py ".gitignore"; py "LICENSE";
     py "CHANGELOG.md"; py "server.js"; py "handler.py"; py "utils.ts";
     py "helpers.rb"; py "database.sql"; py "schema.prisma";
     py "docker-compose.yml"; py "nginx.conf"; py "app.py"; py "main.rs";
     py "lib.rs"; py "mod.rs"; py "index.html"; py "styles.css";
     py "test_main.py"; py "spec.ts"; py "benchmark.go"; py "Gemfile";
     py "composer.json"]);
   (py "package",
    [py "numpy"; py "pandas"; py "requests"; py "flask"; py "django";
     py "fastapi"; py "pytest"; py "react"; py "express"; py "lodash";
     py "axios"; py "moment"; py "typescript"; py "webpack"; py "vim";
     py "htop"; py "curl"; py "jq"; py "git"; py "docker"; py "kubernetes";
     py "terraform"; py "boto3"; py "sqlalchemy"; py "celery"; py "redis";
     py "pytest-cov"; py "black"; py "mypy"; py "eslint"; py "prettier";
     py "jest"; py "mocha"; py "chai"; py "sinon"; py "enzyme";
     py "tensorflow"; py "pytorch"; py "scikit-learn"; py "matplotlib";
     py "seaborn"; py "gin"; py "echo"; py "fiber"; py "actix-web";
     py "tokio"; py "serde"; py "clap"; py "spring-boot"; py "hibernate";
     py "junit"; py "mockito"; py "gradle"; py "maven"]);
   (py "branch",
    [py "main"; py "master"; py "develop"; py "dev"; py "staging";
     py "production"; py "release"; py "feature/new-feature";
     py "feature/auth"; py "feature/api"; py "feature/ui";
     py "feature/payment"; py "feature/search"; py "feature/notifications";
     py "bugfix/fix-issue"; py "bugfix/login"; py "bugfix/memory-leak";
     py "bugfix/typo"; py "hotfix/security"; py "hotfix/critical";
     py "hotfix/performance"; py "release/v1.0"; py "release/v2.0";
     py "release/v1.2.3"; py "release/2024-01"; py "experiment/ml-model";
     py "test/integration"; py "ci/pipeline"; py "docs/api"]);
   (py "message",
    [py "Initial commit"; py "Fix bug"; py "Add feature"; py "Update docs";
     py "Refactor code"; py "Fix typo"; py "WIP"; py "Merge branch";
     py "Hotfix"; py "Release v1.0"; py "Add unit tests";
     py "Fix linting errors"; py "Update dependencies";
     py "Improve performance"; py "Add error handling";
     py "Fix security issue"; py "Add logging"; py "Clean up code";
     py "Remove dead code"; py "Add comments"; py "Fix CI pipeline";
     py "Update README"; py "Add Docker support"; py "Fix build";
     py "Implement auth"; py "Add API endpoint"; py "Fix database query";
     py "Optimize query"]);
   (py "pattern",
    [py "*.py"; py "*.txt"; py "*.js"; py "*.ts"; py "*.go"; py "*.rs";
     py "*.java"; py "*.rb"; py "*.json"; py "*.yaml"; py "*.yml"; py "*.md";
     py "*.html"; py "*.css"; py "*.scss"; py "error"; py "TODO"; py "FIXME";
     py "BUG"; py "HACK"; py "XXX"; py "NOTE"; py "WARNING"; py "import";
     py "function"; py "class"; py "def "; py "const "; py "let "; py "var ";
     py "async"; py "await"; py "return"; py "throw"; py "catch"; py "try";
     py "except"; py "password"; py "secret"; py "api_key"; py "token";
     py "debug"; py "console.log"]);
   (py "url",
    [py "https://example.com"; py "https://api.github.com";
     py "http://localhost:8080"; py "https://google.com";
     py "https://npmjs.com"; py "https://pypi.org";
     py "http://localhost:3000"; py "http://localhost:5000";
     py "http://127.0.0.1:8000"; py "https://api.stripe.com";
     py "https://s3.amazonaws.com"; py "https://cdn.example.com";
     py "https://raw.githubusercontent.com/user/repo/main/file.txt";
     py "https://registry.npmjs.org"; py "https://hub.docker.com"]);
   (py "host",
    [py "localhost"; py "example.com"; py "192.168.1.1"; py "server.local";
     py "prod-server"; py "dev-server"; py "staging-server"; py "db-server";
     py "api-server"; py "web-server"; py "10.0.0.1"; py "172.16.0.1";
     py "192.168.0.100"; py "192.168.1.50"; py "myapp.local";
     py "test.example.com"; py "api.example.com"; py "db.example.com";
     py "ec2-user@aws-instance"; py "admin@server.company.com"]);
   (py "user",
    [py "root"; py "admin"; py "user"; py "deploy"; py "ubuntu";
     py "ec2-user"; py "centos"; py "www-data"; py "nginx"; py "postgres";
     py "mysql"; py "redis"; py "jenkins"; py "circleci"; py "github-actions";
     py "developer"; py "devops"; py "sysadmin"]);
   (py "container",
    [py "nginx"; py "postgres"; py "redis"; py "app"; py "web"; py "api";
     py "worker"; py "scheduler"; py "mongo"; py "mysql"; py "mariadb";
     py "elasticsearch"; py "kibana"; py "grafana"; py "prometheus";
     py "rabbitmq"; py "kafka"; py "zookeeper"; py "consul"; py "vault";
     py "jenkins"; py "gitlab"; py "nexus"; py "sonarqube"; py "traefik";
     py "haproxy"]);
   (py "image",
    [py "nginx:latest"; py "nginx:1.25"; py "nginx:alpine"; py "python:3.11";
     py "python:3.12"; py "python:3.11-slim"; py "python:3.11-alpine";
     py "node:20"; py "node:20-alpine"; py "node:18-slim"; py "postgres:16";
     py "postgres:15-alpine"; py "mysql:8"; py "redis:7"; py "redis:alpine";
     py "mongo:7"; py "ubuntu:22.04"; py "ubuntu:24.04"; py "alpine:3.19";
     py "debian:bookworm"; py "golang:1.21"; py "rust:1.75"]);
   (py "process",
    [py "nginx"; py "python"; py "node"; py "java"; py "docker";
     py "postgres"; py "mysql"; py "redis"; py "apache2"; py "httpd";
     py "gunicorn"; py "uvicorn"; py "pm2"; py "supervisord"; py "systemd";
     py "cron"; py "sshd"; py "mongod"; py "elasticsearch"; py "kafka"]);
   (py "pid", map str_of_N (range_step 1000 9999 123));
   (py "n",
    [py "1"; py "3"; py "5"; py "10"; py "15"; py "20"; py "25"; py "50";
     py "100"; py "200"; py "500"; py "1000"]);
   (py "size",
    [py "10"; py "50"; py "100"; py "500"; py "1024"; py "2048"; py "4096";
     py "10240"]);
   (py "service",
    [py "nginx"; py "docker"; py "ssh"; py "postgresql"; py "mysql";
     py "redis"; py "mongodb"; py "elasticsearch"; py "rabbitmq"; py "kafka";
     py "apache2"; py "httpd"; py "cron"; py "systemd-journald";
     py "NetworkManager"; py "bluetooth"; py "cups"; py "avahi-daemon"]);
   (py "var",
    [py "PATH"; py "HOME"; py "USER"; py "PWD"; py "SHELL"; py "TERM";
     py "LANG"; py "LC_ALL"; py "EDITOR"; py "VISUAL"; py "PAGER";
     py "TMPDIR"; py "XDG_CONFIG_HOME"; py "NODE_ENV"; py "PYTHONPATH";
     py "GOPATH"; py "JAVA_HOME"; py "RUST_BACKTRACE"; py "DATABASE_URL";
     py "API_KEY"; py "SECRET_KEY"; py "AWS_REGION"; py "DEBUG"]);
   (py "value",
    [py "test"; py "production"; py "debug"; py "/usr/local/bin"; py "true";
     py "false"; py "development"; py "staging"; py "1"; py "0"; py "yes";
     py "no"; py "enabled"; py "disabled"; py "/opt/app/bin"; py "~/bin";
     py "/home/user/.local/bin"; py "info"; py "warning"]);
   (py "name",
    [py "myfunc"; py "helper"; py "process_data"; py "main"; py "run";
     py "init"; py "setup"; py "cleanup"; py "validate"; py "transform";
     py "parse"; py "format"; py "convert"; py "handle_request";
     py "process_event"; py "send_notification"; py "update_cache";
     py "fetch_data"; py "save_record"; py "delete_item"; py "create_user";
     py "get_config"]);
   (py "old",
    [py "foo"; py "bar"; py "old_name"; py "deprecated"; py "legacy"; py "v1";
     py "temp"; py "bak"]);
   (py "new",
    [py "baz"; py "qux"; py "new_name"; py "updated"; py "modern"; py "v2";
     py "current"; py "latest"]);
   (py "command",
    [py "ls"; py "cat"; py "grep"; py "find"; py "echo"; py "sed"; py "awk";
     py "cut"; py "sort"; py "uniq"]);
   (py "data",
    [(py "{" ++ [dquote] ++ py "key" ++ [dquote] ++ py ": " ++ [dquote] ++ py "value" ++ [dquote] ++ py "}");
     (py "{" ++ [dquote] ++ py "name" ++ [dquote] ++ py ": " ++ [dquote] ++ py "test" ++ [dquote] ++ py "}");
     py "key=value"; (py "{" ++ [dquote] ++ py "id" ++ [dquote] ++ py ": 1}");
     (py "{" ++ [dquote] ++ py "status" ++ [dquote] ++ py ": " ++ [dquote] ++ py "ok" ++ [dquote] ++ py "}");
     (py "{" ++ [dquote] ++ py "error" ++ [dquote] ++ py ": null}");
     py "name=test&value=123";
     (py "{" ++ [dquote] ++ py "items" ++ [dquote] ++ py ": []}");
     (py "{" ++ [dquote] ++ py "count" ++ [dquote] ++ py ": 42}");
     (py "{" ++ [dquote] ++ py "enabled" ++ [dquote] ++ py ": true}")]);
   (py "drive",
    [py "C"; py "D"; py "E"; py "F"; py "G"]);
   (py "module",
    [py "numpy"; py "pandas"; py "PSReadLine"; py "Az"; py "AzureRM";
     py "ActiveDirectory"; py "SqlServer"; py "VMware.PowerCLI"; py "Pester";
     py "ImportExcel"]);
   (py "cmdlet",
    [py "Get-Process"; py "Get-Service"; py "Set-Location";
     py "Get-ChildItem"; py "Get-Content"; py "Set-Content"; py "New-Item";
     py "Remove-Item"; py "Copy-Item"; py "Move-Item"; py "Get-Help";
     py "Get-Command"; py "Invoke-WebRequest"; py "ConvertTo-Json"]);
   (py "color",
    [py "red"; py "green"; py "blue"; py "yellow"; py "cyan"; py "magenta";
     py "white"; py "black"]);
   (py "expression",
    [py "1 + 1"; py "2 * 3"; py "10 / 2"; py "5 - 3"; py "2 ** 8";
     py "100 % 7"; py "sqrt(16)"]);
   (py "delimiter",
    [py ","; py ":"; py ";"; py "|"; [tab]; py " "; py "-"; py "_"; py "/";
     py "."]);
   (py "string",
    [py "hello world"; py "test string"; py "foo,bar,baz"; py "lorem ipsum";
     py "quick brown fox"; py "sample text"; py "example data";
     py "test input"; py "user@email.com"; py "192.168.1.1"]);
   (py "src",
    [py "file.txt"; py "source/"; py "./data"; py "input.json";
     py "backup.tar.gz"; py "dump.sql"; py "exports/"; py "downloads/";
     py "~/Documents/report.pdf"; py "/tmp/data.csv"]);
   (py "dst",
    [py "backup/"; py "output.txt"; py "./dest"; py "result.json";
     py "archive/"; py "processed/"; py "~/backups/"; py "/mnt/storage/";
     py "s3://bucket/path/"; py "/var/backup/"]);
   (py "group",
    [py "users"; py "admin"; py "www-data"; py "docker"; py "wheel";
     py "sudo"; py "staff"; py "developers"]);
   (py "content",
    [py "Hello World"; py "Test content"; py "New line"; py "Sample text";
     py "Lorem ipsum"; py "Configuration value"; py "Debug message";
     py "Error log entry"; py "Status update"]);
   (py "archive",
    [py "backup"; py "archive"; py "data"; py "logs"; py "exports";
     py "dumps"; py "snapshots"]);
   (py "dir",
    [py "mydir"; py "project"; py "backup"; py "data"; py "logs"; py "tmp";
     py "cache"; py "config"; py "uploads"; py "downloads"; py "exports";
     py "imports"; py "output"; py "results"]);
   (py "port",
    [py "80"; py "443"; py "8080"; py "3000"; py "5000"; py "8000"; py "5432";
     py "3306"; py "6379"; py "27017"]);
   (py "commit",
    [py "HEAD"; py "HEAD~1"; py "HEAD~2"; py "main"; py "abc123f";
     py "v1.0.0"; py "origin/main"]);
   (py "repo",
    [py "myrepo"; py "project"; py "app"; py "api"; py "frontend";
     py "backend"; py "user/repo"]);
   (py "tag",
    [py "v1.0.0"; py "v1.0.1"; py "v2.0.0"; py "latest"; py "stable";
     py "beta"; py "alpha"]);
   (py "key",
    [py "id"; py "name"; py "type"; py "status"; py "created_at";
     py "updated_at"; py "value"; py "data"])
  ].


(** [get_random_variable(var_name, rng)] *)
Definition get_random_variable (var_name : str) : Rand str :=
  match dict_get var_name COMMON_VARIABLES with
  | Some values => choice values
  | None => Ret var_name
  end.

(** [_extract_variables(template)], defined alike in the four generator
    classes: one value per distinct placeholder, in order of first
    appearance. *)
Definition extract_variables (template : str) : Rand (list (str * str)) :=
  fold_left
    (fun acc placeholder =>
       variables <- acc ;;
       if dict_mem placeholder variables then Ret variables
       else
         v <- get_random_variable placeholder ;;
         Ret (variables ++ [(placeholder, v)]))
    (findall_placeholders template) (Ret []).

(** [ex.incorrect_command.strip() != ex.correct_command.strip()] *)
Definition not_null (ex : TrainingExample) : bool :=
  negb (str_eqb (strip (incorrect_command ex)) (strip (correct_command ex))).

(** [{shell: int(count * weight) for shell, weight in SHELL_WEIGHTS.items()}],
    then the remainder credited to ["bash"] when the total is short. *)
Definition shell_counts (count : Z) : list (str * Z) :=
  let counts := map (fun sw => (fst sw, trunc (fmul (of_Z count) (snd sw)))) SHELL_WEIGHTS in
  let total := fold_left Z.add (map snd counts) 0%Z in
  if (total <? count)%Z then
    map (fun sc => if str_eqb (fst sc) (py "bash")
                   then (fst sc, (snd sc + (count - total))%Z) else sc) counts
  else counts.

(** [xs[:count]] *)
Definition slice_to {A : Type} (xs : list A) (count : Z) : list A :=
  if (0 <=? count)%Z then firstn (Z.to_nat count) xs
  else firstn (length xs - Z.to_nat (- count)) xs.

End BaseGenerator.
Import BaseGenerator.

(** ** [single_command_gen.py] *)

Module SingleCommandGenerator.

(** What [yaml.safe_load] may put under a category key: a list, whose
    items are dicts or not, or something that is not a list. *)
Inductive yaml_item : Type :=
| YDict (e : entry)
| YScalar.

Inductive yaml_value : Type :=
| YList (items : list yaml_item)
| YOther.

(** [self.templates] : shell name to loaded template. *)
Definition templates_t : Type := list (str * list (str * yaml_value)).

Definition ERROR_DISTRIBUTION : list (str * float) :=
  [ (py "typo", dec 15 100);
    (py "wrong_flag", dec 25 100);
    (py "permission", dec 15 100);
    (py "path", dec 20 100);
    (py "syntax", dec 25 100) ].

Definition MAX_SINGLE_CHAR_PERCENTAGE : float := dec 5 100.

Definition CATEGORIES : list str :=
  [ py "navigation"; py "file_operations"; py "search"; py "processes";
    py "network"; py "git"; py "packages"; py "compression"; py "text";
    py "system"; py "docker"; py "kubernetes"; py "variables"; py "help" ].

(** [sum(1 for a, b in zip(inc, cor) if a != b)] *)
Definition diff_count (inc cor : str) : nat :=
  length (filter (fun ab => negb (Ascii.eqb (fst ab) (snd ab))) (combine inc cor)).

(** [_is_single_char_correction(incorrect, correct)] *)
Definition _is_single_char_correction (incorrect correct : str) : bool :=
  let inc := strip incorrect in
  let cor := strip correct in
  if length inc =? length cor then diff_count inc cor =? 1
  else if (Z.abs (Z.of_nat (length inc) - Z.of_nat (length cor)) =? 1)%Z then
    let (shorter, longer) :=
      if length inc <=? length cor then (inc, cor) else (cor, inc) in
    existsb (fun i => str_eqb shorter (firstn i longer ++ skipn (S i) longer))
            (seq 0 (length longer))
  else false.

(** [_select_error_type()] *)
Definition _select_error_type : Rand str :=
  choices (map fst ERROR_DISTRIBUTION) (map snd ERROR_DISTRIBUTION).

(** [_generate_typo_error(correct)] *)
Definition _generate_typo_error (correct : str) : Rand str :=
  error_subtype <-
    choices [py "char_swap"; py "char_delete"; py "char_double";
             py "adjacent_key"; py "missing_space"]
            [dec 5 100; dec 5 100; dec 5 100; dec 5 100; dec 80 100] ;;
  let fallthrough := generate_typo correct (dec 15 100) in
  if str_eqb error_subtype (py "char_swap") then generate_typo correct (of_Z 1)
  else if str_eqb error_subtype (py "char_delete") then
    let words := split_ws correct in
    match words with
    | [] => fallthrough
    | _ :: _ =>
        idx <- randint 0 (Z.of_nat (length words) - 1) ;;
        let i := Z.to_nat idx in
        let word := nth i words [] in
        if 2 <? length word then
          pos <- randint 1 (Z.of_nat (length word) - 1) ;;
          let p := Z.to_nat pos in
          Ret (join (py " ") (set_nth words i (firstn p word ++ skipn (p + 1) word)))
        else fallthrough
    end
  else if str_eqb error_subtype (py "char_double") then
    let words := split_ws correct in
    match words with
    | [] => fallthrough
    | _ :: _ =>
        idx <- randint 0 (Z.of_nat (length words) - 1) ;;
        let i := Z.to_nat idx in
        let word := nth i words [] in
        if 1 <? length word then
          pos <- randint 0 (Z.of_nat (length word) - 1) ;;
          let p := Z.to_nat pos in
          Ret (join (py " ")
                 (set_nth words i (firstn p word ++ char_at word p :: skipn p word)))
        else fallthrough
    end
  else if str_eqb error_subtype (py "adjacent_key") then generate_typo correct (of_Z 1)
  else if str_eqb error_subtype (py "missing_space") then remove_space correct
  else fallthrough.

(** The loop of [_generate_flag_error] that turns the first short flag
    of more than two characters into a long one. *)
Fixpoint lengthen_first_flag (parts : list str) : list str :=
  match parts with
  | [] => []
  | part :: rest =>
      if startswith (py "-") part && negb (startswith (py "--") part)
         && (2 <? length part)
      then (py "-" ++ part) :: rest
      else part :: lengthen_first_flag rest
  end.

(** The loop of [_generate_flag_error] that pops the argument following
    the first flag that has one. *)
Fixpoint drop_first_flag_value (parts : list str) : list str :=
  match parts with
  | p :: ((q :: rest) as tl) =>
      if startswith (py "-") p && negb (startswith (py "-") q)
      then p :: rest
      else p :: drop_first_flag_value tl
  | _ => parts
  end.

(** [_generate_flag_error(correct, shell)] *)
Definition _generate_flag_error (correct shell : str) : Rand str :=
  let result :=
    if contains (py " --") correct then replace_first (py " --") (py " -") correct
    else if contains (py " -") correct && negb (contains (py " --") correct)
    then join (py " ") (lengthen_first_flag (split_ws correct))
    else correct in
  x <- random ;;
  let result :=
    if fltb x (dec 3 10)
    then join (py " ") (drop_first_flag_value (split_ws result))
    else result in
  if negb (str_eqb result correct) then Ret result
  else generate_typo correct (dec 15 100).

Definition sudo_commands : list str :=
  [ py "apt"; py "apt-get"; py "yum"; py "dnf"; py "pacman";
    py "systemctl"; py "service"; py "mount"; py "umount";
    py "chown"; py "chmod"; py "useradd"; py "usermod" ].

(** [_generate_permission_error(correct, shell)] *)
Definition _generate_permission_error (correct shell : str) : str :=
  if startswith (py "sudo ") correct then skipn 5 correct
  else
    let words := split_ws correct in
    if match words with
       | [] => false
       | w0 :: _ => existsb (fun cmd => contains cmd w0) sudo_commands
       end && negb (startswith (py "sudo") correct)
    then correct
    else if str_eqb shell (py "powershell") then correct
    else correct.

(** The loop of the ["missing_slash"] case: the first part with more than
    two [/]-separated segments has two adjacent segments joined. *)
Fixpoint merge_path_segments (parts : list str) : Rand (list str) :=
  match parts with
  | [] => Ret []
  | part :: rest =>
      let segments := split_sep (py "/") part in
      if contains (py "/") part && (2 <? length segments) then
        idx <- randint 0 (Z.of_nat (length segments) - 2) ;;
        let i := Z.to_nat idx in
        let segments1 :=
          set_nth segments i (nth i segments [] ++ nth (i + 1) segments []) in
        Ret (join (py "/") (pop_nth segments1 (i + 1)) :: rest)
      else
        rest' <- merge_path_segments rest ;;
        Ret (part :: rest')
  end.

(** [_generate_path_error(correct)] *)
Definition _generate_path_error (correct : str) : Rand str :=
  error_subtype <-
    choice [py "relative_absolute"; py "missing_slash"; py "typo_in_path";
            py "wrong_separator"] ;;
  result <-
    (if str_eqb error_subtype (py "relative_absolute") then
       if contains (py "./") correct then Ret (replace_first (py "./") (py "/") correct)
       else if startswith (py "/") correct then Ret (py "." ++ correct)
       else Ret correct
     else if str_eqb error_subtype (py "missing_slash") then
       if contains (py "/") correct then
         parts <- merge_path_segments (split_ws correct) ;;
         Ret (join (py " ") parts)
       else Ret correct
     else if str_eqb error_subtype (py "typo_in_path") then
       generate_typo correct (of_Z 1)
     else if str_eqb error_subtype (py "wrong_separator") then
       if contains (py "/") correct then
         x <- random ;;
         if fltb x (dec 5 10) then Ret (replace_first (py "/") (py "\") correct)
         else Ret correct
       else Ret correct
     else Ret correct) ;;
  if negb (str_eqb result correct) then Ret result
  else generate_typo correct (dec 15 100).

Definition operators : list (str * str) :=
  [ (py "&&", py "&"); (py "||", py "|"); (py ">>", py ">"); (py "==", py "=") ].

(** The loop of the ["wrong_operator"] case. *)
Fixpoint downgrade_first_operator (ops : list (str * str)) (result : str) : str :=
  match ops with
  | [] => result
  | (correct_op, wrong_op) :: ops' =>
      if contains correct_op result then replace_first correct_op wrong_op result
      else downgrade_first_operator ops' result
  end.

(** [_generate_syntax_error(correct, shell)] *)
Definition _generate_syntax_error (correct shell : str) : Rand str :=
  error_subtype <-
    choice [py "missing_quote"; py "missing_escape"; py "wrong_operator";
            py "extra_character"] ;;
  result <-
    (if str_eqb error_subtype (py "missing_quote") then
       if contains [dquote] correct then Ret (replace_first [dquote] [] correct)
       else if contains (py "'") correct then Ret (replace_first (py "'") [] correct)
       else Ret correct
     else if str_eqb error_subtype (py "missing_escape") then
       if contains (py "\") correct then Ret (replace_first (py "\") [] correct)
       else Ret correct
     else if str_eqb error_subtype (py "wrong_operator") then
       Ret (downgrade_first_operator operators correct)
     else if str_eqb error_subtype (py "extra_character") then
       let words := split_ws correct in
       match words with
       | [] => Ret correct
       | _ :: _ =>
           idx <- randint 0 (Z.of_nat (length words) - 1) ;;
           let i := Z.to_nat idx in
           let word := nth i words [] in
           pos <- randint 0 (Z.of_nat (length word)) ;;
           let p := Z.to_nat pos in
           char <- choice (py "{}[]();") ;;
           Ret (join (py " ") (set_nth words i (firstn p word ++ char :: skipn p word)))
       end
     else Ret correct) ;;
  if negb (str_eqb result correct) then Ret result
  else generate_typo correct (dec 15 100).

(** [_generate_incorrect(correct, entry, error_type, shell, variables)] *)
Definition _generate_incorrect (correct : str) (e : entry) (error_type shell : str)
    (variables : list (str * str)) : Rand str :=
  let by_type :=
    if str_eqb error_type (py "typo") then _generate_typo_error correct
    else if str_eqb error_type (py "wrong_flag") then _generate_flag_error correct shell
    else if str_eqb error_type (py "permission") then
      Ret (_generate_permission_error correct shell)
    else if str_eqb error_type (py "path") then _generate_path_error correct
    else if str_eqb error_type (py "syntax") then _generate_syntax_error correct shell
    else generate_typo correct (dec 15 100) in
  match entry_errors e with
  | Some ((_ :: _) as errors) =>
      x <- random ;;
      if fltb x (dec 6 10) then
        error <- choice errors ;;
        Ret (expand_template error variables)
      else by_type
  | _ => by_type
  end.

(** The [while] loop of [_create_example_from_entry] : at most
    [max_retries] attempts to leave the single-character class. *)
Fixpoint retry_multi_char (retries : nat) (correct_cmd shell incorrect_cmd : str)
  : Rand str :=
  match retries with
  | O => Ret incorrect_cmd
  | S retries' =>
      if _is_single_char_correction incorrect_cmd correct_cmd then
        incorrect1 <- remove_space correct_cmd ;;
        incorrect2 <-
          (if str_eqb incorrect1 correct_cmd
              || _is_single_char_correction incorrect1 correct_cmd
           then _generate_flag_error correct_cmd shell else Ret incorrect1) ;;
        incorrect3 <-
          (if str_eqb incorrect2 correct_cmd
              || _is_single_char_correction incorrect2 correct_cmd
           then _generate_path_error correct_cmd else Ret incorrect2) ;;
        retry_multi_char retries' correct_cmd shell incorrect3
      else Ret incorrect_cmd
  end.

(** [_create_example_from_entry(shell, category, entry)] *)
Definition _create_example_from_entry (shell category : str) (e : entry)
  : Rand (option TrainingExample) :=
  let correct_template := get_or (entry_correct e) [] in
  match correct_template with
  | [] => Ret None
  | _ :: _ =>
      variables <- extract_variables correct_template ;;
      let correct_cmd := expand_template correct_template variables in
      error_type <- _select_error_type ;;
      incorrect0 <- _generate_incorrect correct_cmd e error_type shell variables ;;
      incorrect1 <-
        (if str_eqb incorrect0 correct_cmd then generate_typo correct_cmd (of_Z 1)
         else Ret incorrect0) ;;
      incorrect_cmd <- retry_multi_char 3 correct_cmd shell incorrect1 ;;
      if str_eqb (strip incorrect_cmd) (strip correct_cmd) then Ret None
      else Ret (Some {| shell := shell;
                        incorrect_command := incorrect_cmd;
                        correct_command := correct_cmd;
                        category := category;
                        error_type := error_type;
                        source := py "template";
                        metadata := [(py "template", correct_template)] |})
  end.

(** The entries of the known categories that are dicts with a
    ["correct"] key, each with its category. *)
Definition collect_entries (template : list (str * yaml_value)) : list (str * entry) :=
  flat_map
    (fun category =>
       match dict_get category template with
       | Some (YList entries) =>
           flat_map
             (fun item =>
                match item with
                | YDict e =>
                    match entry_correct e with
                    | Some _ => [(category, e)]
                    | None => []
                    end
                | YScalar => []
                end) entries
       | _ => []
       end)
    CATEGORIES.

(** [_generate_for_shell(shell, count)] *)
Definition _generate_for_shell (templates : templates_t) (shell : str) (count : Z)
  : Rand (list TrainingExample) :=
  let template := get_or (dict_get shell templates) [] in
  let all_entries := collect_entries template in
  match all_entries with
  | [] => Ret []
  | _ :: _ =>
      for_range (Z.to_nat count)
        (fun examples =>
           '(category, e) <- choice all_entries ;;
           example <- _create_example_from_entry shell category e ;;
           match example with
           | Some ex => Ret (examples ++ [ex])
           | None => Ret examples
           end)
        []
  end.

(** The deficit loop of [generate] : up to [max_retries] extra rounds
    drawn from the bash templates. *)
Fixpoint regenerate (templates : templates_t) (retries : nat) (count : Z)
    (examples : list TrainingExample) : Rand (list TrainingExample) :=
  match retries with
  | O => Ret examples
  | S retries' =>
      if (Z.of_nat (length examples) <? count)%Z then
        let deficit := (count - Z.of_nat (length examples))%Z in
        extra <- _generate_for_shell templates (py "bash") (deficit * 2) ;;
        regenerate templates retries' count (examples ++ filter not_null extra)
      else Ret examples
  end.

(** The single-character cap of [generate] : partition, truncate the
    single-character part, recombine. *)
Definition cap_single_char (count : Z) (examples : list TrainingExample)
  : list TrainingExample :=
  let max_single_char := trunc (fmul (of_Z count) MAX_SINGLE_CHAR_PERCENTAGE) in
  let is_single ex :=
    _is_single_char_correction (incorrect_command ex) (correct_command ex) in
  let single_char_examples := filter is_single examples in
  let multi_char_examples := filter (fun ex => negb (is_single ex)) examples in
  let single_char_examples :=
    if (max_single_char <? Z.of_nat (length single_char_examples))%Z
    then slice_to single_char_examples max_single_char
    else single_char_examples in
  multi_char_examples ++ single_char_examples.

(** [generate(count)] *)
Definition generate (templates : templates_t) (count : Z) : Rand (list TrainingExample) :=
  examples <-
    fold_left
      (fun acc sc =>
         examples <- acc ;;
         if dict_mem (fst sc) templates then
           shell_examples <- _generate_for_shell templates (fst sc) (snd sc) ;;
           Ret (examples ++ shell_examples)
         else Ret examples)
      (shell_counts count) (Ret []) ;;
  let examples := filter not_null examples in
  examples <- regenerate templates 3 count examples ;;
  examples <- shuffle examples ;;
  let examples := cap_single_char count examples in
  examples <- shuffle examples ;;
  Ret (slice_to examples count).

End SingleCommandGenerator.

(** ** [chained_command_gen.py] *)

Module ChainedCommandGenerator.

Definition ERROR_DISTRIBUTION : list (str * float) :=
  [ (py "pipe", dec 40 100);
    (py "chaining", dec 30 100);
    (py "redirection", dec 20 100);
    (py "subshell", dec 10 100) ].

Definition PIPE_PATTERNS : list (str * list entry) :=
  [
   (py "bash",
    [
     pattern (py "grep '{pattern}' {file} | sort -u | wc -l")
        [py "cat {file} | grep '{pattern}' | sort | uniq | wc";
         py "grep {pattern} {file} | sort -u | wc"]
        (py "text_processing");
     pattern (py "find . -name '*.py' -exec grep -l '{pattern}' {} +")
        [py "find . -name '*.py' | xargs grep '{pattern}'";
         py "find . -name *.py -exec grep -l {pattern} {} \;"]
        (py "search");
     pattern (py "ps aux | grep -v grep | grep {process}")
        [py "ps aux | grep {process}"; py "ps -ef | grep {process}"]
        (py "processes");
     pattern (py "curl -s {url} | jq '.'")
        [py "curl {url} | jq ."; py "curl -s {url} | jq"]
        (py "network");
     pattern (py "docker ps -q | xargs docker stop")
        [py "docker stop $(docker ps -q)"; py "docker ps | xargs docker stop"]
        (py "docker");
     pattern (py "git log --oneline | head -10")
        [py "git log | head -10"; py "git log --oneline | head"]
        (py "git");
     pattern (py "ls -la | awk '{print $9}'")
        [py "ls -la | awk {print $9}"; py "ls -la | cut -d' ' -f9"]
        (py "file_operations")
    ]);
   (py "zsh",
    [
     pattern (py "grep -r '{pattern}' **/*.py | sort -u")
        [py "grep -r '{pattern}' . --include='*.py' | sort -u";
         py "find . -name '*.py' | xargs grep '{pattern}' | sort -u"]
        (py "search")
    ]);
   (py "powershell",
    [
     pattern (py "Get-Process | Where-Object {{$_.CPU -gt 100}} | Sort-Object CPU -Descending")
        [py "Get-Process | Where CPU -gt 100 | Sort CPU";
         py "ps | where CPU -gt 100 | sort CPU"]
        (py "processes");
     pattern (py "Get-ChildItem -Recurse | Where-Object {{$_.Length -gt 1MB}}")
        [py "Get-ChildItem -r | Where Length -gt 1MB";
         py "gci -r | ? Length -gt 1MB"]
        (py "file_operations");
     pattern (py "Get-Content {file} | Select-String '{pattern}'")
        [py "gc {file} | sls '{pattern}'"; py "cat {file} | grep '{pattern}'"]
        (py "text_processing")
    ]);
   (py "cmd",
    [
     pattern (py "dir /s /b | findstr " ++ [dquote] ++ py "{pattern}" ++ [dquote])
        [py "dir /s | findstr {pattern}";
         (py "dir | findstr " ++ [dquote] ++ py "{pattern}" ++ [dquote])]
        (py "search");
     pattern (py "type {file} | findstr " ++ [dquote] ++ py "{pattern}" ++ [dquote])
        [(py "type {file} | find " ++ [dquote] ++ py "{pattern}" ++ [dquote]);
         (py "findstr " ++ [dquote] ++ py "{pattern}" ++ [dquote] ++ py " {file}")]
        (py "text_processing")
    ]);
   (py "fish",
    [
     pattern (py "find . -name '*.py' | while read f; echo $f; end")
        [py "find . -name '*.py' | while read f; do echo $f; done";
         py "for f in (find . -name '*.py'); echo $f; end"]
        (py "search")
    ]);
   (py "tcsh",
    [
     pattern (py "find . -name '*.py' | xargs grep '{pattern}'")
        [py "find . -name *.py | xargs grep {pattern}"]
        (py "search")
    ])
  ].

Definition CHAINING_PATTERNS : list (str * list entry) :=
  [
   (py "bash",
    [
     pattern (py "mkdir -p {path} && cd {path}")
        [py "mkdir {path}; cd {path}"; py "mkdir -p {path}; cd {path}";
         py "mkdir {path} && cd {path}"]
        (py "navigation");
     pattern (py "git add . && git commit -m '{message}' && git push")
        [py "git add .; git commit -m '{message}'; git push";
         py "git add . && git commit -m '{message}'";
         py "git add && git commit && git push"]
        (py "git");
     pattern (py "cd {path} && npm install && npm start")
        [py "cd {path}; npm install; npm start";
         py "cd {path} && npm i && npm start"]
        (py "development");
     pattern (py "sudo apt update && sudo apt upgrade -y")
        [py "apt update && apt upgrade";
         py "sudo apt update; sudo apt upgrade -y"]
        (py "packages");
     pattern (py "docker-compose down && docker-compose up -d")
        [py "docker compose down && docker compose up -d";
         py "docker-compose down; docker-compose up -d"]
        (py "docker");
     pattern (py "make clean && make && make install")
        [py "make clean; make; make install"; py "make clean && make"]
        (py "development");
     pattern (py "test -f {file} && cat {file} || echo 'Not found'")
        [py "if [ -f {file} ]; then cat {file}; else echo 'Not found'; fi";
         py "[ -f {file} ] && cat {file}"]
        (py "file_operations")
    ]);
   (py "zsh",
    [
     pattern (py "mkdir -p {path} && cd {path}")
        [py "mkdir {path}; cd {path}"]
        (py "navigation")
    ]);
   (py "powershell",
    [
     pattern (py "New-Item -ItemType Directory -Path {path} -Force; Set-Location {path}")
        [py "mkdir {path}; cd {path}"; py "md {path} && cd {path}"]
        (py "navigation");
     pattern (py "git add .; git commit -m '{message}'; git push")
        [py "git add . && git commit -m '{message}' && git push"]
        (py "git")
    ]);
   (py "cmd",
    [
     pattern (py "mkdir {path} && cd {path}")
        [py "mkdir {path} & cd {path}"; py "md {path} && cd {path}"]
        (py "navigation")
    ]);
   (py "fish",
    [
     pattern (py "mkdir -p {path}; and cd {path}")
        [py "mkdir -p {path} && cd {path}"; py "mkdir {path}; cd {path}"]
        (py "navigation")
    ]);
   (py "tcsh",
    [
     pattern (py "mkdir -p {path} && cd {path}")
        [py "mkdir {path}; cd {path}"]
        (py "navigation")
    ])
  ].

Definition REDIRECTION_PATTERNS : list (str * list entry) :=
  [
   (py "bash",
    [
     pattern (py "command > {file} 2>&1")
        [py "command 2>&1 > {file}"; py "command > {file} 2>1";
         py "command &> {file}"]
        (py "redirection");
     pattern (py "command >> {file} 2>&1")
        [py "command 2>&1 >> {file}"; py "command >> {file}"]
        (py "redirection");
     pattern (py "command 2>/dev/null")
        [py "command 2> /dev/null"; py "command >/dev/null 2>&1"]
        (py "redirection");
     pattern (py "cat << 'EOF'" ++ [newline] ++ py "content" ++ [newline] ++ py "EOF")
        [(py "cat << EOF" ++ [newline] ++ py "content" ++ [newline] ++ py "EOF");
         py "echo 'content'"]
        (py "redirection");
     pattern (py "tee {file} <<< 'content'")
        [py "echo 'content' | tee {file}"; py "echo 'content' > {file}"]
        (py "redirection")
    ]);
   (py "zsh",
    [
     pattern (py "command &> {file}")
        [py "command > {file} 2>&1"]
        (py "redirection")
    ]);
   (py "powershell",
    [
     pattern (py "command 2>&1 | Out-File {file}")
        [py "command > {file} 2>&1"; py "command | Out-File {file}"]
        (py "redirection");
     pattern (py "command *> {file}")
        [py "command > {file}"; py "command 2>&1 > {file}"]
        (py "redirection")
    ]);
   (py "cmd",
    [
     pattern (py "command > {file} 2>&1")
        [py "command > {file}"; py "command 2>&1 > {file}"]
        (py "redirection")
    ]);
   (py "fish",
    [
     pattern (py "command > {file} 2>&1")
        [py "command &> {file}"]
        (py "redirection")
    ]);
   (py "tcsh",
    [
     pattern (py "command >& {file}")
        [py "command > {file} 2>&1"]
        (py "redirection")
    ])
  ].


(** [_select_error_type()] *)
Definition _select_error_type : Rand str :=
  choices (map fst ERROR_DISTRIBUTION) (map snd ERROR_DISTRIBUTION).

(** [_generate_synthetic_error(correct, error_type, shell)] *)
Definition _generate_synthetic_error (correct error_type shell : str) : Rand str :=
  let fallback := generate_typo correct (dec 15 100) in
  if str_eqb error_type (py "pipe") then
    if contains (py " | ") correct then
      let parts := split_sep (py " | ") correct in
      if 2 <? length parts then
        idx <- randint 1 (Z.of_nat (length parts) - 1) ;;
        Ret (join (py " | ") (pop_nth parts (Z.to_nat idx)))
      else fallback
    else fallback
  else if str_eqb error_type (py "chaining") then
    if contains (py " && ") correct
    then Ret (replace_first (py " && ") (py "; ") correct)
    else if contains (py " || ") correct
    then Ret (replace_first (py " || ") (py " | ") correct)
    else fallback
  else if str_eqb error_type (py "redirection") then
    if contains (py "2>&1") correct
    then Ret (replace_first (py "2>&1") (py "2>1") correct)
    else if contains (py ">>") correct
    then Ret (replace_first (py ">>") (py ">") correct)
    else fallback
  else fallback.

(** Lines 488-495 of [_create_example_from_pattern] : the incorrect
    candidate, from an author-supplied wrong template or synthesised. *)
Definition select_error (errors : list str) (variables : list (str * str))
    (correct_cmd error_type shell : str) : Rand str :=
  match errors with
  | _ :: _ =>
      x <- random ;;
      if fltb x (dec 7 10) then
        error_template <- choice errors ;;
        Ret (expand_template error_template variables)
      else _generate_synthetic_error correct_cmd error_type shell
  | [] => _generate_synthetic_error correct_cmd error_type shell
  end.

(** Lines 497-508 : the null-correction gate.  [None] means the example
    is dropped. *)
Definition null_gate (correct_cmd error_type shell incorrect_cmd : str)
  : Rand (option str) :=
  if str_eqb (strip incorrect_cmd) (strip correct_cmd) then
    incorrect1 <- _generate_synthetic_error correct_cmd error_type shell ;;
    incorrect2 <-
      (if str_eqb (strip incorrect1) (strip correct_cmd)
       then generate_typo correct_cmd (of_Z 1) else Ret incorrect1) ;;
    if str_eqb (strip incorrect2) (strip correct_cmd) then Ret None
    else Ret (Some incorrect2)
  else Ret (Some incorrect_cmd).

(** [_create_example_from_pattern(shell, pattern, error_type)] *)
Definition _create_example_from_pattern (shell : str) (p : entry) (error_type : str)
  : Rand (option TrainingExample) :=
  let correct_template := get_or (entry_correct p) [] in
  let errors := get_or (entry_errors p) [] in
  let category := get_or (entry_category p) (py "chained") in
  match correct_template with
  | [] => Ret None
  | _ :: _ =>
      variables <- extract_variables correct_template ;;
      let correct_cmd := expand_template correct_template variables in
      incorrect_cmd <- select_error errors variables correct_cmd error_type shell ;;
      gated <- null_gate correct_cmd error_type shell incorrect_cmd ;;
      match gated with
      | None => Ret None
      | Some incorrect_cmd =>
          Ret (Some {| shell := shell;
                       incorrect_command := incorrect_cmd;
                       correct_command := correct_cmd;
                       category := category;
                       error_type := error_type;
                       source := py "chained_pattern";
                       metadata := [] |})
      end
  end.

(** [TABLE.get(shell, TABLE.get("bash", []))] *)
Definition patterns_for (table : list (str * list entry)) (shell : str) : list entry :=
  get_or (dict_get shell table) (get_or (dict_get (py "bash") table) []).

(** [_generate_for_shell(shell, count)] *)
Definition _generate_for_shell (shell : str) (count : Z) : Rand (list TrainingExample) :=
  let pipe_patterns := patterns_for PIPE_PATTERNS shell in
  let chain_patterns := patterns_for CHAINING_PATTERNS shell in
  let redir_patterns := patterns_for REDIRECTION_PATTERNS shell in
  let nonempty (l : list entry) := match l with [] => false | _ :: _ => true end in
  for_range (Z.to_nat count)
    (fun examples =>
       error_type <- _select_error_type ;;
       let continue_with (patterns : list entry) :=
         p <- choice patterns ;;
         example <- _create_example_from_pattern shell p error_type ;;
         match example with
         | Some ex => Ret (examples ++ [ex])
         | None => Ret examples
         end in
       if str_eqb error_type (py "pipe") && nonempty pipe_patterns
       then continue_with pipe_patterns
       else if str_eqb error_type (py "chaining") && nonempty chain_patterns
       then continue_with chain_patterns
       else if str_eqb error_type (py "redirection") && nonempty redir_patterns
       then continue_with redir_patterns
       else
         let all_patterns := pipe_patterns ++ chain_patterns ++ redir_patterns in
         if nonempty all_patterns then continue_with all_patterns
         else Ret examples)
    [].

(** The deficit loop of [generate]. *)
Fixpoint regenerate (retries : nat) (count : Z) (examples : list TrainingExample)
  : Rand (list TrainingExample) :=
  match retries with
  | O => Ret examples
  | S retries' =>
      if (Z.of_nat (length examples) <? count)%Z then
        let deficit := (count - Z.of_nat (length examples))%Z in
        extra <- _generate_for_shell (py "bash") (deficit * 2) ;;
        regenerate retries' count (examples ++ filter not_null extra)
      else Ret examples
  end.

(** [generate(count)] *)
Definition generate (count : Z) : Rand (list TrainingExample) :=
  examples <-
    fold_left
      (fun acc sc =>
         examples <- acc ;;
         shell_examples <- _generate_for_shell (fst sc) (snd sc) ;;
         Ret (examples ++ shell_examples))
      (shell_counts count) (Ret []) ;;
  let examples := filter not_null examples in
  examples <- regenerate 3 count examples ;;
  examples <- shuffle examples ;;
  Ret (slice_to examples count).

End ChainedCommandGenerator.

(** ** [natural_lang_gen.py] *)

Module NaturalLanguageGenerator.

Definition NL_TYPE_DISTRIBUTION : list (str * float) :=
  [ (py "imperative", dec 40 100);
    (py "question", dec 20 100);
    (py "mixed", dec 25 100);
    (py "intent", dec 15 100) ].

Definition NL_PATTERNS : list (str * list (str * list (str * str))) :=
  [
   (py "bash",
    [
     (py "imperative",
      [(py "list all files", py "ls -la");
       (py "list files", py "ls");
       (py "show hidden files", py "ls -la");
       (py "list files sorted by size", py "ls -lS");
       (py "list files sorted by date", py "ls -lt");
       (py "show current directory", py "pwd");
       (py "go to home", py "cd ~");
       (py "go up one directory", py "cd ..");
       (py "go to parent", py "cd ..");
       (py "create directory {path}", py "mkdir -p {path}");
       (py "make folder {path}", py "mkdir -p {path}");
       (py "delete file {file}", py "rm {file}");
       (py "remove {file}", py "rm {file}");
       (py "delete folder {path}", py "rm -rf {path}");
       (py "copy {src} to {dst}", py "cp {src} {dst}");
       (py "copy directory {src} to {dst}", py "cp -r {src} {dst}");
       (py "move {src} to {dst}", py "mv {src} {dst}");
       (py "rename {old} to {new}", py "mv {old} {new}");
       (py "show {file}", py "cat {file}");
       (py "print {file}", py "cat {file}");
       (py "display {file} contents", py "cat {file}");
       (py "edit {file}", py "nano {file}");
       (py "open {file} in vim", py "vim {file}");
       (py "find files named {pattern}", py "find . -name '{pattern}'");
       (py "search for {pattern}", py "grep -r '{pattern}' .");
       (py "search {pattern} in {file}", py "grep '{pattern}' {file}");
       (py "show running processes", py "ps aux");
       (py "list processes", py "ps aux");
       (py "kill process {pid}", py "kill -9 {pid}");
       (py "stop {process}", py "pkill {process}");
       (py "show disk space", py "df -h");
       (py "check disk usage", py "df -h");
       (py "show memory usage", py "free -h");
       (py "check memory", py "free -h");
       (py "show system info", py "uname -a");
       (py "download {url}", py "curl -O {url}");
       (py "fetch {url}", py "curl {url}");
       (py "ping {host}", py "ping -c 4 {host}");
       (py "check if {host} is up", py "ping -c 4 {host}");
       (py "connect to {host}", py "ssh {user}@{host}");
       (py "ssh to {host}", py "ssh {user}@{host}");
       (py "compress {dir}", py "tar -czf {dir}.tar.gz {dir}");
       (py "zip {dir}", py "zip -r {dir}.zip {dir}");
       (py "extract {file}", py "tar -xzf {file}");
       (py "unzip {file}", py "unzip {file}");
       (py "make {file} executable", py "chmod +x {file}");
       (py "change owner of {file} to {user}", py "chown {user} {file}");
       (py "count lines in {file}", py "wc -l {file}");
       (py "sort {file}", py "sort {file}");
       (py "remove duplicates from {file}", py "sort -u {file}");
       (py "show first {n} lines of {file}", py "head -n {n} {file}");
       (py "show last {n} lines of {file}", py "tail -n {n} {file}");
       (py "follow {file}", py "tail -f {file}");
       (py "watch {file} for changes", py "tail -f {file}")]);
     (py "question",
      [(py "what's my ip", py "ip addr show");
       (py "what is my ip address", py "ip addr show");
       (py "how much disk space", py "df -h");
       (py "how much memory", py "free -h");
       (py "what's running", py "ps aux");
       (py "what processes are running", py "ps aux");
       (py "where am i", py "pwd");
       (py "what directory", py "pwd");
       (py "who am i", py "whoami");
       (py "what user am i", py "whoami");
       (py "what's the date", py "date");
       (py "what time is it", py "date");
       (py "what's in this directory", py "ls -la");
       (py "what's the hostname", py "hostname");
       (py "what version of linux", py "uname -r");
       (py "what kernel version", py "uname -r");
       (py "is {process} running", py "pgrep {process}");
       (py "what's listening on port {n}", py "ss -tulpn | grep {n}");
       (py "what's using port {n}", py "lsof -i :{n}")]);
     (py "mixed",
      [(py "grep for {pattern} in {file}", py "grep '{pattern}' {file}");
       (py "grep {pattern} recursively", py "grep -r '{pattern}' .");
       (py "find large files", py "find . -type f -size +100M");
       (py "find files modified today", py "find . -mtime 0");
       (py "find empty files", py "find . -empty");
       (py "cat {file} and grep {pattern}", py "grep '{pattern}' {file}");
       (py "ls and sort by size", py "ls -lS");
       (py "ps and filter {process}", py "ps aux | grep {process}");
       (py "curl {url} and save", py "curl -O {url}");
       (py "wget {url}", py "wget {url}");
       (py "tar extract {file}", py "tar -xzf {file}");
       (py "chmod 755 {file}", py "chmod 755 {file}");
       (py "chown {user}:{group} {file}", py "chown {user}:{group} {file}")]);
     (py "intent",
      [(py "clean up docker", py "docker system prune -a");
       (py "remove unused docker images", py "docker image prune -a");
       (py "update system", py "sudo apt update && sudo apt upgrade -y");
       (py "update packages", py "sudo apt update && sudo apt upgrade -y");
       (py "install {package}", py "sudo apt install {package}");
       (py "uninstall {package}", py "sudo apt remove {package}");
       (py "restart {service}", py "sudo systemctl restart {service}");
       (py "start {service}", py "sudo systemctl start {service}");
       (py "stop {service}", py "sudo systemctl stop {service}");
       (py "check {service} status", py "sudo systemctl status {service}");
       (py "enable {service}", py "sudo systemctl enable {service}");
       (py "clear terminal", py "clear");
       (py "clear screen", py "clear");
       (py "exit terminal", py "exit");
       (py "logout", py "exit");
       (py "reboot", py "sudo reboot");
       (py "shutdown", py "sudo shutdown -h now");
       (py "backup {src} to {dst}", py "rsync -av {src} {dst}");
       (py "sync {src} to {dst}", py "rsync -av {src} {dst}")])
    ]);
   (py "zsh",
    [
     (py "imperative",
      [(py "list all files", py "ls -la");
       (py "list all python files", py "ls **/*.py");
       (py "show current directory", py "pwd");
       (py "create directory {path}", py "mkdir -p {path}");
       (py "find files named {pattern}", py "ls **/{pattern}")]);
     (py "question",
      [(py "what's my ip", py "ip addr show");
       (py "how much disk space", py "df -h")]);
     (py "mixed",
      [(py "grep for {pattern} in python files", py "grep -r '{pattern}' **/*.py")]);
     (py "intent",
      [(py "update system", py "sudo apt update && sudo apt upgrade -y")])
    ]);
   (py "powershell",
    [
     (py "imperative",
      [(py "list all files", py "Get-ChildItem");
       (py "list files", py "Get-ChildItem");
       (py "show hidden files", py "Get-ChildItem -Force");
       (py "show current directory", py "Get-Location");
       (py "go to home", py "Set-Location ~");
       (py "go up one directory", py "Set-Location ..");
       (py "create directory {path}", py "New-Item -ItemType Directory -Path {path}");
       (py "make folder {path}", py "New-Item -ItemType Directory -Path {path}");
       (py "delete file {file}", py "Remove-Item {file}");
       (py "remove {file}", py "Remove-Item {file}");
       (py "delete folder {path}", py "Remove-Item {path} -Recurse -Force");
       (py "copy {src} to {dst}", py "Copy-Item {src} -Destination {dst}");
       (py "move {src} to {dst}", py "Move-Item {src} -Destination {dst}");
       (py "show {file}", py "Get-Content {file}");
       (py "print {file}", py "Get-Content {file}");
       (py "show running processes", py "Get-Process");
       (py "list processes", py "Get-Process");
       (py "kill process {name}", py "Stop-Process -Name {name}");
       (py "stop {process}", py "Stop-Process -Name {process}");
       (py "show services", py "Get-Service");
       (py "restart {service}", py "Restart-Service {service}")]);
     (py "question",
      [(py "what's my ip", py "Get-NetIPAddress");
       (py "how much disk space", py "Get-Volume");
       (py "what's running", py "Get-Process");
       (py "where am i", py "Get-Location");
       (py "who am i", py "$env:USERNAME");
       (py "what computer name", py "$env:COMPUTERNAME")]);
     (py "mixed",
      [(py "find {pattern} in files", py "Get-ChildItem -Recurse | Select-String '{pattern}'");
       (py "grep for {pattern}", py "Select-String -Path * -Pattern '{pattern}'");
       (py "filter processes by cpu", py "Get-Process | Sort-Object CPU -Descending")]);
     (py "intent",
      [(py "install {package}", py "winget install {package}");
       (py "update system", py "winget upgrade --all");
       (py "clear terminal", py "Clear-Host");
       (py "exit terminal", py "exit")])
    ]);
   (py "cmd",
    [
     (py "imperative",
      [(py "list all files", py "dir /a");
       (py "list files", py "dir");
       (py "show current directory", py "cd");
       (py "go up one directory", py "cd ..");
       (py "create directory {path}", py "mkdir {path}");
       (py "delete file {file}", py "del {file}");
       (py "delete folder {path}", py "rmdir /s /q {path}");
       (py "copy {src} to {dst}", py "copy {src} {dst}");
       (py "move {src} to {dst}", py "move {src} {dst}");
       (py "show {file}", py "type {file}");
       (py "show running processes", py "tasklist");
       (py "kill process {name}", py "taskkill /im {name} /f")]);
     (py "question",
      [(py "what's my ip", py "ipconfig");
       (py "what's running", py "tasklist");
       (py "where am i", py "cd");
       (py "who am i", py "whoami")]);
     (py "mixed",
      [(py "find {pattern} in files", (py "findstr /s " ++ [dquote] ++ py "{pattern}" ++ [dquote] ++ py " *.*"))]);
     (py "intent",
      [(py "clear screen", py "cls");
       (py "reboot", py "shutdown /r /t 0");
       (py "shutdown", py "shutdown /s /t 0")])
    ]);
   (py "fish",
    [
     (py "imperative",
      [(py "list all files", py "ls -la");
       (py "show current directory", py "pwd");
       (py "set variable {var} to {value}", py "set {var} {value}");
       (py "export {var}", py "set -x {var} {value}")]);
     (py "question",
      [(py "what's my ip", py "ip addr show")]);
     (py "mixed",
      [(py "calculate {expression}", py "math '{expression}'")]);
     (py "intent",
      [(py "update completions", py "fish_update_completions")])
    ]);
   (py "tcsh",
    [
     (py "imperative",
      [(py "list all files", py "ls -la");
       (py "set environment variable {var}", py "setenv {var} {value}")]);
     (py "question",
      [(py "what's my ip", py "ifconfig")]);
     (py "mixed",
      []);
     (py "intent",
      [])
    ])
  ].

Definition GIT_PATTERNS : list (str * str) :=
  [(py "check git status", py "git status");
   (py "what changed", py "git status");
   (py "show changes", py "git diff");
   (py "stage all changes", py "git add .");
   (py "add all files", py "git add .");
   (py "commit with message {message}", py "git commit -m '{message}'");
   (py "save changes as {message}", py "git commit -m '{message}'");
   (py "push changes", py "git push");
   (py "push to {branch}", py "git push origin {branch}");
   (py "pull latest", py "git pull");
   (py "pull from {branch}", py "git pull origin {branch}");
   (py "switch to {branch}", py "git checkout {branch}");
   (py "create branch {branch}", py "git checkout -b {branch}");
   (py "new branch {branch}", py "git checkout -b {branch}");
   (py "merge {branch}", py "git merge {branch}");
   (py "show commit history", py "git log --oneline");
   (py "git history", py "git log --oneline");
   (py "stash changes", py "git stash");
   (py "apply stash", py "git stash pop");
   (py "clone {url}", py "git clone {url}");
   (py "download repo {url}", py "git clone {url}");
   (py "undo last commit", py "git reset --soft HEAD~1");
   (py "discard changes", py "git checkout .")].

Definition DOCKER_PATTERNS : list (str * str) :=
  [(py "list containers", py "docker ps");
   (py "show all containers", py "docker ps -a");
   (py "list images", py "docker images");
   (py "run {image}", py "docker run -it {image}");
   (py "start {container}", py "docker start {container}");
   (py "stop {container}", py "docker stop {container}");
   (py "remove container {container}", py "docker rm {container}");
   (py "remove image {image}", py "docker rmi {image}");
   (py "shell into {container}", py "docker exec -it {container} bash");
   (py "enter container {container}", py "docker exec -it {container} bash");
   (py "show {container} logs", py "docker logs {container}");
   (py "build docker image", py "docker build -t {image} .");
   (py "docker compose up", py "docker-compose up -d");
   (py "start services", py "docker-compose up -d");
   (py "stop services", py "docker-compose down");
   (py "clean up docker", py "docker system prune -a")].

Definition K8S_PATTERNS : list (str * str) :=
  [(py "check pod status", py "kubectl get pods");
   (py "list all pods", py "kubectl get pods -A");
   (py "show pods in all namespaces", py "kubectl get pods --all-namespaces");
   (py "what pods are running", py "kubectl get pods");
   (py "describe pod {pod}", py "kubectl describe pod {pod}");
   (py "get pod details {pod}", py "kubectl describe pod {pod}");
   (py "show pod logs {pod}", py "kubectl logs {pod}");
   (py "tail pod logs {pod}", py "kubectl logs -f {pod}");
   (py "follow logs for {pod}", py "kubectl logs -f {pod}");
   (py "exec into pod {pod}", py "kubectl exec -it {pod} -- bash");
   (py "shell into pod {pod}", py "kubectl exec -it {pod} -- bash");
   (py "restart deployment {name}", py "kubectl rollout restart deployment/{name}");
   (py "scale deployment {name} to {n}", py "kubectl scale deployment/{name} --replicas={n}");
   (py "scale {name} to {n} replicas", py "kubectl scale deployment/{name} --replicas={n}");
   (py "get deployments", py "kubectl get deployments");
   (py "list deployments", py "kubectl get deployments");
   (py "show services", py "kubectl get services");
   (py "list services", py "kubectl get svc");
   (py "apply config {file}", py "kubectl apply -f {file}");
   (py "deploy {file}", py "kubectl apply -f {file}");
   (py "delete pod {pod}", py "kubectl delete pod {pod}");
   (py "port forward {pod} {n}", py "kubectl port-forward {pod} {n}:{n}");
   (py "forward port {n} to pod {pod}", py "kubectl port-forward {pod} {n}:{n}");
   (py "get configmaps", py "kubectl get configmaps");
   (py "get secrets", py "kubectl get secrets");
   (py "describe service {name}", py "kubectl describe svc {name}");
   (py "check cluster info", py "kubectl cluster-info");
   (py "get nodes", py "kubectl get nodes");
   (py "show node status", py "kubectl get nodes")].

Definition WORKFLOW_PATTERNS : list (str * str) :=
  [(py "deploy to production", py "git pull && npm run build && npm run deploy");
   (py "setup dev environment", py "npm install && npm run setup && npm start");
   (py "clean and rebuild", py "npm run clean && npm run build");
   (py "run tests then push", py "npm test && git push");
   (py "build and deploy", py "docker build -t {image} . && docker push {image}");
   (py "backup database", py "pg_dump -U postgres {name} > {name}_backup.sql");
   (py "restore database", py "psql -U postgres {name} < {file}");
   (py "update and upgrade", py "sudo apt update && sudo apt upgrade -y");
   (py "clean npm cache", py "npm cache clean --force && rm -rf node_modules && npm install");
   (py "reset git branch", py "git fetch origin && git reset --hard origin/{branch}");
   (py "deploy container", py "docker-compose down && docker-compose pull && docker-compose up -d");
   (py "full stack deploy", py "git pull && npm install && npm run build && pm2 restart all");
   (py "restart services", py "sudo systemctl stop {service} && sudo systemctl start {service}")].

Definition DEBUG_PATTERNS : list (str * str) :=
  [(py "check open ports", py "ss -tulpn");
   (py "list listening ports", py "netstat -tlnp");
   (py "monitor memory", py "watch -n 1 free -h");
   (py "watch disk space", py "watch -n 1 df -h");
   (py "monitor cpu", py "htop");
   (py "check load average", py "uptime");
   (py "show system logs", py "journalctl -xe");
   (py "check recent logs", py "journalctl -n 100");
   (py "debug network to {host}", py "ping -c 4 {host} && traceroute {host}");
   (py "test dns {host}", py "nslookup {host}");
   (py "check dns resolution {host}", py "dig {host}");
   (py "show firewall rules", py "sudo iptables -L");
   (py "check failed logins", py "grep 'Failed' /var/log/auth.log | tail -20");
   (py "show last logins", py "last -10");
   (py "check disk io", py "iostat -x 1 5");
   (py "monitor network traffic", py "iftop");
   (py "trace system calls", py "strace -p {pid}");
   (py "profile process {pid}", py "top -p {pid}")].


(** [_select_nl_type()] *)
Definition _select_nl_type : Rand str :=
  choices (map fst NL_TYPE_DISTRIBUTION) (map snd NL_TYPE_DISTRIBUTION).

(** The [variations] table of [_add_nl_variation]. *)
Definition variations : list (str * list (str -> str)) :=
  [ (py "imperative",
     [ (fun t => t); (fun t => py "please " ++ t); (fun t => py "can you " ++ t);
       (fun t => t ++ py " please"); (fun t => py "I want to " ++ t);
       (fun t => py "I need to " ++ t) ]);
    (py "question",
     [ (fun t => t); (fun t => t ++ py "?"); (fun t => py "can you tell me " ++ t);
       (fun t => py "I want to know " ++ t) ]);
    (py "mixed",
     [ (fun t => t); (fun t => py "do a " ++ t); (fun t => py "run " ++ t) ]);
    (py "intent",
     [ (fun t => t); (fun t => py "I want to " ++ t); (fun t => py "help me " ++ t);
       (fun t => py "please " ++ t) ]) ].

(** [_add_nl_variation(text, nl_type)] *)
Definition _add_nl_variation (text nl_type : str) : Rand str :=
  let type_variations := get_or (dict_get nl_type variations) [fun t => t] in
  variation <- choice type_variations ;;
  Ret (variation text).

(** One of the independently rolled pool prepends. *)
Definition maybe_prepend (threshold : float) (pool type_patterns : list (str * str))
  : Rand (list (str * str)) :=
  x <- random ;;
  if fltb x threshold then Ret (pool ++ type_patterns) else Ret type_patterns.

Definition mem_str (x : str) (l : list str) : bool := existsb (str_eqb x) l.

(** [_generate_for_shell(shell, count)] *)
Definition _generate_for_shell (shell : str) (count : Z) : Rand (list TrainingExample) :=
  let patterns :=
    get_or (dict_get shell NL_PATTERNS) (get_or (dict_get (py "bash") NL_PATTERNS) []) in
  for_range (Z.to_nat count)
    (fun examples =>
       nl_type <- _select_nl_type ;;
       let type_patterns := get_or (dict_get nl_type patterns) [] in
       type_patterns <-
         (if mem_str nl_type [py "imperative"; py "intent"]
             && mem_str shell [py "bash"; py "zsh"; py "powershell"]
          then
            tp <- maybe_prepend (dec 25 100) GIT_PATTERNS type_patterns ;;
            tp <- maybe_prepend (dec 15 100) DOCKER_PATTERNS tp ;;
            tp <- maybe_prepend (dec 20 100) K8S_PATTERNS tp ;;
            tp <- maybe_prepend (dec 15 100) WORKFLOW_PATTERNS tp ;;
            maybe_prepend (dec 10 100) DEBUG_PATTERNS tp
          else Ret type_patterns) ;;
       let type_patterns :=
         match type_patterns with
         | [] => get_or (dict_get (py "imperative") patterns) []
         | _ :: _ => type_patterns
         end in
       match type_patterns with
       | [] => Ret examples
       | _ :: _ =>
           '(nl_text, command) <- choice type_patterns ;;
           variables <- extract_variables (nl_text ++ py " " ++ command) ;;
           let nl_text := expand_template nl_text variables in
           let command := expand_template command variables in
           nl_text <- _add_nl_variation nl_text nl_type ;;
           Ret (examples ++
                  [{| shell := shell;
                      incorrect_command := nl_text;
                      correct_command := command;
                      category := py "natural_language";
                      error_type := nl_type;
                      source := py "nl_pattern";
                      metadata := [] |}])
       end)
    [].

(** [generate(count)] *)
Definition generate (count : Z) : Rand (list TrainingExample) :=
  examples <-
    fold_left
      (fun acc sc =>
         examples <- acc ;;
         shell_examples <- _generate_for_shell (fst sc) (snd sc) ;;
         Ret (examples ++ shell_examples))
      (shell_counts count) (Ret []) ;;
  let examples := filter not_null examples in
  examples <- shuffle examples ;;
  Ret (slice_to examples count).

End NaturalLanguageGenerator.

(** ** [tools_gen.py] *)

Module ToolsGenerator.

Definition MAX_SINGLE_CHAR_PERCENTAGE : float := dec 5 100.

Definition TOOLS : list (str * list (str * list entry)) :=
  [
   (py "version_control",
    [
     (py "git",
      [
       command (py "git status")
          [py "gti status"; py "git stauts"; py "git stats"];
       command (py "git add .")
          [py "git add"; py "git add -a"; py "gti add ."];
       command (py "git commit -m '{message}'")
          [py "git commit '{message}'"; py "git comit -m '{message}'";
           py "git commit -m {message}"];
       command (py "git push origin {branch}")
          [py "git push"; py "git psuh origin {branch}";
           py "git push orgin {branch}"];
       command (py "git pull origin {branch}")
          [py "git pull"; py "git pul origin {branch}";
           py "git pull orign {branch}"];
       command (py "git checkout {branch}")
          [py "git checkotu {branch}"; py "git checkout";
           py "git ckeckout {branch}"];
       command (py "git checkout -b {branch}")
          [py "git checkout -B {branch}"; py "git checkout -b"];
       command (py "git merge {branch}")
          [py "git merg {branch}"; py "git merge"];
       command (py "git rebase {branch}")
          [py "git reabse {branch}"; py "git rebase"];
       command (py "git stash")
          [py "git stach"; py "git stas"];
       command (py "git stash pop")
          [py "git stash apply"; py "git stash ppo"];
       command (py "git log --oneline")
          [py "git log --online"; py "git log -oneline"];
       command (py "git diff")
          [py "git dif"; py "git diff."];
       command (py "git clone {url}")
          [py "git clone"; py "git cloen {url}"];
       command (py "git branch -d {branch}")
          [py "git branch -D {branch}"; py "git branch -d"];
       command (py "git remote -v")
          [py "git remote"; py "git remote -V"];
       command (py "git fetch --all")
          [py "git fetch"; py "git fecth --all"];
       command (py "git reset --hard HEAD")
          [py "git reset --hard"; py "git reset HEAD"];
       command (py "git cherry-pick {commit}")
          [py "git cherry-pick"; py "git cherrypick {commit}"]
      ]);
     (py "gh",
      [
       command (py "gh pr create")
          [py "gh pr creat"; py "gh create pr"];
       command (py "gh pr list")
          [py "gh pr ls"; py "gh prs"];
       command (py "gh issue create")
          [py "gh issue creat"; py "gh create issue"];
       command (py "gh repo clone {repo}")
          [py "gh clone {repo}"; py "gh repo clone"]
      ])
    ]);
   (py "package_managers",
    [
     (py "npm",
      [
       command (py "npm install")
          [py "npm instal"; py "npm i"; py "npn install"];
       command (py "npm install {package}")
          [py "npm instal {package}"; py "npm add {package}"];
       command (py "npm install --save-dev {package}")
          [py "npm install -D {package}"; py "npm i --save-dev {package}"];
       command (py "npm run {script}")
          [py "npm {script}"; py "npm run"];
       command (py "npm start")
          [py "npm strart"; py "npm star"];
       command (py "npm test")
          [py "npm tets"; py "npm tests"];
       command (py "npm update")
          [py "npm updaet"; py "npm upgrade"];
       command (py "npm uninstall {package}")
          [py "npm remove {package}"; py "npm uninstal {package}"]
      ]);
     (py "yarn",
      [
       command (py "yarn install")
          [py "yarn instal"; py "yarn"];
       command (py "yarn add {package}")
          [py "yarn install {package}"; py "yarn ad {package}"];
       command (py "yarn add --dev {package}")
          [py "yarn add -D {package}"; py "yarn add -dev {package}"];
       command (py "yarn run {script}")
          [py "yarn {script}"]
      ]);
     (py "pip",
      [
       command (py "pip install {package}")
          [py "pip instal {package}"; py "pip istall {package}"];
       command (py "pip install -r requirements.txt")
          [py "pip install requirements.txt"; py "pip install -r requirements"];
       command (py "pip install --upgrade {package}")
          [py "pip upgrade {package}"; py "pip install -U {package}"];
       command (py "pip uninstall {package}")
          [py "pip remove {package}"; py "pip uninstal {package}"];
       command (py "pip freeze")
          [py "pip freez"; py "pip list --format=freeze"];
       command (py "pip list")
          [py "pip ls"; py "pip lsit"]
      ]);
     (py "cargo",
      [
       command (py "cargo build")
          [py "cargo biuld"; py "cargo buidl"];
       command (py "cargo run")
          [py "cargo rnu"; py "cargo exec"];
       command (py "cargo test")
          [py "cargo tets"; py "cargo tests"];
       command (py "cargo add {package}")
          [py "cargo install {package}"; py "cargo ad {package}"];
       command (py "cargo update")
          [py "cargo updaet"; py "cargo upgrade"]
      ]);
     (py "brew",
      [
       command (py "brew install {package}")
          [py "brew instal {package}"; py "brew add {package}"];
       command (py "brew update")
          [py "brew updaet"; py "brew refresh"];
       command (py "brew upgrade")
          [py "brew upgarde"; py "brew update --all"];
       command (py "brew uninstall {package}")
          [py "brew remove {package}"; py "brew uninstal {package}"];
       command (py "brew list")
          [py "brew ls"; py "brew lsit"];
       command (py "brew search {package}")
          [py "brew find {package}"; py "brew serach {package}"]
      ]);
     (py "apt",
      [
       command (py "sudo apt update")
          [py "apt update"; py "sudo apt updaet"];
       command (py "sudo apt upgrade -y")
          [py "apt upgrade"; py "sudo apt upgrade"];
       command (py "sudo apt install {package}")
          [py "apt install {package}"; py "sudo apt instal {package}"];
       command (py "sudo apt remove {package}")
          [py "apt remove {package}"; py "sudo apt uninstall {package}"];
       command (py "apt search {package}")
          [py "apt find {package}"; py "apt serach {package}"]
      ]);
     (py "pacman",
      [
       command (py "sudo pacman -Syu")
          [py "pacman -Syu"; py "sudo pacman -syu"];
       command (py "sudo pacman -S {package}")
          [py "pacman -S {package}"; py "sudo pacman -s {package}"];
       command (py "sudo pacman -R {package}")
          [py "pacman -R {package}"; py "sudo pacman -r {package}"];
       command (py "pacman -Ss {package}")
          [py "pacman -ss {package}"; py "pacman search {package}"]
      ])
    ]);
   (py "containers",
    [
     (py "docker",
      [
       command (py "docker ps")
          [py "docker pa"; py "docker ls"; py "dcoker ps"];
       command (py "docker ps -a")
          [py "docker ps --all"; py "docker pa -a"];
       command (py "docker images")
          [py "docker image"; py "docker imgs"];
       command (py "docker run -it {image}")
          [py "docker run {image}"; py "docker run -i -t {image}"];
       command (py "docker exec -it {container} bash")
          [py "docker exec {container} bash"; py "docker exec -it {container}"];
       command (py "docker stop {container}")
          [py "docker stopp {container}"; py "docker kill {container}"];
       command (py "docker rm {container}")
          [py "docker remove {container}"; py "docker delete {container}"];
       command (py "docker rmi {image}")
          [py "docker rm {image}"; py "docker image rm {image}"];
       command (py "docker build -t {image} .")
          [py "docker build {image} ."; py "docker build -t {image}"];
       command (py "docker pull {image}")
          [py "docker pul {image}"; py "docker get {image}"];
       command (py "docker push {image}")
          [py "docker psuh {image}"; py "docker upload {image}"];
       command (py "docker logs {container}")
          [py "docker log {container}"; py "docker logs"];
       command (py "docker-compose up -d")
          [py "docker compose up -d"; py "docker-compose up"];
       command (py "docker-compose down")
          [py "docker compose down"; py "docker-compose stop"];
       command (py "docker system prune -a")
          [py "docker prune"; py "docker system prune"]
      ]);
     (py "kubectl",
      [
       command (py "kubectl get pods")
          [py "kubectl get pod"; py "kubeclt get pods"; py "kubectl pods"];
       command (py "kubectl get pods -A")
          [py "kubectl get pods --all-namespaces"; py "kubectl get pods -a"];
       command (py "kubectl describe pod {pod}")
          [py "kubectl describe {pod}"; py "kubectl desc pod {pod}"];
       command (py "kubectl logs {pod}")
          [py "kubectl log {pod}"; py "kubeclt logs {pod}"];
       command (py "kubectl exec -it {pod} -- bash")
          [py "kubectl exec {pod} bash"; py "kubectl exec -it {pod} bash"];
       command (py "kubectl apply -f {file}")
          [py "kubectl apply {file}"; py "kubectl create -f {file}"];
       command (py "kubectl delete pod {pod}")
          [py "kubectl delete {pod}"; py "kubectl remove pod {pod}"];
       command (py "kubectl get services")
          [py "kubectl get svc"; py "kubectl get service"];
       command (py "kubectl get deployments")
          [py "kubectl get deploy"; py "kubectl get deployment"];
       command (py "kubectl scale deployment {name} --replicas={n}")
          [py "kubectl scale {name} --replicas={n}"]
      ]);
     (py "podman",
      [
       command (py "podman ps")
          [py "podman pa"; py "podman ls"];
       command (py "podman run -it {image}")
          [py "podman run {image}"]
      ])
    ]);
   (py "cloud",
    [
     (py "aws",
      [
       command (py "aws s3 ls")
          [py "aws s3 list"; py "aws s3ls"];
       command (py "aws s3 cp {src} {dst}")
          [py "aws s3 copy {src} {dst}"];
       command (py "aws ec2 describe-instances")
          [py "aws ec2 list-instances"; py "aws ec2 describe-instance"];
       command (py "aws configure")
          [py "aws config"; py "aws setup"];
       command (py "aws sts get-caller-identity")
          [py "aws whoami"; py "aws sts get-identity"]
      ]);
     (py "az",
      [
       command (py "az login")
          [py "az signin"; py "az auth"];
       command (py "az account list")
          [py "az accounts"; py "az account ls"];
       command (py "az vm list")
          [py "az vms"; py "az vm ls"];
       command (py "az group list")
          [py "az groups"; py "az group ls"]
      ]);
     (py "gcloud",
      [
       command (py "gcloud auth login")
          [py "gcloud login"; py "gcloud signin"];
       command (py "gcloud config set project {project}")
          [py "gcloud set project {project}"];
       command (py "gcloud compute instances list")
          [py "gcloud instances list"; py "gcloud compute list"]
      ]);
     (py "terraform",
      [
       command (py "terraform init")
          [py "tf init"; py "terraform initialize"];
       command (py "terraform plan")
          [py "tf plan"; py "terraform preview"];
       command (py "terraform apply")
          [py "tf apply"; py "terraform deploy"];
       command (py "terraform destroy")
          [py "tf destroy"; py "terraform delete"];
       command (py "terraform fmt")
          [py "terraform format"; py "tf fmt"];
       command (py "terraform validate")
          [py "terraform check"; py "tf validate"]
      ])
    ]);
   (py "build",
    [
     (py "make",
      [
       command (py "make")
          [py "mak"; py "mae"];
       command (py "make clean")
          [py "make clen"; py "make clear"];
       command (py "make install")
          [py "make instal"; py "make setup"];
       command (py "make -j{n}")
          [py "make -j {n}"; py "make -J{n}"]
      ]);
     (py "cmake",
      [
       command (py "cmake ..")
          [py "cmake"; py "cmake -"];
       command (py "cmake --build .")
          [py "cmake build"; py "cmake --build"];
       command (py "cmake -DCMAKE_BUILD_TYPE=Release ..")
          [py "cmake -DCMAKE_BUILD_TYPE Release .."]
      ]);
     (py "gradle",
      [
       command (py "gradle build")
          [py "gradle biuld"; py "./gradlew build"];
       command (py "./gradlew build")
          [py "gradlew build"; py "gradle build"];
       command (py "gradle test")
          [py "gradle tets"; py "./gradlew test"];
       command (py "gradle clean")
          [py "gradle clen"; py "./gradlew clean"]
      ]);
     (py "maven",
      [
       command (py "mvn clean install")
          [py "mvn clean instal"; py "maven clean install"];
       command (py "mvn package")
          [py "mvn pack"; py "maven package"];
       command (py "mvn test")
          [py "mvn tets"; py "maven test"];
       command (py "mvn compile")
          [py "mvn complie"; py "maven compile"]
      ])
    ]);
   (py "network",
    [
     (py "curl",
      [
       command (py "curl -X GET {url}")
          [py "curl {url}"; py "crul -X GET {url}"];
       command (py "curl -X POST -d '{data}' {url}")
          [py "curl -X POST {url} -d '{data}'"];
       command (py "curl -O {url}")
          [py "curl -o {url}"; py "curl --output {url}"];
       command (py "curl -s {url}")
          [py "curl --silent {url}"; py "curl -S {url}"];
       command (py "curl -H 'Content-Type: application/json' {url}")
          [py "curl -H Content-Type: application/json {url}"]
      ]);
     (py "wget",
      [
       command (py "wget {url}")
          [py "wegt {url}"; py "wget -O {url}"];
       command (py "wget -O {file} {url}")
          [py "wget {url} -O {file}"];
       command (py "wget -r {url}")
          [py "wget --recursive {url}"]
      ]);
     (py "ssh",
      [
       command (py "ssh {user}@{host}")
          [py "ssh {host}"; py "shh {user}@{host}"];
       command (py "ssh -i {file} {user}@{host}")
          [py "ssh {user}@{host} -i {file}"];
       command (py "ssh-keygen -t rsa -b 4096")
          [py "ssh-keygen"; py "ssh-keygen -t rsa"]
      ]);
     (py "scp",
      [
       command (py "scp {src} {user}@{host}:{dst}")
          [py "scp {src} {host}:{dst}"];
       command (py "scp -r {src} {user}@{host}:{dst}")
          [py "scp {src} {user}@{host}:{dst}"]
      ]);
     (py "rsync",
      [
       command (py "rsync -avz {src} {dst}")
          [py "rsync {src} {dst}"; py "rsync -av {src} {dst}"];
       command (py "rsync -avz --delete {src} {dst}")
          [py "rsync -avz {src} {dst} --delete"]
      ])
    ]);
   (py "text",
    [
     (py "grep",
      [
       command (py "grep '{pattern}' {file}")
          [py "grep {pattern} {file}"; py "gerp '{pattern}' {file}"];
       command (py "grep -r '{pattern}' .")
          [py "grep -R '{pattern}' ."; py "grep '{pattern}' . -r"];
       command (py "grep -i '{pattern}' {file}")
          [py "grep -I '{pattern}' {file}"];
       command (py "grep -v '{pattern}' {file}")
          [py "grep --invert-match '{pattern}' {file}"];
       command (py "grep -n '{pattern}' {file}")
          [py "grep -N '{pattern}' {file}"]
      ]);
     (py "sed",
      [
       command (py "sed -i 's/{old}/{new}/g' {file}")
          [py "sed 's/{old}/{new}/g' {file}";
           py "sed -i 's/{old}/{new}/' {file}"];
       command (py "sed -n '{n}p' {file}")
          [py "sed '{n}p' {file}"]
      ]);
     (py "awk",
      [
       command (py "awk '{{print $1}}' {file}")
          [py "awk {print $1} {file}"; py "awk '{{print}}' {file}"];
       command (py "awk -F',' '{{print $1}}' {file}")
          [py "awk -F, '{{print $1}}' {file}"]
      ]);
     (py "jq",
      [
       command (py "jq '.' {file}")
          [py "jq . {file}"; py "jq '{file}'"];
       command (py "jq '.{key}' {file}")
          [py "jq {key} {file}"];
       command (py "jq -r '.{key}' {file}")
          [py "jq '.{key}' {file} -r"]
      ])
    ]);
   (py "languages",
    [
     (py "python",
      [
       command (py "python {file}")
          [py "pyhton {file}"; py "pytohn {file}"];
       command (py "python -m venv {path}")
          [py "python -m venv"; py "python venv {path}"];
       command (py "python -m pip install {package}")
          [py "python -m pip instal {package}"];
       command (py "python -c '{code}'")
          [py "python -c {code}"]
      ]);
     (py "node",
      [
       command (py "node {file}")
          [py "nod {file}"; py "nodee {file}"];
       command (py "node -e '{code}'")
          [py "node -e {code}"]
      ]);
     (py "go",
      [
       command (py "go run {file}")
          [py "go rnu {file}"; py "go exec {file}"];
       command (py "go build")
          [py "go biuld"; py "go compile"];
       command (py "go test")
          [py "go tets"; py "go tests"];
       command (py "go mod init {module}")
          [py "go mod init"; py "go init {module}"];
       command (py "go mod tidy")
          [py "go mod clean"; py "go tidy"]
      ]);
     (py "java",
      [
       command (py "java {class}")
          [py "jav {class}"; py "java {class}.class"];
       command (py "javac {file}")
          [py "javac {file}.java"; py "java -c {file}"]
      ])
    ]);
   (py "system",
    [
     (py "systemctl",
      [
       command (py "sudo systemctl start {service}")
          [py "systemctl start {service}";
           py "sudo systemctl strart {service}"];
       command (py "sudo systemctl stop {service}")
          [py "systemctl stop {service}"; py "sudo systemctl stopp {service}"];
       command (py "sudo systemctl restart {service}")
          [py "systemctl restart {service}";
           py "sudo systemctl restar {service}"];
       command (py "systemctl status {service}")
          [py "systemctl stauts {service}"; py "systemctl stat {service}"];
       command (py "sudo systemctl enable {service}")
          [py "systemctl enable {service}"]
      ]);
     (py "journalctl",
      [
       command (py "journalctl -u {service}")
          [py "journalctl {service}"; py "journalctl -U {service}"];
       command (py "journalctl -f")
          [py "journalctl --follow"; py "journalctl -F"]
      ])
    ])
  ].


(** [_is_single_char_correction(incorrect, correct)] *)
Definition _is_single_char_correction (incorrect correct : str) : bool :=
  let inc := strip incorrect in
  let cor := strip correct in
  if length inc =? length cor then
    length (filter (fun ab => negb (Ascii.eqb (fst ab) (snd ab))) (combine inc cor)) =? 1
  else if (Z.abs (Z.of_nat (length inc) - Z.of_nat (length cor)) =? 1)%Z then
    let (shorter, longer) :=
      if length inc <=? length cor then (inc, cor) else (cor, inc) in
    existsb (fun i => str_eqb shorter (firstn i longer ++ skipn (S i) longer))
            (seq 0 (length longer))
  else false.

(** Lines 387-394 of [_create_example] : the incorrect candidate. *)
Definition select_error (errors : list str) (variables : list (str * str))
    (correct : str) : Rand str :=
  match errors with
  | _ :: _ =>
      x <- random ;;
      if fltb x (dec 7 10) then
        error_template <- choice errors ;;
        Ret (expand_template error_template variables)
      else generate_typo correct (of_Z 1)
  | [] => generate_typo correct (of_Z 1)
  end.

(** The [while] loop of [_create_example]. *)
Fixpoint retry_multi_char (retries : nat) (errors : list str)
    (variables : list (str * str)) (correct incorrect : str) : Rand str :=
  match retries with
  | O => Ret incorrect
  | S retries' =>
      if _is_single_char_correction incorrect correct then
        incorrect1 <- remove_space correct ;;
        incorrect2 <-
          (if str_eqb incorrect1 correct
              || _is_single_char_correction incorrect1 correct
           then match errors with
                | _ :: _ =>
                    error_template <- choice errors ;;
                    Ret (expand_template error_template variables)
                | [] => generate_typo correct (of_Z 1)
                end
           else Ret incorrect1) ;;
        retry_multi_char retries' errors variables correct incorrect2
      else Ret incorrect
  end.

(** [_create_example(shell, category, tool_name, cmd)] *)
Definition _create_example (shell category tool_name : str) (cmd : entry)
  : Rand (option TrainingExample) :=
  let correct_template := get_or (entry_correct cmd) [] in
  let errors := get_or (entry_errors cmd) [] in
  match correct_template with
  | [] => Ret None
  | _ :: _ =>
      variables <- extract_variables correct_template ;;
      let correct := expand_template correct_template variables in
      incorrect <- select_error errors variables correct ;;
      incorrect <- retry_multi_char 3 errors variables correct incorrect ;;
      if str_eqb (strip incorrect) (strip correct) then Ret None
      else Ret (Some {| shell := shell;
                        incorrect_command := incorrect;
                        correct_command := correct;
                        category := py "tools_" ++ category;
                        error_type := py "tool_specific";
                        source := py "tools_pattern";
                        metadata := [(py "tool", tool_name)] |})
  end.

(** The flattened catalog [all_tools] of [generate]. *)
Definition all_tools : list (str * str * entry) :=
  flat_map
    (fun ct =>
       flat_map
         (fun tc => map (fun cmd => (fst ct, fst tc, cmd)) (snd tc))
         (snd ct))
    TOOLS.

(** One draw: a catalog item and the example made of it. *)
Definition draw_example (shell : str) : Rand (option TrainingExample) :=
  '(category, tool_name, cmd) <- choice all_tools ;;
  _create_example shell category tool_name cmd.

(** The deficit loop of [generate]. *)
Fixpoint regenerate (retries : nat) (count : Z) (examples : list TrainingExample)
  : Rand (list TrainingExample) :=
  match retries with
  | O => Ret examples
  | S retries' =>
      if (Z.of_nat (length examples) <? count)%Z then
        let deficit := (count - Z.of_nat (length examples))%Z in
        examples <-
          for_range (Z.to_nat (deficit * 2))
            (fun examples =>
               example <- draw_example (py "bash") ;;
               match example with
               | Some ex => if not_null ex then Ret (examples ++ [ex]) else Ret examples
               | None => Ret examples
               end)
            examples ;;
        regenerate retries' count examples
      else Ret examples
  end.

(** The single-character cap of [generate]. *)
Definition cap_single_char (count : Z) (examples : list TrainingExample)
  : list TrainingExample :=
  let max_single_char := trunc (fmul (of_Z count) MAX_SINGLE_CHAR_PERCENTAGE) in
  let is_single ex :=
    _is_single_char_correction (incorrect_command ex) (correct_command ex) in
  let single_char_examples := filter is_single examples in
  let multi_char_examples := filter (fun ex => negb (is_single ex)) examples in
  let single_char_examples :=
    if (max_single_char <? Z.of_nat (length single_char_examples))%Z
    then slice_to single_char_examples max_single_char
    else single_char_examples in
  multi_char_examples ++ single_char_examples.

(** [generate(count)] *)
Definition generate (count : Z) : Rand (list TrainingExample) :=
  examples <-
    fold_left
      (fun acc sc =>
         examples <- acc ;;
         for_range (Z.to_nat (snd sc))
           (fun examples =>
              example <- draw_example (fst sc) ;;
              match example with
              | Some ex => Ret (examples ++ [ex])
              | None => Ret examples
              end)
           examples)
      (shell_counts count) (Ret []) ;;
  let examples := filter not_null examples in
  examples <- regenerate 3 count examples ;;
  examples <- shuffle examples ;;
  let examples := cap_single_char count examples in
  examples <- shuffle examples ;;
  Ret (slice_to examples count).

End ToolsGenerator.

(** ** Running a computation against a generator state *)

(** A [random.Random] implementation: a state type, the state built from
    a seed, and the two primitive draws with their ranges. *)
Class RandomGen (R : Type) : Type := {
  seed_state : Z -> R;
  next_random : R -> Z * R;
  next_below : Z -> R -> Z * R;
  next_random_range : forall r, (0 <= fst (next_random r) < two53)%Z;
  next_below_range : forall n r, (0 < n)%Z -> (0 <= fst (next_below n r) < n)%Z
}.

(** The result of a run: the value or the exception, and the state left.
    [_randbelow] has no answer for a bound that is not positive; its
    callers [choice] and [randrange] raise before asking. *)
Fixpoint run {R : Type} `{RandomGen R} {A : Type} (m : Rand A) (r : R)
  : (exn + A) * R :=
  match m with
  | Ret a => (inr a, r)
  | Raise e => (inl e, r)
  | Random k => let (x, r') := next_random r in run (k x) r'
  | Randbelow n k =>
      if (0 <? n)%Z then let (x, r') := next_below n r in run (k x) r'
      else (inl ValueError, r)
  end.

(** [Always P m] : whatever the draws, [m] returns, without raising, a
    value that satisfies [P]. *)
Inductive Always {A : Type} (P : A -> Prop) : Rand A -> Prop :=
| Always_Ret : forall a, P a -> Always P (Ret a)
| Always_Random : forall k,
    (forall x, (0 <= x < two53)%Z -> Always P (k x)) -> Always P (Random k)
| Always_Randbelow : forall n k,
    (0 < n)%Z ->
    (forall x, (0 <= x < n)%Z -> Always P (k x)) -> Always P (Randbelow n k).

(** [Ensures P m] : whatever the draws, a value that [m] returns
    satisfies [P] (a run that raises returns nothing). *)
Inductive Ensures {A : Type} (P : A -> Prop) : Rand A -> Prop :=
| Ensures_Ret : forall a, P a -> Ensures P (Ret a)
| Ensures_Raise : forall e, Ensures P (Raise e)
| Ensures_Random : forall k,
    (forall x, (0 <= x < two53)%Z -> Ensures P (k x)) -> Ensures P (Random k)
| Ensures_Randbelow : forall n k,
    (forall x, (0 <= x < n)%Z -> Ensures P (k x)) -> Ensures P (Randbelow n k).

(** [Possible m a] : some sequence of draws makes [m] return [a]. *)
Inductive Possible {A : Type} : Rand A -> A -> Prop :=
| Possible_Ret : forall a, Possible (Ret a) a
| Possible_Random : forall k x a,
    (0 <= x < two53)%Z -> Possible (k x) a -> Possible (Random k) a
| Possible_Randbelow : forall n k x a,
    (0 <= x < n)%Z -> Possible (k x) a -> Possible (Randbelow n k) a.

(** A generator whose draws are read off a tape; an exhausted tape
    answers 0. *)
Module Tape.

Definition next_random (t : list Z) : Z * list Z :=
  match t with
  | [] => (0%Z, [])
  | x :: t' => ((x mod two53)%Z, t')
  end.

Definition next_below (n : Z) (t : list Z) : Z * list Z :=
  match t with
  | [] => (0%Z, [])
  | x :: t' => ((x mod n)%Z, t')
  end.

(** A linear congruential stream of [len] draws started at [seed]. *)
Fixpoint lcg (len : nat) (x : Z) : list Z :=
  match len with
  | O => []
  | S len' =>
      let x' := ((6364136223846793005 * x + 1442695040888963407) mod 2 ^ 64)%Z in
      (x' / 2 ^ 11)%Z :: lcg len' x'
  end.

End Tape.

(** The numerator [k] for which [random()] returns [n / d] rounded down
    to a multiple of [2^-53]. *)
Definition frac (n d : Z) : Z := (n * two53 / d)%Z.

(** The tape generator is a [random.Random] implementation. *)
#[export] Instance Tape_RandomGen : RandomGen (list Z).
Proof.
  refine {| seed_state := Tape.lcg 4096;
            next_random := Tape.next_random;
            next_below := Tape.next_below |}.
  - intros [|x t]; simpl.
    + unfold two53; lia.
    + apply Z.mod_pos_bound. reflexivity.
  - intros n [|x t] Hn; simpl.
    + lia.
    + apply Z.mod_pos_bound. exact Hn.
Defined.

(** ** The classification of single-character corrections, as specified *)

Module SingleCharSpec.

(** The two strings have equal length and differ in exactly one position. *)
Definition one_substituted (a b : str) : Prop :=
  exists p x y s, a = p ++ x :: s /\ b = p ++ y :: s /\ x <> y.

(** [shorter] is [longer] with one character removed at some position. *)
Definition one_removed (shorter longer : str) : Prop :=
  exists p x s, longer = p ++ x :: s /\ shorter = p ++ s.

(** The classification as the specification words it, on trimmed strings. *)
Definition single_char_spec (a b : str) : Prop :=
  one_substituted a b
  \/ (length b = S (length a) /\ one_removed a b)
  \/ (length a = S (length b) /\ one_removed b a).

End SingleCharSpec.
Import SingleCharSpec.

(** ** Tokens *)

(** A token: non-empty and free of whitespace. *)
Definition token (w : str) : Prop :=
  w <> [] /\ forallb (fun c => negb (is_space c)) w = true.


(** The token list after [remove_space] merged the tokens [i] and [i+1]. *)
Definition merged_tokens (parts : list str) (i : nat) : list str :=
  pop_nth (set_nth parts i (nth i parts [] ++ nth (i + 1) parts [])) (i + 1).


(** ** Placeholders and simultaneous substitution *)

(** The text of the placeholder for [name]. *)
Definition ph (name : str) : str := lbrace :: name ++ [rbrace].

Definition is_brace (c : ascii) : bool := Ascii.eqb c lbrace || Ascii.eqb c rbrace.

(** No brace occurs in the string. *)
Definition brace_free (w : str) : bool := forallb (fun c => negb (is_brace c)) w.

(** The first entry of the binding whose placeholder starts the string. *)
Fixpoint find_bound (binding : list (str * str)) (s : str) : option (str * str) :=
  match binding with
  | [] => None
  | (k, v) :: binding' =>
      if startswith (ph k) s then Some (k, v) else find_bound binding' s
  end.

(** Textual substitution in one left-to-right pass: each occurrence of a
    bound placeholder is replaced by its value, what a value brings in is
    not looked at again, everything else is copied. *)
Fixpoint simultaneous_fuel (fuel : nat) (binding : list (str * str)) (s : str) : str :=
  match fuel with
  | O => s
  | S f =>
      match s with
      | [] => []
      | c :: s' =>
          match find_bound binding s with
          | Some (k, v) => v ++ simultaneous_fuel f binding (skipn (length (ph k)) s)
          | None => c :: simultaneous_fuel f binding s'
          end
      end
  end.

(** [expand] as the specification describes it. *)
Definition simultaneous_expand (template : str) (binding : list (str * str)) : str :=
  simultaneous_fuel (S (length template)) binding template.

(** No occurrence of a bound placeholder comes directly after an opening
    brace that nothing closed: [open] tells whether the last brace seen
    so far is an opening one. *)
Fixpoint well_nested (binding : list (str * str)) (open : bool) (s : str) : bool :=
  match s with
  | [] => true
  | c :: s' =>
      if Ascii.eqb c lbrace then
        (match find_bound binding s with
         | Some _ => negb open
         | None => true
         end) && well_nested binding true s'
      else if Ascii.eqb c rbrace then well_nested binding false s'
      else well_nested binding open s'
  end.

(** Names and values without braces. *)
Definition plain_binding (binding : list (str * str)) : bool :=
  forallb (fun kv => brace_free (fst kv) && brace_free (snd kv)) binding.

(** ** The single-character share of a segment *)

Definition is_single_char (ex : TrainingExample) : bool :=
  SingleCommandGenerator._is_single_char_correction
    (incorrect_command ex) (correct_command ex).

(** How many examples of the list are single-character corrections. *)
Definition single_char_count (l : list TrainingExample) : nat :=
  length (filter is_single_char l).

(** [ceil(n * 0.05)] over the integers. *)
Definition ceil_5_percent (n : Z) : Z := (n * 5 + 99) / 100.

(** [int(count * 0.05)], the cap that the code computes. *)
Definition max_single_char (count : Z) : Z := trunc (fmul (of_Z count) (dec 5 100)).

(** ** The pairing of a correct command with its incorrect one *)

(** The candidate is the expansion, with the given variables, of one of
    the wrong templates. *)
Definition from_wrong_template (errors : list str) (variables : list (str * str))
    (out : str) : Prop :=
  exists e, In e errors /\ out = expand_template e variables.

(** The incorrect command is a possible result of the corruptions that
    the chained generator applies to the expanded correct command. *)
Definition chained_corrupted (correct error_type shell incorrect : str) : Prop :=
  Possible (ChainedCommandGenerator._generate_synthetic_error correct error_type shell)
           incorrect
  \/ Possible (generate_typo correct (of_Z 1)) incorrect.

(** The same for the tools generator. *)
Definition tools_corrupted (correct incorrect : str) : Prop :=
  Possible (generate_typo correct (of_Z 1)) incorrect
  \/ Possible (remove_space correct) incorrect.

(** Both commands of the example come from one binding, drawn once for
    the correct template: the correct command is that template expanded,
    the incorrect command is a wrong template expanded with the very
    same binding, or a corruption of the correct command. *)
Definition paired_by_one_binding (correct_template : str) (errors : list str)
    (corrupted : str -> str -> Prop) (ex : TrainingExample) : Prop :=
  exists variables,
    Possible (extract_variables correct_template) variables
    /\ NoDup (map fst variables)
    /\ correct_command ex = expand_template correct_template variables
    /\ (from_wrong_template errors variables (incorrect_command ex)
        \/ corrupted (correct_command ex) (incorrect_command ex)).

(** The corruption that the single-command generator selects by error
    type: [_generate_incorrect] on an entry without wrong templates. *)
Definition single_by_type (correct error_type shell : str) : Rand str :=
  SingleCommandGenerator._generate_incorrect correct
    {| entry_correct := None; entry_errors := None; entry_category := None |}
    error_type shell [].

(** The incorrect command is a possible result of the corruptions that
    the single-command generator applies to the expanded correct command. *)
Definition single_corrupted (error_type shell correct incorrect : str) : Prop :=
  Possible (single_by_type correct error_type shell) incorrect
  \/ Possible (generate_typo correct (of_Z 1)) incorrect
  \/ Possible (remove_space correct) incorrect
  \/ Possible (SingleCommandGenerator._generate_flag_error correct shell) incorrect
  \/ Possible (SingleCommandGenerator._generate_path_error correct) incorrect.

(** ** The wrong template that an attempt chooses *)

(** The binding, the wrong template and the state reached when, after
    the extraction of the variables, the draw falls below 0.7 and a
    wrong template is chosen (chained and tools generators). *)
Definition chosen_wrong_template {R : Type} `{RandomGen R}
    (correct_template : str) (errors : list str) (r : R)
  : option (list (str * str) * str * R) :=
  match run (extract_variables correct_template) r with
  | (inr variables, r1) =>
      match errors with
      | [] => None
      | _ :: _ =>
          let (k, r2) := next_random r1 in
          if fltb (of_frac53 k) (dec 7 10) then
            match run (choice errors) r2 with
            | (inr e, r3) => Some (variables, e, r3)
            | (inl _, _) => None
            end
          else None
      end
  | (inl _, _) => None
  end.

(** ** Generators that answer alike *)

(** Two generator implementations, with states related by [sim], answer
    every draw alike and stay related. *)
Definition same_draws {R1 R2 : Type} (G1 : RandomGen R1) (G2 : RandomGen R2)
    (sim : R1 -> R2 -> Prop) : Prop :=
  forall r1 r2, sim r1 r2 ->
    (fst (next_random r1) = fst (next_random r2)
     /\ sim (snd (next_random r1)) (snd (next_random r2)))
    /\ (forall n, fst (next_below n r1) = fst (next_below n r2)
                  /\ sim (snd (next_below n r1)) (snd (next_below n r2))).

(** ** Statements under test and inputs of the examples *)

(** The claim as stated: [expand] is the one-pass substitution, for every
    template and every binding. *)
Definition expand_is_simultaneous : Prop :=
  forall t b, expand_template t b = simultaneous_expand t b.

(** The claim as stated: a long-flag marker in the input is always
    demoted. *)
Definition wrong_flag_always_demotes : Prop :=
  forall text, contains (py " --") text = true ->
    Ensures (fun out => out = replace_first (py " --") (py " -") text) (wrong_flag text).

(** [m] takes its result from the wrong templates whenever its first draw
    is below [threshold]. *)
Definition wrong_template_below (threshold : float) (errors : list str)
    (variables : list (str * str)) (m : Rand str) : Prop :=
  forall (R : Type) (G : RandomGen R) (r : R) (out : str) (r' : R),
    fltb (of_frac53 (fst (next_random r))) threshold = true ->
    run m r = (inr out, r') ->
    from_wrong_template errors variables out.

(** The claim as stated, for the single-command synthesizer. *)
Definition single_takes_wrong_template_below_0_7 : Prop :=
  forall correct e error_type shell variables errors,
    entry_errors e = Some errors -> errors <> [] ->
    wrong_template_below (dec 7 10) errors variables
      (SingleCommandGenerator._generate_incorrect correct e error_type shell variables).

(** The two commands differ after trimming. *)
Definition non_null (ex : TrainingExample) : Prop :=
  strip (incorrect_command ex) <> strip (correct_command ex).

Definition not_negative (x : float) : Prop :=
  match x with
  | S754_zero _ | S754_nan => True
  | S754_infinity s | S754_finite s _ _ => s = false
  end.

Fixpoint all_from (fuel : nat) (z : Z) (f : Z -> bool) : bool :=
  match fuel with
  | O => true
  | S k => f z && all_from k (z + 1) f
  end.

(** The double that the literal [0.05] denotes. *)
Definition five_percent : float := S754_finite false 7205759403792794 (-57).

(** [int(x)] with the powers of two taken as shifts. *)
Definition trunc_shift (x : float) : Z :=
  match x with
  | S754_finite s m e =>
      let v := if (0 <=? e)%Z then Z.shiftl (Zpos m) e else Z.shiftr (Zpos m) (- e) in
      if s then (- v)%Z else v
  | _ => 0%Z
  end.

(** [int(n * 0.05)] is the quotient of [n] by 20. *)
Definition cap_is_twentieth (n : Z) : bool :=
  let q := trunc_shift (fmul (of_Z n) five_percent) in
  ((20 * q <=? n) && (n <? 20 * q + 20))%Z.

(** The claim as stated, for the chained generator: at most
    [ceil(count * 0.05)] single-character corrections are returned. *)
Definition chained_capped : Prop :=
  forall (count : Z) (R : Type) (G : RandomGen R) (r : R) out r',
    run (ChainedCommandGenerator.generate count) r = (inr out, r') ->
    (Z.of_nat (single_char_count out) <= ceil_5_percent count)%Z.

(** The draws of the counterexample: twice the error type "redirection"
    (0.8), the third bash redirection pattern, the wrong-template branch
    (0.5) and its first wrong template; then the draw of the shuffle. *)
Definition chained_tape : list Z :=
  [frac 8 10; 2; frac 1 2; 0; frac 8 10; 2; frac 1 2; 0; 0]%Z.

Definition chained_uncapped_example : TrainingExample :=
  {| shell := py "bash";
     incorrect_command := py "command 2> /dev/null";
     correct_command := py "command 2>/dev/null";
     category := py "redirection";
     error_type := py "redirection";
     source := py "chained_pattern";
     metadata := [] |}.

Definition extract_step (acc : Rand (list (str * str))) (placeholder : str)
  : Rand (list (str * str)) :=
  variables <- acc ;;
  if dict_mem placeholder variables then Ret variables
  else v <- get_random_variable placeholder ;;
       Ret (variables ++ [(placeholder, v)]).

Definition git_commit_command : entry :=
  command (py "git commit -m '{message}'")
    [py "git commit '{message}'"; py "git comit -m '{message}'";
     py "git commit -m {message}"].

(** Every pattern of the three chained catalogs, whatever the shell. *)
Definition chained_catalog : list entry :=
  flat_map snd ChainedCommandGenerator.PIPE_PATTERNS
  ++ flat_map snd ChainedCommandGenerator.CHAINING_PATTERNS
  ++ flat_map snd ChainedCommandGenerator.REDIRECTION_PATTERNS.

(** Every placeholder name of [wrong] is one of [correct]. *)
Definition placeholders_within (correct wrong : str) : bool :=
  forallb (fun x => existsb (str_eqb x) (findall_placeholders correct))
          (findall_placeholders wrong).

(** No wrong template of the entry has a placeholder that its correct
    template lacks. *)
Definition closed_entry (p : entry) : bool :=
  forallb (placeholders_within (get_or (entry_correct p) []))
          (get_or (entry_errors p) []).

Fixpoint strs_eqb (a b : list str) : bool :=
  match a, b with
  | [], [] => true
  | x :: a', y :: b' => str_eqb x y && strs_eqb a' b'
  | _, _ => false
  end.

(** The templates of the awk entry of [TOOLS], the one entry with a
    wrong-template placeholder ([print]) that the correct template
    lacks. *)
Definition awk_correct : str := py "awk '{{print $1}}' {file}".
Definition awk_errors : list str :=
  [py "awk {print $1} {file}"; py "awk '{{print}}' {file}"].

Definition is_awk_entry (cmd : entry) : bool :=
  str_eqb (get_or (entry_correct cmd) []) awk_correct
  && strs_eqb (get_or (entry_errors cmd) []) awk_errors.

(** [COMMON_VARIABLES["file"]] *)
Definition file_values : list str :=
  get_or (dict_get (py "file") COMMON_VARIABLES) [].

(** The candidate made of the second awk wrong template with the value
    [v] passes the gate of the tools generator and holds ["{print}"]. *)
Definition awk_candidate_passes (v : str) : bool :=
  let variables := [(py "file", v)] in
  let candidate := expand_template (py "awk '{{print}}' {file}") variables in
  let correct := expand_template awk_correct variables in
  negb (ToolsGenerator._is_single_char_correction candidate correct)
  && negb (str_eqb (strip candidate) (strip correct))
  && contains (ph (py "print")) candidate.

Definition awk_command : entry :=
  command (py "awk '{{print $1}}' {file}")
    [py "awk {print $1} {file}"; py "awk '{{print}}' {file}"].

(** ** Further functions of the generators and of the scripts *)

(** [select_shell()] of [BaseGenerator]. *)
Definition select_shell : Rand str :=
  choices (map fst SHELL_WEIGHTS) (map snd SHELL_WEIGHTS).

(** [sum(shell_counts.values())] *)
Definition total_count (counts : list (str * Z)) : Z :=
  fold_left Z.add (map snd counts) 0%Z.

(** The per-shell counts before the remainder is credited to bash. *)
Definition truncated_counts (count : Z) : list (str * Z) :=
  map (fun sw => (fst sw, trunc (fmul (of_Z count) (snd sw)))) SHELL_WEIGHTS.

(** The shells that a generator serves. *)
Definition shells : list str := map fst SHELL_WEIGHTS.

(** [P] holds of the example, when there is one. *)
Definition when_some {A : Type} (P : A -> Prop) (o : option A) : Prop :=
  match o with
  | Some a => P a
  | None => True
  end.

(** The patterns of the three catalogs that serve a shell. *)
Definition chained_patterns (shell : str) : list entry :=
  ChainedCommandGenerator.patterns_for ChainedCommandGenerator.PIPE_PATTERNS shell
  ++ ChainedCommandGenerator.patterns_for ChainedCommandGenerator.CHAINING_PATTERNS shell
  ++ ChainedCommandGenerator.patterns_for ChainedCommandGenerator.REDIRECTION_PATTERNS shell.

(** Where an example of the chained generator comes from: a pattern of
    the catalogs for its shell, expanded with one binding. *)
Definition chained_provenance (ex : TrainingExample) : Prop :=
  In (shell ex) shells
  /\ source ex = py "chained_pattern"
  /\ In (error_type ex) (map fst ChainedCommandGenerator.ERROR_DISTRIBUTION)
  /\ metadata ex = []
  /\ exists p,
      In p (chained_patterns (shell ex))
      /\ category ex = get_or (entry_category p) (py "chained")
      /\ paired_by_one_binding (get_or (entry_correct p) []) (get_or (entry_errors p) [])
           (fun correct inc => chained_corrupted correct (error_type ex) (shell ex) inc) ex.

(** Where an example of the tools generator comes from. *)
Definition tools_provenance (ex : TrainingExample) : Prop :=
  In (shell ex) shells
  /\ source ex = py "tools_pattern"
  /\ error_type ex = py "tool_specific"
  /\ exists tool_category tool_name cmd,
      In (tool_category, tool_name, cmd) ToolsGenerator.all_tools
      /\ category ex = py "tools_" ++ tool_category
      /\ metadata ex = [(py "tool", tool_name)]
      /\ paired_by_one_binding (get_or (entry_correct cmd) []) (get_or (entry_errors cmd) [])
           tools_corrupted ex.

(** Where an example of the single-command generator comes from. *)
Definition single_provenance (templates : SingleCommandGenerator.templates_t)
    (ex : TrainingExample) : Prop :=
  In (shell ex) shells
  /\ source ex = py "template"
  /\ In (error_type ex) (map fst SingleCommandGenerator.ERROR_DISTRIBUTION)
  /\ In (category ex) SingleCommandGenerator.CATEGORIES
  /\ exists e,
      In (category ex, e)
         (SingleCommandGenerator.collect_entries
            (get_or (dict_get (shell ex) templates) []))
      /\ metadata ex = [(py "template", get_or (entry_correct e) [])]
      /\ paired_by_one_binding (get_or (entry_correct e) []) (get_or (entry_errors e) [])
           (single_corrupted (error_type ex) (shell ex)) ex.

(** A loaded template with one bash category. *)
Definition single_templates_example : SingleCommandGenerator.templates_t :=
  [ (py "bash",
     [ (py "git",
        SingleCommandGenerator.YList
          [ SingleCommandGenerator.YDict
              (command (py "git checkout {branch}") [py "git checkotu {branch}"]);
            SingleCommandGenerator.YScalar ]) ]) ].

(** The phrase and command pairs that can serve a shell: those of its
    entry of [NL_PATTERNS] (of the bash entry for a shell without one)
    and the five shared pools. *)
Definition nl_pool (sh : str) : list (str * str) :=
  flat_map snd
    (get_or (dict_get sh NaturalLanguageGenerator.NL_PATTERNS)
            (get_or (dict_get (py "bash") NaturalLanguageGenerator.NL_PATTERNS) []))
  ++ NaturalLanguageGenerator.GIT_PATTERNS
  ++ NaturalLanguageGenerator.DOCKER_PATTERNS
  ++ NaturalLanguageGenerator.K8S_PATTERNS
  ++ NaturalLanguageGenerator.WORKFLOW_PATTERNS
  ++ NaturalLanguageGenerator.DEBUG_PATTERNS.

(** Where an example of the natural-language generator comes from. *)
Definition nl_provenance (ex : TrainingExample) : Prop :=
  In (shell ex) shells
  /\ source ex = py "nl_pattern"
  /\ category ex = py "natural_language"
  /\ In (error_type ex) (map fst NaturalLanguageGenerator.NL_TYPE_DISTRIBUTION)
  /\ metadata ex = []
  /\ exists nl_text command variables,
      In (nl_text, command) (nl_pool (shell ex))
      /\ Possible (extract_variables (nl_text ++ py " " ++ command)) variables
      /\ correct_command ex = expand_template command variables
      /\ Possible (NaturalLanguageGenerator._add_nl_variation
                     (expand_template nl_text variables) (error_type ex))
                  (incorrect_command ex).

(** The computation returns whatever the draws are: it never raises. *)
Definition Returns {A : Type} (m : Rand A) : Prop := Always (fun _ => True) m.

(** The value bound to a placeholder name: one of the values listed for
    the name in [COMMON_VARIABLES], or the name itself when it is not
    listed. *)
Definition value_ok (kv : str * str) : Prop :=
  match dict_get (fst kv) COMMON_VARIABLES with
  | Some values => In (snd kv) values
  | None => snd kv = fst kv
  end.

(** The binding of a template: the distinct placeholder names, each
    with a permitted value. *)
Definition binding_of (template : str) (variables : list (str * str)) : Prop :=
  (forall k, In k (map fst variables) <-> In k (findall_placeholders template))
  /\ NoDup (map fst variables)
  /\ Forall value_ok variables.

(** The state of the extraction loop once the names [done] are past. *)
Definition extracted (done : list str) (variables : list (str * str)) : Prop :=
  (forall k, In k (map fst variables) <-> In k done)
  /\ NoDup (map fst variables)
  /\ Forall value_ok variables.

(** ** [scripts/generate_data.py] *)

Module GenerateData.

(** [max(0, len + i)] for a negative index, [min(i, len)] otherwise: the
    position that a slice bound denotes. *)
Definition clamp (len : nat) (i : Z) : nat :=
  if (0 <=? i)%Z then Nat.min (Z.to_nat i) len else len - Z.to_nat (- i).

(** [xs[start:stop]] *)
Definition slice {A : Type} (xs : list A) (start stop : Z) : list A :=
  firstn (clamp (length xs) stop - clamp (length xs) start)
         (skipn (clamp (length xs) start) xs).

(** [xs[start:]] *)
Definition slice_from {A : Type} (xs : list A) (start : Z) : list A :=
  skipn (clamp (length xs) start) xs.

(** What a call of [combine_datasets] comes to: the three lists written
    to [train.jsonl], [validation.jsonl] and [test.jsonl], or the
    [ZeroDivisionError] that the report of the split sizes raises, before
    anything is written, when there is no example at all. *)
Inductive outcome (A : Type) : Type :=
| Saved (train_data val_data test_data : list A)
| ZeroDivisionError.

Arguments ZeroDivisionError {A}.

(** [combine_datasets(all_examples, output_dir, train_ratio, val_ratio, seed)] :
    the draws are those of the function's own [random.Random(seed)]. *)
Definition combine_datasets {A : Type} (all_examples : list A)
    (train_ratio val_ratio : float) : Rand (outcome A) :=
  all_examples <- shuffle all_examples ;;
  let total := Z.of_nat (length all_examples) in
  let train_end := trunc (fmul (of_Z total) train_ratio) in
  let val_end := (train_end + trunc (fmul (of_Z total) val_ratio))%Z in
  let train_data := slice_to all_examples train_end in
  let val_data := slice all_examples train_end val_end in
  let test_data := slice_from all_examples val_end in
  if (total =? 0)%Z then Ret ZeroDivisionError
  else Ret (Saved train_data val_data test_data).

End GenerateData.

(** The word that replaces [word] in a typo: a token whose length
    differs from that of [word] by at most one. *)
Definition typo_of (word word' : str) : Prop :=
  token word'
  /\ (length word' = length word
      \/ length word' = S (length word)
      \/ S (length word') = length word).

(** What [generate_typo] may return for [text]: the text itself, or the
    tokens of the text, joined by single blanks, with the token at one
    position replaced by a token that is as long, one longer or one
    shorter. *)
Definition one_token_typo (text out : str) : Prop :=
  out = text
  \/ exists idx word',
      idx < length (split_ws text)
      /\ typo_of (nth idx (split_ws text) []) word'
      /\ out = join (py " ") (set_nth (split_ws text) idx word')
      /\ split_ws out = set_nth (split_ws text) idx word'.
Example split_ws_ex : split_ws (py " a  b ") = [py "a"; py "b"].
Proof. reflexivity. Qed.

Example split_sep_ex : split_sep (py " | ") (py "a | b | c") = [py "a"; py "b"; py "c"].
Proof. reflexivity. Qed.

Example split_sep_ex2 : split_sep (py "/") (py "a//b") = [py "a"; []; py "b"].
Proof. reflexivity. Qed.

Example replace_all_ex : replace_all (py "aa") (py "b") (py "aaa") = py "ba".
Proof. reflexivity. Qed.

Example findall_ex :
  findall_placeholders (py "awk '{{print}}' {file} {a b} {} {x")
  = [py "print"; py "file"].
Proof. reflexivity. Qed.

Example dec_0_7 : dec 7 10 = S754_finite false 6305039478318694 (-53).
Proof. reflexivity. Qed.

Example dec_0_05 : dec 5 100 = S754_finite false 7205759403792794 (-57).
Proof. reflexivity. Qed.

Example trunc_29 : trunc (fmul (of_Z 100) (dec 29 100)) = 28%Z.
Proof. reflexivity. Qed.

Example trunc_35 : trunc (fmul (of_Z 100) (dec 35 100)) = 35%Z.
Proof. reflexivity. Qed.

Example pid_values :
  option_map (fun l => (length l, hd [] l, last l []))
    (dict_get (py "pid") COMMON_VARIABLES)
  = Some (74, py "1000", py "9979").
Proof. reflexivity. Qed.

Example shell_counts_100 :
  map snd (shell_counts 100) = [35; 25; 20; 12; 5; 3]%Z.
Proof. reflexivity. Qed.

Example shell_counts_2 :
  map snd (shell_counts 2) = [2; 0; 0; 0; 0; 0]%Z.
Proof. reflexivity. Qed.

Example expand_template_ex :
  expand_template (py "cp {src} {dst}") [(py "src", py "a.txt"); (py "dst", py "b.txt")]
  = py "cp a.txt b.txt".
Proof. reflexivity. Qed.

(** * Properties *)

(** ** Strings *)

Lemma str_eqb_eq (a b : str) : str_eqb a b = true <-> a = b.
Proof.
  revert b; induction a as [|x a IH]; intros [|y b]; simpl; split; intro H;
    try reflexivity; try discriminate.
  - apply andb_true_iff in H as [H1 H2].
    apply Ascii.eqb_eq in H1. apply IH in H2. now subst.
  - inversion H; subst. rewrite Ascii.eqb_refl. simpl. now apply IH.
Qed.

Lemma str_eqb_refl (a : str) : str_eqb a a = true.
Proof. now apply str_eqb_eq. Qed.

Lemma str_eqb_neq (a b : str) : str_eqb a b = false <-> a <> b.
Proof.
  split; intro H.
  - intro E. apply str_eqb_eq in E. congruence.
  - destruct (str_eqb a b) eqn:E; [|reflexivity].
    apply str_eqb_eq in E. contradiction.
Qed.

(** ** The randomised computations *)

Lemma Ensures_mono {A : Type} (P Q : A -> Prop) (m : Rand A) :
  (forall a, P a -> Q a) -> Ensures P m -> Ensures Q m.
Proof.
  intros HPQ H; induction H; constructor; auto.
Qed.

Lemma Ensures_bind {A B : Type} (P : B -> Prop) (m : Rand A) (f : A -> Rand B) :
  Ensures (fun a => Ensures P (f a)) m -> Ensures P (bind m f).
Proof.
  intros H; induction H; simpl; try (constructor; auto); assumption.
Qed.

Lemma Ensures_True {A : Type} (m : Rand A) : Ensures (fun _ => True) m.
Proof. induction m; constructor; auto. Qed.

(** A postcondition that holds of every value is ensured after any
    computation. *)
Lemma Ensures_after {A B : Type} (P : B -> Prop) (m : Rand A) (f : A -> Rand B) :
  (forall a, Ensures P (f a)) -> Ensures P (bind m f).
Proof.
  intros H. apply Ensures_bind. eapply Ensures_mono; [|apply Ensures_True].
  intros a _. apply H.
Qed.

Lemma Ensures_for_range {S : Type} (I : S -> Prop) (n : nat) (body : S -> Rand S) :
  (forall s, I s -> Ensures I (body s)) ->
  forall s, I s -> Ensures I (for_range n body s).
Proof.
  intros Hbody; induction n as [|n IH]; intros s Hs; simpl.
  - now constructor.
  - apply Ensures_bind. eapply Ensures_mono; [|apply Hbody, Hs]. auto.
Qed.

Lemma Always_mono {A : Type} (P Q : A -> Prop) (m : Rand A) :
  (forall a, P a -> Q a) -> Always P m -> Always Q m.
Proof.
  intros HPQ H; induction H; constructor; auto.
Qed.

Lemma Always_bind {A B : Type} (P : B -> Prop) (m : Rand A) (f : A -> Rand B) :
  Always (fun a => Always P (f a)) m -> Always P (bind m f).
Proof.
  intros H; induction H; simpl; try (constructor; auto); assumption.
Qed.

Lemma Always_Ensures {A : Type} (P : A -> Prop) (m : Rand A) :
  Always P m -> Ensures P m.
Proof. intros H; induction H; constructor; auto. Qed.

Lemma Ensures_Possible {A : Type} (P : A -> Prop) (m : Rand A) (a : A) :
  Ensures P m -> Possible m a -> P a.
Proof.
  intros H Hp; induction Hp; inversion H; subst; auto.
Qed.

Lemma Possible_bind {A B : Type} (m : Rand A) (f : A -> Rand B) (a : A) (b : B) :
  Possible m a -> Possible (f a) b -> Possible (bind m f) b.
Proof.
  intros H; induction H; intros Hf; simpl; auto.
  - econstructor; eauto.
  - econstructor; eauto.
Qed.

Section Runs.
Context {R : Type} `{G : RandomGen R}.

Lemma Ensures_run {A : Type} (P : A -> Prop) (m : Rand A) :
  Ensures P m -> forall r a r', run m r = (inr a, r') -> P a.
Proof.
  intros H; induction H; intros r a' r' E; simpl in E.
  - now inversion E; subst.
  - discriminate.
  - pose proof (next_random_range r) as Hr.
    destruct (next_random r) as [x r1]. eapply H0; eauto.
  - destruct (Z.ltb_spec 0 n) as [Hn|Hn]; [|discriminate].
    pose proof (next_below_range r Hn) as Hr.
    destruct (next_below n r) as [x r1]. eapply H0; eauto.
Qed.

Lemma Always_run {A : Type} (P : A -> Prop) (m : Rand A) :
  Always P m -> forall r, exists a r', run m r = (inr a, r') /\ P a.
Proof.
  intros H; induction H; intros r; simpl.
  - eauto.
  - pose proof (next_random_range r) as Hr.
    destruct (next_random r) as [x r1]. eauto.
  - destruct (Z.ltb_spec 0 n) as [Hn|Hn]; [|lia].
    pose proof (next_below_range r Hn) as Hr.
    destruct (next_below n r) as [x r1]. eauto.
Qed.

Lemma run_Possible {A : Type} (m : Rand A) :
  forall r a r', run m r = (inr a, r') -> Possible m a.
Proof.
  induction m; intros r a' r' E; simpl in E.
  - inversion E; subst. constructor.
  - discriminate.
  - pose proof (next_random_range r) as Hr.
    destruct (next_random r) as [x r1]. econstructor; eauto.
  - destruct (Z.ltb_spec 0 n) as [Hn|Hn]; [|discriminate].
    pose proof (next_below_range r Hn) as Hr.
    destruct (next_below n r) as [x r1]. econstructor; eauto.
Qed.
End Runs.


(** ** The single-character classifier *)


Lemma diff_count_cons (x y : ascii) (a b : str) :
  SingleCommandGenerator.diff_count (x :: a) (y :: b)
  = (if Ascii.eqb x y then 0 else 1) + SingleCommandGenerator.diff_count a b.
Proof.
  unfold SingleCommandGenerator.diff_count; simpl. destruct (Ascii.eqb x y); reflexivity.
Qed.

Lemma diff_count_same (s : str) : SingleCommandGenerator.diff_count s s = 0.
Proof.
  induction s as [|c s IH]; [reflexivity|].
  rewrite diff_count_cons, Ascii.eqb_refl. exact IH.
Qed.

Lemma diff_count_prefix (p u v : str) :
  SingleCommandGenerator.diff_count (p ++ u) (p ++ v) = SingleCommandGenerator.diff_count u v.
Proof.
  induction p as [|c p IH]; [reflexivity|].
  simpl. rewrite diff_count_cons, Ascii.eqb_refl. exact IH.
Qed.

Lemma diff_count_zero (a b : str) :
  length a = length b -> SingleCommandGenerator.diff_count a b = 0 -> a = b.
Proof.
  revert b; induction a as [|x a IH]; intros [|y b] Hl Hd; try discriminate.
  - reflexivity.
  - rewrite diff_count_cons in Hd. simpl in Hl.
    destruct (Ascii.eqb x y) eqn:E; [|discriminate].
    apply Ascii.eqb_eq in E. subst. f_equal. apply IH; [lia|exact Hd].
Qed.

Lemma diff_count_one (a b : str) :
  length a = length b ->
  (SingleCommandGenerator.diff_count a b = 1 <-> one_substituted a b).
Proof.
  intros Hl; split.
  - revert b Hl; induction a as [|x a IH]; intros [|y b] Hl Hd; try discriminate.
    rewrite diff_count_cons in Hd. simpl in Hl.
    destruct (Ascii.eqb x y) eqn:E.
    + apply Ascii.eqb_eq in E; subst.
      destruct (IH b) as (p & x' & y' & s & Ha & Hb & Hxy); [lia|exact Hd|].
      exists (y :: p), x', y', s. subst. repeat split; auto.
    + apply Ascii.eqb_neq in E.
      assert (a = b) by (apply diff_count_zero; lia). subst.
      exists [], x, y, b. repeat split; auto.
  - intros (p & x & y & s & Ha & Hb & Hxy). subst.
    rewrite diff_count_prefix, diff_count_cons, diff_count_same.
    apply Ascii.eqb_neq in Hxy. now rewrite Hxy.
Qed.

Lemma one_substituted_length (a b : str) :
  one_substituted a b -> length a = length b.
Proof.
  intros (p & x & y & s & Ha & Hb & _). subst.
  rewrite !length_app. reflexivity.
Qed.

Lemma one_removed_length (a b : str) :
  one_removed a b -> length b = S (length a).
Proof.
  intros (p & x & s & Hb & Ha). subst.
  rewrite !length_app. simpl. lia.
Qed.

Lemma remove_middle {A : Type} (p : list A) (x : A) (s : list A) :
  firstn (length p) (p ++ x :: s) ++ skipn (S (length p)) (p ++ x :: s) = p ++ s.
Proof.
  induction p as [|c p IH]; [reflexivity|].
  simpl. f_equal. exact IH.
Qed.

Lemma removal_scan (shorter longer : str) :
  existsb (fun i => str_eqb shorter (firstn i longer ++ skipn (S i) longer))
          (seq 0 (length longer)) = true
  <-> one_removed shorter longer.
Proof.
  rewrite existsb_exists. split.
  - intros (i & Hi & E). apply in_seq in Hi. apply str_eqb_eq in E.
    exists (firstn i longer), (nth i longer " "%char), (skipn (S i) longer).
    split; [|exact E].
    rewrite <- (firstn_skipn i longer) at 1. f_equal.
    clear E. destruct Hi as [_ Hi]. simpl in Hi.
    revert i Hi. induction longer as [|c l IH]; intros i Hi; simpl in Hi; [lia|].
    destruct i as [|i]; [reflexivity|].
    simpl. apply IH. lia.
  - intros (p & x & s & Hl & Hs). subst.
    exists (length p). split.
    + apply in_seq. rewrite length_app. simpl. lia.
    + apply str_eqb_eq. symmetry. apply remove_middle.
Qed.

Lemma is_single_char_correction_spec (a b : str) :
  SingleCommandGenerator._is_single_char_correction a b = true <-> single_char_spec (strip a) (strip b).
Proof.
  unfold SingleCommandGenerator._is_single_char_correction, single_char_spec.
  fold (SingleCommandGenerator.diff_count (strip a) (strip b)).
  set (inc := strip a). set (cor := strip b).
  destruct (Nat.eqb_spec (length inc) (length cor)) as [El|Nl].
  - rewrite Nat.eqb_eq, diff_count_one by exact El. split; [auto|].
    intros [H|[[H _]|[H _]]]; [exact H|lia|lia].
  - destruct (Z.eqb_spec (Z.abs (Z.of_nat (length inc) - Z.of_nat (length cor))) 1)
      as [E1|N1].
    + destruct (Nat.leb_spec (length inc) (length cor)) as [Hle|Hgt].
      * rewrite removal_scan. split.
        -- intros H. right; left. split; [lia|exact H].
        -- intros [H|[[_ H]|[H _]]]; [|exact H|lia].
           apply one_substituted_length in H. contradiction.
      * rewrite removal_scan. split.
        -- intros H. right; right. split; [lia|exact H].
        -- intros [H|[[H _]|[_ H]]]; [|lia|exact H].
           apply one_substituted_length in H. contradiction.
    + split; [discriminate|].
      intros [H|[[H _]|[H _]]].
      * apply one_substituted_length in H. contradiction.
      * lia.
      * lia.
Qed.

(** C3. [SingleCommandGenerator._is_single_char_correction(a, b)], as the single-command and the
    tools generator define it, is true exactly when the trimmed strings
    have equal length and differ in exactly one position, or their
    lengths differ by one and the shorter is the longer with one
    character removed; it is true on ("ls -la", "ls -lA"),
    ("cat file", "cat files") and ("git status", "git stats") and false on
    ("ls", "ls -la"). *)
Theorem C3_is_single_char_correction :
  (forall a b,
      SingleCommandGenerator._is_single_char_correction a b = true <-> single_char_spec (strip a) (strip b))
  /\ (forall a b,
      ToolsGenerator._is_single_char_correction a b = true
      <-> single_char_spec (strip a) (strip b))
  /\ SingleCommandGenerator._is_single_char_correction (py "ls -la") (py "ls -lA") = true
  /\ SingleCommandGenerator._is_single_char_correction (py "cat file") (py "cat files") = true
  /\ SingleCommandGenerator._is_single_char_correction (py "git status") (py "git stats") = true
  /\ SingleCommandGenerator._is_single_char_correction (py "ls") (py "ls -la") = false.
Proof.
  split; [exact is_single_char_correction_spec|].
  split; [exact is_single_char_correction_spec|].
  repeat split; reflexivity.
Qed.

(** ** Tokens and [remove_space] *)

Lemma token_cons (c : ascii) (w : str) :
  token (c :: w) <-> is_space c = false /\ (w = [] \/ token w).
Proof.
  unfold token; simpl. rewrite andb_true_iff, negb_true_iff. split.
  - intros [_ [Hc Hw]]. split; [exact Hc|].
    destruct w; [now left|right]. split; [discriminate|exact Hw].
  - intros [Hc [->|[_ Hw]]]; (split; [discriminate|split; auto]).
Qed.

Lemma token_app (u v : str) : token u -> token v -> token (u ++ v).
Proof.
  intros [Hu Fu] [Hv Fv]. split.
  - destruct u; [contradiction|discriminate].
  - rewrite forallb_app, Fu, Fv. reflexivity.
Qed.

Lemma split_ws_cons2 (c d : ascii) (s : str) :
  split_ws (c :: d :: s)
  = if is_space c then split_ws (d :: s)
    else if is_space d then [c] :: split_ws (d :: s)
    else match split_ws (d :: s) with
         | w :: ws => (c :: w) :: ws
         | [] => [[c]]
         end.
Proof. reflexivity. Qed.

Lemma split_ws_token (w : str) : token w -> split_ws w = [w].
Proof.
  induction w as [|c w IH]; intros H; [destruct H as [H _]; contradiction|].
  apply token_cons in H as [Hc Hw].
  destruct w as [|d w']; [simpl; rewrite Hc; reflexivity|].
  destruct Hw as [Hw|Hw]; [discriminate|].
  pose proof Hw as Hw'. apply token_cons in Hw' as [Hd _].
  rewrite split_ws_cons2, Hc, Hd, (IH Hw). reflexivity.
Qed.

Lemma split_ws_token_space (w : str) (d : ascii) (rest : str) :
  token w -> is_space d = true ->
  split_ws (w ++ d :: rest) = w :: split_ws rest.
Proof.
  intros Hw Hd. induction w as [|c w IH]; [destruct Hw as [H _]; contradiction|].
  apply token_cons in Hw as [Hc Hw].
  destruct w as [|c2 w'].
  - change ([c] ++ d :: rest) with (c :: d :: rest).
    rewrite split_ws_cons2, Hc, Hd. simpl. rewrite Hd. reflexivity.
  - destruct Hw as [Hw|Hw]; [discriminate|].
    pose proof Hw as Hw'. apply token_cons in Hw' as [Hc2 _].
    specialize (IH Hw).
    change ((c :: c2 :: w') ++ d :: rest) with (c :: c2 :: (w' ++ d :: rest)).
    rewrite split_ws_cons2, Hc, Hc2.
    change (c2 :: w' ++ d :: rest) with ((c2 :: w') ++ d :: rest).
    rewrite IH. reflexivity.
Qed.

Lemma split_ws_tokens (s : str) : Forall token (split_ws s).
Proof.
  induction s as [|c s IH]; [constructor|].
  assert (Hone : is_space c = false -> token [c]) by (intro; apply token_cons; auto).
  destruct s as [|d s'].
  - simpl. destruct (is_space c) eqn:Hc; [constructor|].
    constructor; [auto|constructor].
  - rewrite split_ws_cons2.
    destruct (is_space c) eqn:Hc; [exact IH|].
    destruct (is_space d) eqn:Hd.
    + constructor; [auto|exact IH].
    + destruct (split_ws (d :: s')) as [|w ws]; [constructor; [auto|constructor]|].
      inversion IH; subst. constructor; [|assumption].
      apply token_cons. split; [exact Hc|now right].
Qed.

Lemma split_ws_join (ws : list str) :
  Forall token ws -> split_ws (join (py " ") ws) = ws.
Proof.
  induction 1 as [|w ws Hw Hws IH]; [reflexivity|].
  destruct ws as [|w2 ws'].
  - simpl. now apply split_ws_token.
  - change (join (py " ") (w :: w2 :: ws'))
      with (w ++ " "%char :: join (py " ") (w2 :: ws')).
    rewrite split_ws_token_space by (auto; reflexivity).
    now rewrite IH.
Qed.

Lemma Forall_firstn' {A : Type} (P : A -> Prop) (n : nat) (l : list A) :
  Forall P l -> Forall P (firstn n l).
Proof.
  intros H; revert n; induction H; intros [|n]; simpl; constructor; auto.
Qed.

Lemma Forall_skipn' {A : Type} (P : A -> Prop) (n : nat) (l : list A) :
  Forall P l -> Forall P (skipn n l).
Proof.
  intros H; revert n; induction H; intros [|n]; simpl; auto.
Qed.

Lemma Forall_set_nth {A : Type} (P : A -> Prop) (l : list A) (i : nat) (v : A) :
  Forall P l -> P v -> Forall P (set_nth l i v).
Proof.
  intros Hl Hv. unfold set_nth. apply Forall_app. split.
  - now apply Forall_firstn'.
  - constructor; [exact Hv|now apply Forall_skipn'].
Qed.

Lemma Forall_pop_nth {A : Type} (P : A -> Prop) (l : list A) (i : nat) :
  Forall P l -> Forall P (pop_nth l i).
Proof.
  intros Hl. unfold pop_nth. apply Forall_app. split.
  - now apply Forall_firstn'.
  - now apply Forall_skipn'.
Qed.

Lemma length_set_nth {A : Type} (l : list A) (i : nat) (v : A) :
  i < length l -> length (set_nth l i v) = length l.
Proof.
  intros Hi. unfold set_nth.
  rewrite length_app, length_firstn.
  change (length (v :: skipn (S i) l)) with (S (length (skipn (S i) l))).
  rewrite length_skipn. lia.
Qed.

Lemma length_pop_nth {A : Type} (l : list A) (i : nat) :
  i < length l -> length (pop_nth l i) = length l - 1.
Proof.
  intros Hi. unfold pop_nth.
  rewrite length_app, length_firstn, length_skipn. lia.
Qed.

Lemma Forall_nth' {A : Type} (P : A -> Prop) (l : list A) (i : nat) (d : A) :
  Forall P l -> i < length l -> P (nth i l d).
Proof.
  intros H Hi. rewrite Forall_forall in H. apply H. now apply nth_In.
Qed.

Lemma Always_randint (P : Z -> Prop) (a b : Z) :
  (a <= b)%Z -> (forall z, (a <= z <= b)%Z -> P z) -> Always P (randint a b).
Proof.
  intros Hab HP. unfold randint.
  destruct (Z.ltb_spec 0 (b + 1 - a)) as [Hw|Hw]; [|lia].
  constructor; [exact Hw|].
  intros x Hx. constructor. apply HP. lia.
Qed.

Lemma remove_space_merges (text : str) :
  2 <= length (split_ws text) ->
  Always (fun out => exists i, i + 1 < length (split_ws text)
                     /\ split_ws out = merged_tokens (split_ws text) i)
         (remove_space text).
Proof.
  intros Hn. unfold remove_space.
  destruct (Nat.ltb_spec (length (split_ws text)) 2) as [Hlt|_]; [lia|].
  apply Always_bind. apply Always_randint; [lia|].
  intros z Hz. constructor.
  exists (Z.to_nat z). split; [lia|].
  pose proof (split_ws_tokens text) as Ht.
  apply split_ws_join. apply Forall_pop_nth. apply Forall_set_nth; [exact Ht|].
  apply token_app; apply Forall_nth'; auto; lia.
Qed.

Lemma length_merged_tokens (parts : list str) (i : nat) :
  i + 1 < length parts -> length (merged_tokens parts i) = length parts - 1.
Proof.
  intros Hi. unfold merged_tokens.
  rewrite length_pop_nth; rewrite length_set_nth; lia.
Qed.

(** C8. For an input with at least two whitespace-separated tokens,
    [remove_space] returns, without raising, a string with exactly one
    token fewer (two adjacent tokens merged); for an input with fewer
    than two tokens it returns the input unchanged. *)
Theorem C8_remove_space (text : str) :
  (2 <= length (split_ws text) ->
   Always (fun out => length (split_ws out) = length (split_ws text) - 1
                      /\ exists i, i + 1 < length (split_ws text)
                                   /\ split_ws out = merged_tokens (split_ws text) i)
          (remove_space text))
  /\ (length (split_ws text) < 2 -> remove_space text = Ret text).
Proof.
  split.
  - intros Hn. eapply Always_mono; [|apply remove_space_merges; exact Hn].
    intros out (i & Hi & E). split; [|eauto].
    rewrite E. now apply length_merged_tokens.
  - intros Hn. unfold remove_space.
    destruct (Nat.ltb_spec (length (split_ws text)) 2) as [_|Hge]; [reflexivity|lia].
Qed.

(** The statement at ["mkdir -p path"] : three tokens, two after any run. *)
Lemma C8_remove_space_witness :
  2 <= length (split_ws (py "mkdir -p path"))
  /\ Always (fun out => length (split_ws out) = 2) (remove_space (py "mkdir -p path")).
Proof.
  split; [simpl; lia|].
  eapply Always_mono;
    [|apply (proj1 (C8_remove_space (py "mkdir -p path"))); simpl; lia].
  intros out [H _]. exact H.
Defined.

(** ** [str.replace] and substring occurrence *)

Lemma startswith_app (p s : str) : startswith p (p ++ s) = true.
Proof.
  induction p as [|c p IH]; [reflexivity|].
  simpl. rewrite Ascii.eqb_refl. exact IH.
Qed.

Lemma startswith_spec (p s : str) :
  startswith p s = true <-> exists r, s = p ++ r.
Proof.
  split.
  - revert s; induction p as [|c p IH]; intros s H; [now exists s|].
    destruct s as [|d s]; [discriminate|]. simpl in H.
    apply andb_true_iff in H as [Hc Hp]. apply Ascii.eqb_eq in Hc. subst.
    destruct (IH s Hp) as [r ->]. now exists r.
  - intros [r ->]. apply startswith_app.
Qed.

Lemma startswith_length (p s : str) :
  startswith p s = true -> length p <= length s.
Proof.
  intros H. apply startswith_spec in H as [r ->]. rewrite length_app. lia.
Qed.

Lemma skipn_prefix (p r : str) : skipn (length p) (p ++ r) = r.
Proof. induction p; simpl; auto. Qed.

Lemma contains_cons (sub : str) (c : ascii) (s : str) :
  contains sub (c :: s) = startswith sub (c :: s) || contains sub s.
Proof. reflexivity. Qed.

Lemma contains_startswith (sub s : str) :
  startswith sub s = true -> contains sub s = true.
Proof. intros H. destruct s; simpl; rewrite H; reflexivity. Qed.

Lemma contains_spec (sub s : str) :
  contains sub s = true <-> exists u r, s = u ++ sub ++ r.
Proof.
  split.
  - induction s as [|c s IH]; intros H.
    + change (contains sub []) with (startswith sub [] || false) in H.
      rewrite orb_false_r in H. apply startswith_spec in H as [r E].
      now exists [], r.
    + rewrite contains_cons in H. apply orb_true_iff in H as [H|H].
      * apply startswith_spec in H as [r E]. now exists [], r.
      * destruct (IH H) as (u & r & ->). now exists (c :: u), r.
  - intros (u & r & ->). induction u as [|c u IH].
    + change ([] ++ sub ++ r) with (sub ++ r).
      apply contains_startswith, startswith_app.
    + change ((c :: u) ++ sub ++ r) with (c :: (u ++ sub ++ r)).
      rewrite contains_cons, IH. apply orb_true_r.
Qed.

Lemma contains_app_r (sub u s : str) :
  contains sub s = true -> contains sub (u ++ s) = true.
Proof.
  intros H. apply contains_spec in H as (a & r & ->).
  apply contains_spec. exists (u ++ a), r. now rewrite <- app_assoc.
Qed.

Lemma replace_fuel_S (f : nat) (old new s : str) :
  replace_fuel (S f) old new s
  = if startswith old s then new ++ replace_fuel f old new (skipn (length old) s)
    else match s with
         | [] => []
         | c :: s' => c :: replace_fuel f old new s'
         end.
Proof. reflexivity. Qed.

Lemma replace_fuel_enough (o : ascii) (old' new : str) (f1 f2 : nat) (s : str) :
  length s < f1 -> length s < f2 ->
  replace_fuel f1 (o :: old') new s = replace_fuel f2 (o :: old') new s.
Proof.
  revert f2 s; induction f1 as [|f1 IH]; intros f2 s H1 H2; [lia|].
  destruct f2 as [|f2]; [lia|].
  rewrite !replace_fuel_S.
  destruct (startswith (o :: old') s) eqn:E.
  - f_equal. apply startswith_length in E. simpl in E.
    apply IH; rewrite length_skipn; simpl; lia.
  - destruct s as [|c s]; [reflexivity|].
    f_equal. apply IH; simpl in *; lia.
Qed.

(** The equation that [replace_all] obeys for a non-empty pattern. *)
Lemma replace_all_eq (o : ascii) (old' new s : str) :
  replace_all (o :: old') new s
  = if startswith (o :: old') s
    then new ++ replace_all (o :: old') new (skipn (length (o :: old')) s)
    else match s with
         | [] => []
         | c :: s' => c :: replace_all (o :: old') new s'
         end.
Proof.
  unfold replace_all at 1. rewrite replace_fuel_S.
  destruct (startswith (o :: old') s) eqn:E.
  - f_equal. unfold replace_all. apply startswith_length in E. simpl in E.
    apply replace_fuel_enough; rewrite length_skipn; simpl; lia.
  - destruct s as [|c s]; reflexivity.
Qed.

Lemma replace_all_absent (old new s : str) :
  old <> [] -> contains old s = false -> replace_all old new s = s.
Proof.
  intros Hne. destruct old as [|o old']; [contradiction|]. clear Hne.
  induction s as [|c s IH]; intros H.
  - change (contains (o :: old') []) with (startswith (o :: old') [] || false) in H.
    rewrite orb_false_r in H. rewrite replace_all_eq, H. reflexivity.
  - rewrite contains_cons in H. apply orb_false_iff in H as [H1 H2].
    rewrite replace_all_eq, H1. f_equal. now apply IH.
Qed.

Lemma replace_first_absent (old new s : str) :
  contains old s = false -> replace_first old new s = s.
Proof.
  induction s as [|c s IH]; intros H.
  - change (contains old []) with (startswith old [] || false) in H.
    rewrite orb_false_r in H. simpl replace_first. now rewrite H.
  - rewrite contains_cons in H. apply orb_false_iff in H as [H1 H2].
    simpl replace_first. rewrite H1. f_equal. now apply IH.
Qed.

(** *** Placeholders *)

Lemma brace_free_cons (c : ascii) (w : str) :
  brace_free (c :: w) = true
  <-> Ascii.eqb c lbrace = false /\ Ascii.eqb c rbrace = false /\ brace_free w = true.
Proof.
  unfold brace_free, is_brace; simpl.
  rewrite andb_true_iff, negb_true_iff, orb_false_iff. tauto.
Qed.

Lemma expand_template_cons (t k v : str) (b : list (str * str)) :
  expand_template t ((k, v) :: b) = expand_template (replace_all (ph k) v t) b.
Proof. reflexivity. Qed.

Lemma startswith_cons (x y : ascii) (p s : str) :
  startswith (x :: p) (y :: s) = Ascii.eqb x y && startswith p s.
Proof. reflexivity. Qed.

Lemma startswith_ph_cons (k : str) (c : ascii) (s : str) :
  startswith (ph k) (c :: s) = Ascii.eqb c lbrace && startswith (k ++ [rbrace]) s.
Proof. unfold ph. rewrite startswith_cons, Ascii.eqb_sym. reflexivity. Qed.

Lemma ph_cons (k : str) : ph k = lbrace :: (k ++ [rbrace]).
Proof. reflexivity. Qed.

(** A brace-free prefix is copied by the replacement of a placeholder. *)
Lemma replace_all_ph_passes (k v u s : str) :
  forallb (fun c => negb (Ascii.eqb c lbrace)) u = true ->
  replace_all (ph k) v (u ++ s) = u ++ replace_all (ph k) v s.
Proof.
  induction u as [|c u IH]; intros H; [reflexivity|].
  simpl in H. apply andb_true_iff in H as [Hc Hu]. apply negb_true_iff in Hc.
  change ((c :: u) ++ s) with (c :: (u ++ s)).
  rewrite ph_cons, replace_all_eq, <- ph_cons, startswith_ph_cons, Hc.
  cbn [andb app]. f_equal. now apply IH.
Qed.

Lemma brace_free_no_lbrace (w : str) :
  brace_free w = true -> forallb (fun c => negb (Ascii.eqb c lbrace)) w = true.
Proof.
  induction w as [|c w IH]; [reflexivity|].
  intros H. apply brace_free_cons in H as (H1 & _ & H3).
  simpl. rewrite H1. simpl. now apply IH.
Qed.

(** ** [expand_template] against simultaneous substitution *)

Lemma rbrace_not_lbrace : Ascii.eqb rbrace lbrace = false.
Proof. reflexivity. Qed.

Lemma lbrace_not_rbrace : Ascii.eqb lbrace rbrace = false.
Proof. reflexivity. Qed.

Lemma find_bound_cons (k v : str) (b : list (str * str)) (s : str) :
  find_bound ((k, v) :: b) s
  = if startswith (ph k) s then Some (k, v) else find_bound b s.
Proof. reflexivity. Qed.

Lemma find_bound_other (b : list (str * str)) (c : ascii) (s : str) :
  Ascii.eqb c lbrace = false -> find_bound b (c :: s) = None.
Proof.
  intros Hc. induction b as [|[k v] b IH]; [reflexivity|].
  rewrite find_bound_cons, startswith_ph_cons, Hc. exact IH.
Qed.

Lemma find_bound_startswith (b : list (str * str)) (s : str) (k v : str) :
  find_bound b s = Some (k, v) -> startswith (ph k) s = true.
Proof.
  induction b as [|[k' v'] b IH]; [discriminate|].
  rewrite find_bound_cons. destruct (startswith (ph k') s) eqn:E.
  - intros H; inversion H; subst. exact E.
  - exact IH.
Qed.

Lemma plain_binding_cons (k v : str) (b : list (str * str)) :
  plain_binding ((k, v) :: b) = true
  <-> brace_free k = true /\ brace_free v = true /\ plain_binding b = true.
Proof.
  unfold plain_binding. simpl. rewrite !andb_true_iff. tauto.
Qed.

Lemma find_bound_brace_free (b : list (str * str)) (s : str) (k v : str) :
  plain_binding b = true -> find_bound b s = Some (k, v) ->
  brace_free k = true /\ brace_free v = true.
Proof.
  induction b as [|[k' v'] b IH]; [discriminate|].
  intros Hp. apply plain_binding_cons in Hp as (Hk & Hv & Hb).
  rewrite find_bound_cons. destruct (startswith (ph k') s).
  - intros H; inversion H; subst. auto.
  - now apply IH.
Qed.

(** Two strings that start with the same bound placeholders are looked
    up alike. *)
Lemma find_bound_agree (b : list (str * str)) (s1 s2 : str) :
  (forall k v, In (k, v) b -> startswith (ph k) s1 = startswith (ph k) s2) ->
  find_bound b s1 = find_bound b s2.
Proof.
  induction b as [|[k v] b IH]; intros H; [reflexivity|].
  rewrite !find_bound_cons, (H k v) by now left.
  destruct (startswith (ph k) s2); [reflexivity|].
  apply IH. intros k' v' Hin. apply (H k' v'). now right.
Qed.

Lemma plain_binding_In (b : list (str * str)) (k v : str) :
  plain_binding b = true -> In (k, v) b -> brace_free k = true /\ brace_free v = true.
Proof.
  unfold plain_binding. rewrite forallb_forall. intros H Hin.
  specialize (H _ Hin). simpl in H. now apply andb_true_iff in H.
Qed.

Lemma length_ph (k : str) : length (ph k) = S (S (length k)).
Proof. unfold ph. simpl. rewrite length_app. simpl. lia. Qed.

(** *** The equation of the one-pass substitution *)

Lemma simultaneous_fuel_enough (b : list (str * str)) (f1 f2 : nat) (s : str) :
  length s < f1 -> length s < f2 ->
  simultaneous_fuel f1 b s = simultaneous_fuel f2 b s.
Proof.
  revert f2 s; induction f1 as [|f1 IH]; intros f2 s H1 H2; [lia|].
  destruct f2 as [|f2]; [lia|].
  destruct s as [|c s]; [reflexivity|].
  cbn [simultaneous_fuel].
  destruct (find_bound b (c :: s)) as [[k v]|].
  - f_equal. apply IH; rewrite length_skipn, length_ph; simpl in *; lia.
  - f_equal. apply IH; simpl in *; lia.
Qed.

Lemma simultaneous_eq (b : list (str * str)) (c : ascii) (s : str) :
  simultaneous_expand (c :: s) b
  = match find_bound b (c :: s) with
    | Some (k, v) => v ++ simultaneous_expand (skipn (length (ph k)) (c :: s)) b
    | None => c :: simultaneous_expand s b
    end.
Proof.
  unfold simultaneous_expand at 1. cbn [simultaneous_fuel].
  destruct (find_bound b (c :: s)) as [[k v]|].
  - f_equal. apply simultaneous_fuel_enough;
      rewrite length_skipn, length_ph; simpl; lia.
  - reflexivity.
Qed.

Lemma simultaneous_nil (b : list (str * str)) : simultaneous_expand [] b = [].
Proof. reflexivity. Qed.

Lemma simultaneous_empty_binding (s : str) : simultaneous_expand s [] = s.
Proof.
  induction s as [|c s IH]; [reflexivity|].
  rewrite simultaneous_eq. simpl find_bound. now rewrite IH.
Qed.

Lemma simultaneous_passes (b : list (str * str)) (u s : str) :
  brace_free u = true ->
  simultaneous_expand (u ++ s) b = u ++ simultaneous_expand s b.
Proof.
  induction u as [|c u IH]; intros H; [reflexivity|].
  apply brace_free_cons in H as (Hc & _ & Hu).
  change ((c :: u) ++ s) with (c :: (u ++ s)).
  rewrite simultaneous_eq, find_bound_other by exact Hc.
  cbn [app]. f_equal. now apply IH.
Qed.

(** *** Nesting *)

Lemma well_nested_cons (b : list (str * str)) (open : bool) (c : ascii) (s : str) :
  well_nested b open (c :: s)
  = if Ascii.eqb c lbrace then
      (match find_bound b (c :: s) with
       | Some _ => negb open
       | None => true
       end) && well_nested b true s
    else if Ascii.eqb c rbrace then well_nested b false s
    else well_nested b open s.
Proof. reflexivity. Qed.

Lemma well_nested_passes (b : list (str * str)) (open : bool) (u s : str) :
  brace_free u = true -> well_nested b open (u ++ s) = well_nested b open s.
Proof.
  induction u as [|c u IH]; intros H; [reflexivity|].
  apply brace_free_cons in H as (Hc & Hr & Hu).
  change ((c :: u) ++ s) with (c :: (u ++ s)).
  rewrite well_nested_cons, Hc, Hr. now apply IH.
Qed.

Lemma well_nested_after (b : list (str * str)) (open : bool) (k rest : str) :
  brace_free k = true ->
  well_nested b open (ph k ++ rest) = true -> well_nested b false rest = true.
Proof.
  intros Hk H. unfold ph in H.
  change ((lbrace :: k ++ [rbrace]) ++ rest)
    with (lbrace :: ((k ++ [rbrace]) ++ rest)) in H.
  rewrite well_nested_cons, Ascii.eqb_refl in H.
  apply andb_true_iff in H as [_ H].
  rewrite <- app_assoc, well_nested_passes in H by exact Hk.
  change ([rbrace] ++ rest) with (rbrace :: rest) in H.
  now rewrite well_nested_cons, rbrace_not_lbrace, Ascii.eqb_refl in H.
Qed.

Lemma well_nested_open_step (b : list (str * str)) (open : bool) (s : str) :
  well_nested b open (lbrace :: s) = true -> well_nested b true s = true.
Proof.
  rewrite well_nested_cons, Ascii.eqb_refl. intros H.
  now apply andb_true_iff in H.
Qed.

(** Under an open brace, the head of the string is no bound occurrence. *)
Lemma well_nested_true_head (k v : str) (b : list (str * str)) (d : ascii) (s : str) :
  well_nested ((k, v) :: b) true (d :: s) = true ->
  startswith (ph k) (d :: s) = false.
Proof.
  rewrite well_nested_cons, find_bound_cons, startswith_ph_cons.
  destruct (Ascii.eqb d lbrace); [|reflexivity].
  cbn [andb]. destruct (startswith (k ++ [rbrace]) s); [|reflexivity].
  discriminate.
Qed.

Lemma replace_all_nil (o : ascii) (old' new : str) : replace_all (o :: old') new [] = [].
Proof. reflexivity. Qed.

Lemma replace_all_step (k v : str) (c : ascii) (s : str) :
  startswith (ph k) (c :: s) = false ->
  replace_all (ph k) v (c :: s) = c :: replace_all (ph k) v s.
Proof.
  intros H. rewrite ph_cons, replace_all_eq, <- ph_cons, H. reflexivity.
Qed.

Lemma replace_all_hit (k v rest : str) :
  replace_all (ph k) v (ph k ++ rest) = v ++ replace_all (ph k) v rest.
Proof.
  rewrite ph_cons at 1. rewrite replace_all_eq, <- ph_cons.
  rewrite startswith_app, skipn_prefix. reflexivity.
Qed.

(** The run up to the first brace is left as it is by the replacement
    when no occurrence may start under the open brace. *)
Lemma first_segment_kept (k v : str) (b : list (str * str)) (k2 s : str) :
  brace_free k2 = true ->
  well_nested ((k, v) :: b) true s = true ->
  startswith (k2 ++ [rbrace]) (replace_all (ph k) v s)
  = startswith (k2 ++ [rbrace]) s.
Proof.
  revert k2; induction s as [|d s IH]; intros k2 Hk2 Hw; [reflexivity|].
  rewrite replace_all_step by (eapply well_nested_true_head; eauto).
  destruct k2 as [|x k2']; [reflexivity|].
  change ((x :: k2') ++ [rbrace]) with (x :: (k2' ++ [rbrace])).
  rewrite !startswith_cons.
  destruct (Ascii.eqb x d) eqn:Exd; [|reflexivity]. cbn [andb].
  apply Ascii.eqb_eq in Exd. subst d.
  apply brace_free_cons in Hk2 as (Hl & Hr & Hk2').
  apply IH; [exact Hk2'|].
  now rewrite well_nested_cons, Hl, Hr in Hw.
Qed.

Lemma find_bound_after_replace (k v : str) (b : list (str * str)) (s : str) :
  plain_binding b = true ->
  well_nested ((k, v) :: b) true s = true ->
  find_bound b (lbrace :: replace_all (ph k) v s) = find_bound b (lbrace :: s).
Proof.
  intros Hp Hw. apply find_bound_agree. intros k2 v2 Hin.
  destruct (plain_binding_In b k2 v2 Hp Hin) as [Hk2 _].
  rewrite !startswith_ph_cons. f_equal.
  exact (first_segment_kept k v b k2 s Hk2 Hw).
Qed.

Lemma replace_all_over (k v k2 rest : str) :
  brace_free k2 = true ->
  startswith (ph k) (ph k2 ++ rest) = false ->
  replace_all (ph k) v (ph k2 ++ rest) = ph k2 ++ replace_all (ph k) v rest.
Proof.
  intros Hk2 Hno.
  rewrite (ph_cons k2) in *.
  change ((lbrace :: k2 ++ [rbrace]) ++ rest)
    with (lbrace :: ((k2 ++ [rbrace]) ++ rest)) in *.
  rewrite replace_all_step by exact Hno.
  rewrite replace_all_ph_passes; [reflexivity|].
  rewrite forallb_app. rewrite brace_free_no_lbrace by exact Hk2.
  reflexivity.
Qed.

(** One sequential step agrees with the one-pass substitution that has
    the replaced name in front. *)
Lemma replace_then_simultaneous (k v : str) (b : list (str * str)) :
  brace_free k = true -> brace_free v = true -> plain_binding b = true ->
  forall n s open, length s <= n ->
    well_nested ((k, v) :: b) open s = true ->
    simultaneous_expand (replace_all (ph k) v s) b
    = simultaneous_expand s ((k, v) :: b).
Proof.
  intros Hk Hv Hp. induction n as [|n IH]; intros s open Hn Hw.
  - destruct s; [reflexivity|simpl in Hn; lia].
  - destruct s as [|c s]; [reflexivity|].
    destruct (startswith (ph k) (c :: s)) eqn:Ek.
    + (* the replaced placeholder starts here *)
      pose proof Ek as Ek'. apply startswith_spec in Ek' as [rest E].
      assert (Hlen : length rest <= n).
      { assert (length (c :: s) = length (ph k ++ rest)) as H by now rewrite E.
        rewrite length_app, length_ph in H. lia. }
      rewrite (simultaneous_eq ((k, v) :: b)), find_bound_cons, Ek.
      rewrite E, replace_all_hit, skipn_prefix, simultaneous_passes by exact Hv.
      f_equal. apply (IH rest false Hlen).
      rewrite E in Hw. eapply well_nested_after; [exact Hk|exact Hw].
    + rewrite replace_all_step by exact Ek.
      rewrite (simultaneous_eq ((k, v) :: b)), find_bound_cons, Ek.
      destruct (Ascii.eqb c lbrace) eqn:Ec.
      * apply Ascii.eqb_eq in Ec. subst c.
        pose proof (well_nested_open_step _ _ _ Hw) as Hw'.
        rewrite simultaneous_eq, (find_bound_after_replace k v b s Hp Hw').
        destruct (find_bound b (lbrace :: s)) as [[k2 v2]|] eqn:Ef.
        -- destruct (find_bound_brace_free b _ Hp Ef) as [Hk2 _].
           pose proof (find_bound_startswith b _ Ef) as E2.
           apply startswith_spec in E2 as [rest E].
           assert (Hlen : length rest <= n).
           { assert (length (lbrace :: s) = length (ph k2 ++ rest)) as H by now rewrite E.
             rewrite length_app, length_ph in H. cbn [length] in H, Hn. lia. }
           rewrite <- (replace_all_step k v lbrace s Ek).
           rewrite E in Ek, Hw |- *.
           rewrite replace_all_over, !skipn_prefix by assumption.
           f_equal. apply (IH rest false Hlen).
           eapply well_nested_after; [exact Hk2|exact Hw].
        -- f_equal. apply (IH s true); [simpl in Hn; lia|exact Hw'].
      * rewrite simultaneous_eq, !find_bound_other by exact Ec.
        f_equal. rewrite well_nested_cons, Ec in Hw.
        destruct (Ascii.eqb c rbrace).
        -- apply (IH s false); [simpl in Hn; lia|exact Hw].
        -- apply (IH s open); [simpl in Hn; lia|exact Hw].
Qed.

(** The nesting condition survives a sequential step. *)
Lemma well_nested_replace (k v : str) (b : list (str * str)) :
  brace_free k = true -> brace_free v = true -> plain_binding b = true ->
  forall n s open, length s <= n ->
    well_nested ((k, v) :: b) open s = true ->
    well_nested b open (replace_all (ph k) v s) = true.
Proof.
  intros Hk Hv Hp. induction n as [|n IH]; intros s open Hn Hw.
  - destruct s; [reflexivity|simpl in Hn; lia].
  - destruct s as [|c s]; [reflexivity|].
    destruct (startswith (ph k) (c :: s)) eqn:Ek.
    + pose proof Ek as Ek'. apply startswith_spec in Ek' as [rest E].
      assert (Hopen : open = false).
      { rewrite well_nested_cons, find_bound_cons, Ek in Hw.
        rewrite startswith_ph_cons in Ek. apply andb_true_iff in Ek as [Ec _].
        rewrite Ec in Hw. apply andb_true_iff in Hw as [Hw _].
        now destruct open. }
      subst open.
      assert (Hlen : length rest <= n).
      { assert (length (c :: s) = length (ph k ++ rest)) as H by now rewrite E.
        rewrite length_app, length_ph in H. lia. }
      rewrite E in Hw |- *.
      rewrite replace_all_hit, well_nested_passes by exact Hv.
      apply (IH rest false Hlen).
      eapply well_nested_after; [exact Hk|exact Hw].
    + rewrite replace_all_step by exact Ek.
      rewrite well_nested_cons in *.
      destruct (Ascii.eqb c lbrace) eqn:Ec.
      * apply Ascii.eqb_eq in Ec. subst c.
        apply andb_true_iff in Hw as [Hchk Hw'].
        rewrite (find_bound_after_replace k v b s Hp Hw').
        rewrite find_bound_cons, Ek in Hchk. rewrite Hchk. cbn [andb].
        apply IH; [simpl in Hn; lia|exact Hw'].
      * destruct (Ascii.eqb c rbrace); apply IH; simpl in Hn; auto; lia.
Qed.

(** Sequential and one-pass substitution agree on plain bindings and
    well-nested templates. *)
Lemma expand_template_simultaneous (b : list (str * str)) :
  forall t, plain_binding b = true -> well_nested b false t = true ->
            expand_template t b = simultaneous_expand t b.
Proof.
  induction b as [|[k v] b IH]; intros t Hp Hw.
  - symmetry. apply simultaneous_empty_binding.
  - apply plain_binding_cons in Hp as (Hk & Hv & Hb).
    rewrite expand_template_cons.
    rewrite IH; [|exact Hb|].
    + eapply replace_then_simultaneous; eauto.
    + eapply well_nested_replace; eauto.
Qed.

(** A template in which no bound placeholder occurs is left as it is. *)
Lemma expand_template_absent (b : list (str * str)) (t : str) :
  (forall k v, In (k, v) b -> contains (ph k) t = false) ->
  expand_template t b = t.
Proof.
  induction b as [|[k v] b IH]; intros H; [reflexivity|].
  rewrite expand_template_cons, replace_all_absent.
  - apply IH. intros k' v' Hin. apply (H k' v'). now right.
  - discriminate.
  - apply (H k v). now left.
Qed.





(** ** [wrong_flag] *)


(** Counterexample to C9 as stated: on ["ls --all"], a draw of 0.25 does
    not exceed 0.5 and the input comes back unchanged. *)
Lemma C9_counterexample :
  contains (py " --") (py "ls --all") = true
  /\ fst (run (wrong_flag (py "ls --all")) [frac 1 4]) = inr (py "ls --all")
  /\ replace_first (py " --") (py " -") (py "ls --all") = py "ls -all"
  /\ ~ wrong_flag_always_demotes.
Proof.
  split; [reflexivity|]. split; [reflexivity|]. split; [reflexivity|].
  intros H.
  specialize (H (py "ls --all") eq_refl).
  assert (E : run (wrong_flag (py "ls --all")) [frac 1 4] = (inr (py "ls --all"), []))
    by reflexivity.
  apply (Ensures_run H) in E. discriminate E.
Qed.

(** C9 (amended). When the input contains [" --"], [wrong_flag] draws one
    number and demotes the first [" --"] to [" -"] when the number
    exceeds 0.5, returning the input unchanged otherwise; when the input
    contains [" -"] but no [" --"], it promotes the first [" -"] to
    [" --"] without drawing; otherwise it returns the input unchanged. *)
Theorem C9_wrong_flag (text : str) :
  (contains (py " --") text = true ->
   wrong_flag text
   = (x <- random ;;
      if fltb (dec 5 10) x then Ret (replace_first (py " --") (py " -") text)
      else Ret text))
  /\ (contains (py " --") text = false -> contains (py " -") text = true ->
      wrong_flag text = Ret (replace_first (py " -") (py " --") text))
  /\ (contains (py " --") text = false -> contains (py " -") text = false ->
      wrong_flag text = Ret text).
Proof.
  unfold wrong_flag. split; [|split].
  - intros H. rewrite H. rewrite andb_false_r. reflexivity.
  - intros H1 H2. rewrite H1, H2. reflexivity.
  - intros H1 H2. rewrite H1, H2. reflexivity.
Qed.

(** The three cases at ["ls --all"], ["ls -a"] and ["ls"]. *)
Lemma C9_wrong_flag_witness :
  fst (run (wrong_flag (py "ls --all")) [frac 3 4]) = inr (py "ls -all")
  /\ wrong_flag (py "ls -a") = Ret (py "ls --a")
  /\ wrong_flag (py "ls") = Ret (py "ls").
Proof.
  split; [|split].
  - rewrite (proj1 (C9_wrong_flag (py "ls --all")) eq_refl). reflexivity.
  - rewrite (proj1 (proj2 (C9_wrong_flag (py "ls -a"))) eq_refl eq_refl). reflexivity.
  - rewrite (proj2 (proj2 (C9_wrong_flag (py "ls"))) eq_refl eq_refl). reflexivity.
Defined.

(** ** The choice between a wrong template and a corruption *)

Lemma Ensures_choice {A : Type} (P : A -> Prop) (seq : list A) :
  (forall a, In a seq -> P a) -> Ensures P (choice seq).
Proof.
  intros H. destruct seq as [|d seq']; [constructor|].
  unfold choice. constructor. intros x Hx. constructor.
  apply H. apply nth_In. lia.
Qed.

Lemma Ensures_randint (P : Z -> Prop) (a b : Z) :
  (forall z, (a <= z <= b)%Z -> P z) -> Ensures P (randint a b).
Proof.
  intros H. unfold randint.
  destruct (0 <? b + 1 - a)%Z; [|constructor].
  constructor. intros x Hx. constructor. apply H. lia.
Qed.

Lemma Ensures_random (P : float -> Prop) :
  (forall k, (0 <= k < two53)%Z -> P (of_frac53 k)) -> Ensures P random.
Proof. intros H. constructor. intros x Hx. constructor. now apply H. Qed.



(** Counterexample to C6 as stated: in the single-command generator a
    draw of 0.65 is below 0.7, yet the entry's wrong template ["sl -la"]
    is not used; the permission corruption returns ["ls -la"]. *)
Lemma C6_counterexample :
  fltb (of_frac53 (fst (next_random [frac 65 100]))) (dec 7 10) = true
  /\ run (SingleCommandGenerator._generate_incorrect (py "ls -la")
            (command (py "ls -la") [py "sl -la"]) (py "permission") (py "bash") [])
         [frac 65 100]
     = (inr (py "ls -la"), [])
  /\ ~ single_takes_wrong_template_below_0_7.
Proof.
  split; [reflexivity|]. split; [reflexivity|].
  intros H.
  specialize (H (py "ls -la") (command (py "ls -la") [py "sl -la"])
                (py "permission") (py "bash") [] [py "sl -la"] eq_refl).
  destruct (H ltac:(discriminate) (list Z) Tape_RandomGen [frac 65 100] (py "ls -la") []
              eq_refl eq_refl) as (e & [He|[]] & E).
  subst e. discriminate E.
Qed.

(** C6 (amended). With a non-empty list of wrong templates, the chained
    and the tools synthesizers draw one number and take the candidate
    from the list (expanded with the variables of the correct command)
    exactly when the number is below 0.7, and otherwise corrupt the
    expanded correct command (synthetic error, respectively forced typo);
    the single-command synthesizer does the same with the threshold 0.6
    and the corruption of the selected error type.  With an empty list
    the corruption is applied without a draw. *)
Theorem C6_wrong_template_choice :
  (forall e errors variables correct_cmd error_type shell,
      ChainedCommandGenerator.select_error (e :: errors) variables correct_cmd error_type shell
      = (x <- random ;;
         if fltb x (dec 7 10)
         then (error_template <- choice (e :: errors) ;;
               Ret (expand_template error_template variables))
         else ChainedCommandGenerator._generate_synthetic_error correct_cmd error_type shell))
  /\ (forall variables correct_cmd error_type shell,
      ChainedCommandGenerator.select_error [] variables correct_cmd error_type shell
      = ChainedCommandGenerator._generate_synthetic_error correct_cmd error_type shell)
  /\ (forall e errors variables correct,
      ToolsGenerator.select_error (e :: errors) variables correct
      = (x <- random ;;
         if fltb x (dec 7 10)
         then (error_template <- choice (e :: errors) ;;
               Ret (expand_template error_template variables))
         else generate_typo correct (of_Z 1)))
  /\ (forall variables correct,
      ToolsGenerator.select_error [] variables correct = generate_typo correct (of_Z 1))
  /\ (forall correct p e errors error_type shell variables,
      entry_errors p = Some (e :: errors) ->
      exists by_type,
        SingleCommandGenerator._generate_incorrect correct p error_type shell variables
        = (x <- random ;;
           if fltb x (dec 6 10)
           then (error <- choice (e :: errors) ;;
                 Ret (expand_template error variables))
           else by_type)
        /\ by_type
           = SingleCommandGenerator._generate_incorrect correct
               {| entry_correct := entry_correct p; entry_errors := None;
                  entry_category := entry_category p |} error_type shell variables)
  /\ (forall errors variables correct_cmd error_type shell,
      errors <> [] ->
      wrong_template_below (dec 7 10) errors variables
        (ChainedCommandGenerator.select_error errors variables correct_cmd error_type shell))
  /\ (forall errors variables correct,
      errors <> [] ->
      wrong_template_below (dec 7 10) errors variables
        (ToolsGenerator.select_error errors variables correct))
  /\ (forall correct p errors error_type shell variables,
      entry_errors p = Some errors -> errors <> [] ->
      wrong_template_below (dec 6 10) errors variables
        (SingleCommandGenerator._generate_incorrect correct p error_type shell variables)).
Proof.
  assert (Hchoice : forall errors variables (R : Type) (G : RandomGen R) (r : R) out r',
             run (error_template <- choice errors ;;
                  Ret (expand_template error_template variables)) r = (inr out, r') ->
             from_wrong_template errors variables out).
  { intros errors variables R G r out r' E.
    refine (Ensures_run _ _ E).
    apply Ensures_bind, Ensures_choice. intros a Ha. constructor. now exists a. }
  split; [reflexivity|]. split; [reflexivity|].
  split; [reflexivity|]. split; [reflexivity|].
  split; [|split; [|split]].
  - intros correct p e errors error_type shell variables Hp.
    eexists. split; [|reflexivity].
    unfold SingleCommandGenerator._generate_incorrect. rewrite Hp. reflexivity.
  - intros errors variables correct_cmd error_type shell Hne R G r out r' Hlt E.
    destruct errors as [|e errors]; [contradiction|].
    cbn [ChainedCommandGenerator.select_error bind random run] in E.
    destruct (next_random r) as [k r1]. cbn [fst] in Hlt.
    cbn [bind] in E. rewrite Hlt in E. eapply Hchoice; eauto.
  - intros errors variables correct Hne R G r out r' Hlt E.
    destruct errors as [|e errors]; [contradiction|].
    cbn [ToolsGenerator.select_error bind random run] in E.
    destruct (next_random r) as [k r1]. cbn [fst] in Hlt.
    cbn [bind] in E. rewrite Hlt in E. eapply Hchoice; eauto.
  - intros correct p errors error_type shell variables Hp Hne R G r out r' Hlt E.
    destruct errors as [|e errors]; [contradiction|].
    unfold SingleCommandGenerator._generate_incorrect in E. rewrite Hp in E.
    cbn [bind random run] in E.
    destruct (next_random r) as [k r1]. cbn [fst] in Hlt.
    cbn [bind] in E. rewrite Hlt in E. eapply Hchoice; eauto.
Qed.

(** The statement at concrete draws on either side of each threshold. *)
Lemma C6_wrong_template_choice_witness :
  fst (run (ChainedCommandGenerator.select_error [py "ps aux | grep {process}"]
              [(py "process", py "nginx")] (py "ps aux | grep -v grep | grep nginx")
              (py "pipe") (py "bash")) [frac 69 100; 0%Z])
  = inr (py "ps aux | grep nginx")
  /\ from_wrong_template [py "sl -la"] [] (py "sl -la")
  /\ fst (run (SingleCommandGenerator._generate_incorrect (py "ls -la")
                 (command (py "ls -la") [py "sl -la"]) (py "permission") (py "bash") [])
              [frac 59 100; 0%Z])
     = inr (py "sl -la").
Proof.
  split; [reflexivity|]. split; [|reflexivity].
  apply (proj2 (proj2 (proj2 (proj2 (proj2 (proj2 (proj2 C6_wrong_template_choice)))))))
    with (correct := py "ls -la") (p := command (py "ls -la") [py "sl -la"])
         (error_type := py "permission") (shell := py "bash")
         (R := list Z) (G := Tape_RandomGen) (r := [frac 59 100; 0%Z]) (r' := @nil Z).
  - reflexivity.
  - discriminate.
  - reflexivity.
  - reflexivity.
Defined.

(** ** Lists through [shuffle], slicing and filtering *)

Lemma nth_error_decompose {A : Type} (x : list A) (i : nat) (a : A) :
  nth_error x i = Some a ->
  exists l1 l2, x = l1 ++ a :: l2 /\ length l1 = i
                /\ firstn i x = l1 /\ skipn (S i) x = l2.
Proof.
  intros H. apply nth_error_split in H as (l1 & l2 & E & Hl).
  exists l1, l2. subst. repeat split.
  - rewrite firstn_app, firstn_all, Nat.sub_diag. simpl. apply app_nil_r.
  - clear. induction l1; simpl; auto.
Qed.

Lemma nth_error_replace_middle {A : Type} (l1 l2 : list A) (a b c : A) (j : nat) :
  nth_error (l1 ++ a :: l2) j = Some c ->
  nth_error (l1 ++ b :: l2) j = Some (if j =? length l1 then b else c).
Proof.
  revert j; induction l1 as [|h l1 IH]; intros j H.
  - destruct j as [|j]; simpl in *; [reflexivity|exact H].
  - destruct j as [|j]; simpl in *; [exact H|]. now apply IH.
Qed.

Lemma swap_Permutation {A : Type} (x : list A) (i j : nat) :
  Permutation x (swap x i j).
Proof.
  unfold swap.
  destruct (nth_error x i) as [a|] eqn:Ei; [|reflexivity].
  destruct (nth_error x j) as [b|] eqn:Ej; [|reflexivity].
  destruct (nth_error_decompose x i Ei) as (l1 & l2 & Ex & Hl & Hf & Hs).
  rewrite Hf, Hs.
  assert (Ej' : nth_error (l1 ++ b :: l2) j = Some b).
  { rewrite Ex in Ej. rewrite (nth_error_replace_middle l1 l2 a b j Ej).
    destruct (j =? length l1); reflexivity. }
  destruct (nth_error_decompose _ j Ej') as (m1 & m2 & Ex1 & Hm & Hf1 & Hs1).
  rewrite Hf1, Hs1.
  assert (Hrest : Permutation (l1 ++ l2) (m1 ++ m2)).
  { apply Permutation_cons_inv with (a := b).
    rewrite (Permutation_middle l1 l2 b), (Permutation_middle m1 m2 b).
    now rewrite <- Ex1. }
  rewrite Ex. rewrite <- !Permutation_middle. now constructor.
Qed.

Lemma Ensures_shuffle_from {A : Type} (i : nat) (x : list A) :
  Ensures (Permutation x) (shuffle_from i x).
Proof.
  revert x; induction i as [|i IH]; intros x; simpl.
  - constructor. reflexivity.
  - constructor. intros j _.
    eapply Ensures_mono; [|apply IH].
    intros l Hl. etransitivity; [apply swap_Permutation|exact Hl].
Qed.

Lemma Ensures_shuffle {A : Type} (x : list A) :
  Ensures (Permutation x) (shuffle x).
Proof. apply Ensures_shuffle_from. Qed.

Lemma slice_to_firstn {A : Type} (xs : list A) (count : Z) :
  exists m, slice_to xs count = firstn m xs.
Proof. unfold slice_to. destruct (0 <=? count)%Z; eauto. Qed.

Lemma Forall_slice_to {A : Type} (P : A -> Prop) (xs : list A) (count : Z) :
  Forall P xs -> Forall P (slice_to xs count).
Proof.
  intros H. destruct (slice_to_firstn xs count) as [m ->]. now apply Forall_firstn'.
Qed.

Lemma Forall_filter_keep {A : Type} (P : A -> Prop) (f : A -> bool) (l : list A) :
  Forall P l -> Forall P (filter f l).
Proof.
  rewrite !Forall_forall. intros H x Hx. apply filter_In in Hx as [Hx _]. auto.
Qed.

Lemma Forall_filter_true {A : Type} (f : A -> bool) (l : list A) :
  Forall (fun x => f x = true) (filter f l).
Proof.
  rewrite Forall_forall. intros x Hx. now apply filter_In in Hx.
Qed.

Lemma Ensures_shuffle_Forall {A : Type} (P : A -> Prop) (x : list A) :
  Forall P x -> Ensures (Forall P) (shuffle x).
Proof.
  intros H. eapply Ensures_mono; [|apply Ensures_shuffle].
  intros l Hl. eapply Permutation_Forall; eauto.
Qed.

(** ** No null correction is returned *)


Lemma not_null_non_null (ex : TrainingExample) : not_null ex = true <-> non_null ex.
Proof.
  unfold not_null, non_null. rewrite negb_true_iff. apply str_eqb_neq.
Qed.

Lemma Forall_filter_not_null (l : list TrainingExample) :
  Forall non_null (filter not_null l).
Proof.
  eapply Forall_impl; [|apply Forall_filter_true].
  intros ex. apply not_null_non_null.
Qed.

Lemma single_cap_Forall (P : TrainingExample -> Prop) (count : Z)
      (l : list TrainingExample) :
  Forall P l -> Forall P (SingleCommandGenerator.cap_single_char count l).
Proof.
  intros H. unfold SingleCommandGenerator.cap_single_char.
  apply Forall_app. split; [now apply Forall_filter_keep|].
  destruct (_ <? _)%Z; [apply Forall_slice_to|]; now apply Forall_filter_keep.
Qed.

Lemma tools_cap_Forall (P : TrainingExample -> Prop) (count : Z)
      (l : list TrainingExample) :
  Forall P l -> Forall P (ToolsGenerator.cap_single_char count l).
Proof.
  intros H. unfold ToolsGenerator.cap_single_char.
  apply Forall_app. split; [now apply Forall_filter_keep|].
  destruct (_ <? _)%Z; [apply Forall_slice_to|]; now apply Forall_filter_keep.
Qed.

Lemma single_regenerate_non_null templates (retries : nat) (count : Z) :
  forall examples, Forall non_null examples ->
    Ensures (Forall non_null)
            (SingleCommandGenerator.regenerate templates retries count examples).
Proof.
  induction retries as [|retries IH]; intros examples H; cbn [SingleCommandGenerator.regenerate].
  - now constructor.
  - destruct (_ <? _)%Z; [|now constructor].
    apply Ensures_after. intros extra. apply IH.
    apply Forall_app. split; [exact H|apply Forall_filter_not_null].
Qed.

Lemma chained_regenerate_non_null (retries : nat) (count : Z) :
  forall examples, Forall non_null examples ->
    Ensures (Forall non_null)
            (ChainedCommandGenerator.regenerate retries count examples).
Proof.
  induction retries as [|retries IH]; intros examples H; cbn [ChainedCommandGenerator.regenerate].
  - now constructor.
  - destruct (_ <? _)%Z; [|now constructor].
    apply Ensures_after. intros extra. apply IH.
    apply Forall_app. split; [exact H|apply Forall_filter_not_null].
Qed.

Lemma tools_regenerate_non_null (retries : nat) (count : Z) :
  forall examples, Forall non_null examples ->
    Ensures (Forall non_null) (ToolsGenerator.regenerate retries count examples).
Proof.
  induction retries as [|retries IH]; intros examples H; cbn [ToolsGenerator.regenerate].
  - now constructor.
  - destruct (_ <? _)%Z; [|now constructor].
    apply Ensures_bind.
    eapply Ensures_mono; [|apply Ensures_for_range with (I := Forall non_null)].
    + intros l Hl. now apply IH.
    + intros s Hs. apply Ensures_after. intros [ex|]; [|now constructor].
      destruct (not_null ex) eqn:E; constructor; [|exact Hs].
      apply Forall_app. split; [exact Hs|].
      constructor; [now apply not_null_non_null|constructor].
    + exact H.
Qed.

Lemma generate_non_null :
  (forall templates count,
      Ensures (Forall non_null) (SingleCommandGenerator.generate templates count))
  /\ (forall count, Ensures (Forall non_null) (ChainedCommandGenerator.generate count))
  /\ (forall count, Ensures (Forall non_null) (NaturalLanguageGenerator.generate count))
  /\ (forall count, Ensures (Forall non_null) (ToolsGenerator.generate count)).
Proof.
  split; [|split; [|split]].
  - intros templates count. unfold SingleCommandGenerator.generate.
    apply Ensures_after. intros examples.
    apply Ensures_bind.
    eapply Ensures_mono;
      [|apply single_regenerate_non_null, Forall_filter_not_null].
    intros l1 H1. apply Ensures_bind.
    eapply Ensures_mono; [|apply Ensures_shuffle_Forall, H1].
    intros l2 H2. apply Ensures_bind.
    eapply Ensures_mono; [|apply Ensures_shuffle_Forall, single_cap_Forall, H2].
    intros l3 H3. constructor. now apply Forall_slice_to.
  - intros count. unfold ChainedCommandGenerator.generate.
    apply Ensures_after. intros examples.
    apply Ensures_bind.
    eapply Ensures_mono;
      [|apply chained_regenerate_non_null, Forall_filter_not_null].
    intros l1 H1. apply Ensures_bind.
    eapply Ensures_mono; [|apply Ensures_shuffle_Forall, H1].
    intros l2 H2. constructor. now apply Forall_slice_to.
  - intros count. unfold NaturalLanguageGenerator.generate.
    apply Ensures_after. intros examples.
    apply Ensures_bind.
    eapply Ensures_mono; [|apply Ensures_shuffle_Forall, Forall_filter_not_null].
    intros l2 H2. constructor. now apply Forall_slice_to.
  - intros count. unfold ToolsGenerator.generate.
    apply Ensures_after. intros examples.
    apply Ensures_bind.
    eapply Ensures_mono;
      [|apply tools_regenerate_non_null, Forall_filter_not_null].
    intros l1 H1. apply Ensures_bind.
    eapply Ensures_mono; [|apply Ensures_shuffle_Forall, H1].
    intros l2 H2. apply Ensures_bind.
    eapply Ensures_mono; [|apply Ensures_shuffle_Forall, tools_cap_Forall, H2].
    intros l3 H3. constructor. now apply Forall_slice_to.
Qed.

(** C1. For each of the four generators, every target count and every
    state of the generator-owned random generator, every example of the
    list that [generate(count)] returns has an incorrect command that
    differs from the correct command after trimming: no null correction
    is returned. *)
Theorem C1_no_null_correction :
  forall (count : Z) (R : Type) (G : RandomGen R) (r : R) (out : list TrainingExample) (r' : R),
    (forall templates,
        run (SingleCommandGenerator.generate templates count) r = (inr out, r') ->
        Forall non_null out)
    /\ (run (ChainedCommandGenerator.generate count) r = (inr out, r') ->
        Forall non_null out)
    /\ (run (NaturalLanguageGenerator.generate count) r = (inr out, r') ->
        Forall non_null out)
    /\ (run (ToolsGenerator.generate count) r = (inr out, r') ->
        Forall non_null out).
Proof.
  intros count R G r out r'.
  destruct generate_non_null as (H1 & H2 & H3 & H4).
  split; [intros templates E; exact (Ensures_run (H1 templates count) _ E)|].
  split; [intros E; exact (Ensures_run (H2 count) _ E)|].
  split; [intros E; exact (Ensures_run (H3 count) _ E)|].
  intros E; exact (Ensures_run (H4 count) _ E).
Qed.

Lemma chained_run_seed_1 :
  exists out,
    fst (run (ChainedCommandGenerator.generate 3) (@seed_state _ Tape_RandomGen 1)) = inr out
    /\ length out = 3.
Proof. vm_compute. eexists. split; reflexivity. Qed.

(** A run of the chained generator, target count 3, from the seed 1. *)
Lemma C1_no_null_correction_witness :
  exists out r',
    run (ChainedCommandGenerator.generate 3) (@seed_state _ Tape_RandomGen 1) = (inr out, r')
    /\ length out = 3
    /\ Forall non_null out.
Proof.
  destruct chained_run_seed_1 as (out & E & L).
  exists out.
  exists (snd (run (ChainedCommandGenerator.generate 3) (@seed_state _ Tape_RandomGen 1))).
  assert (E' : run (ChainedCommandGenerator.generate 3) (@seed_state _ Tape_RandomGen 1)
               = (inr out,
                  snd (run (ChainedCommandGenerator.generate 3)
                           (@seed_state _ Tape_RandomGen 1))))
    by (rewrite <- E; apply surjective_pairing).
  split; [exact E'|]. split; [exact L|].
  exact (proj1 (proj2 (C1_no_null_correction 3 Tape_RandomGen
                         (@seed_state _ Tape_RandomGen 1) out _)) E').
Defined.

(** ** The cap on single-character corrections *)

Lemma filter_length_Permutation {A : Type} (f : A -> bool) (l l' : list A) :
  Permutation l l' -> length (filter f l) = length (filter f l').
Proof.
  induction 1; simpl; auto.
  - destruct (f x); simpl; auto.
  - destruct (f x), (f y); reflexivity.
  - congruence.
Qed.

Lemma filter_length_firstn {A : Type} (f : A -> bool) (n : nat) (l : list A) :
  length (filter f (firstn n l)) <= length (filter f l).
Proof.
  revert n; induction l as [|x l IH]; intros [|n]; simpl; try lia.
  specialize (IH n). destruct (f x); simpl; lia.
Qed.

Lemma filter_length_le {A : Type} (f : A -> bool) (l : list A) :
  length (filter f l) <= length l.
Proof. induction l as [|x l IH]; simpl; [lia|]. destruct (f x); simpl; lia. Qed.

Lemma filter_negb_none {A : Type} (f : A -> bool) (l : list A) :
  filter f (filter (fun x => negb (f x)) l) = [].
Proof.
  induction l as [|x l IH]; [reflexivity|].
  simpl. destruct (f x) eqn:E; simpl; [exact IH|].
  rewrite E. exact IH.
Qed.

Lemma single_char_count_slice (l : list TrainingExample) (count : Z) :
  single_char_count (slice_to l count) <= single_char_count l.
Proof.
  unfold single_char_count.
  destruct (slice_to_firstn l count) as [m ->]. apply filter_length_firstn.
Qed.

Lemma length_slice_to_le {A : Type} (l : list A) (n : Z) :
  (0 <= n)%Z -> (Z.of_nat (length (slice_to l n)) <= n)%Z.
Proof.
  intros Hn. unfold slice_to.
  destruct (Z.leb_spec 0 n) as [_|]; [|lia].
  rewrite length_firstn. lia.
Qed.

Lemma tools_classifier_same :
  ToolsGenerator._is_single_char_correction
  = SingleCommandGenerator._is_single_char_correction.
Proof. reflexivity. Qed.

Lemma single_cap_count (count : Z) (l : list TrainingExample) :
  (0 <= max_single_char count)%Z ->
  (Z.of_nat (single_char_count (SingleCommandGenerator.cap_single_char count l))
   <= max_single_char count)%Z.
Proof.
  intros Hmax. unfold SingleCommandGenerator.cap_single_char, single_char_count.
  change (trunc (fmul (of_Z count) SingleCommandGenerator.MAX_SINGLE_CHAR_PERCENTAGE))
    with (max_single_char count).
  fold is_single_char.
  rewrite filter_app, length_app, filter_negb_none. cbn [length Nat.add].
  set (single := filter is_single_char l).
  destruct (Z.ltb_spec (max_single_char count) (Z.of_nat (length single))) as [Hlt|Hge].
  - etransitivity; [apply inj_le, filter_length_le|].
    apply length_slice_to_le, Hmax.
  - etransitivity; [apply inj_le, filter_length_le|exact Hge].
Qed.

Lemma tools_cap_count (count : Z) (l : list TrainingExample) :
  (0 <= max_single_char count)%Z ->
  (Z.of_nat (single_char_count (ToolsGenerator.cap_single_char count l))
   <= max_single_char count)%Z.
Proof. exact (single_cap_count count l). Qed.

(** *** The cap is not negative for a count that is not *)


Lemma binary_round_aux_not_negative (m e : Z) (l : location) :
  not_negative (binary_round_aux prec emax false m e l).
Proof.
  unfold binary_round_aux.
  destruct (shr_fexp prec emax m e l) as [mrs' e'].
  destruct (shr_fexp prec emax _ e' loc_Exact) as [mrs'' e''].
  destruct (shr_m mrs''); simpl; auto.
  destruct (Z.leb _ _); simpl; auto.
Qed.

Lemma of_Z_not_negative (z : Z) : (0 <= z)%Z -> not_negative (of_Z z).
Proof.
  intros Hz. unfold of_Z, binary_normalize.
  destruct z as [|p|p]; [exact I| |lia].
  unfold binary_round. destruct (shl_align _ _ _) as [mz ez].
  apply binary_round_aux_not_negative.
Qed.

Lemma trunc_not_negative (x : float) : not_negative x -> (0 <= trunc x)%Z.
Proof.
  destruct x as [s|s| |s m e]; unfold trunc, not_negative; try lia.
  intros ->. destruct (Z.leb_spec 0 e).
  - apply Z.mul_nonneg_nonneg; [lia|]. apply Z.pow_nonneg. lia.
  - apply Z.div_pos; [lia|]. apply Z.pow_pos_nonneg; lia.
Qed.

Lemma five_percent_eq : dec 5 100 = five_percent.
Proof. reflexivity. Qed.

Lemma max_single_char_not_negative (count : Z) :
  (0 <= count)%Z -> (0 <= max_single_char count)%Z.
Proof.
  intros Hc. unfold max_single_char. apply trunc_not_negative.
  pose proof (of_Z_not_negative Hc) as Hx.
  rewrite five_percent_eq. unfold five_percent, fmul, SFmul.
  destruct (of_Z count) as [s|s| |s m e]; cbn [not_negative] in Hx |- *.
  - exact I.
  - subst s. reflexivity.
  - exact I.
  - subst s. apply binary_round_aux_not_negative.
Qed.


Lemma all_from_spec (f : Z -> bool) (fuel : nat) :
  forall z, all_from fuel z f = true ->
            forall x, (z <= x < z + Z.of_nat fuel)%Z -> f x = true.
Proof.
  induction fuel as [|k IH]; intros z H x Hx; [lia|].
  cbn [all_from] in H. apply andb_true_iff in H as [Hz Hk].
  destruct (Z.eq_dec x z) as [->|Hne]; [exact Hz|].
  apply (IH (z + 1)%Z Hk). lia.
Qed.

Lemma trunc_shift_eq (x : float) : trunc x = trunc_shift x.
Proof.
  destruct x as [s|s| |s m e]; try reflexivity.
  unfold trunc, trunc_shift.
  destruct (Z.leb_spec 0 e) as [He|He].
  - rewrite Z.shiftl_mul_pow2 by exact He. reflexivity.
  - rewrite Z.shiftr_div_pow2 by lia. reflexivity.
Qed.

Lemma cap_is_twentieth_spec (n : Z) :
  cap_is_twentieth n = true -> max_single_char n = (n / 20)%Z.
Proof.
  unfold cap_is_twentieth, max_single_char.
  rewrite five_percent_eq, trunc_shift_eq.
  set (q := trunc_shift _). intros H.
  apply andb_true_iff in H as [H1 H2].
  apply Z.leb_le in H1. apply Z.ltb_lt in H2.
  apply (Z.div_unique n 20 q (n - 20 * q)); lia.
Qed.

Lemma max_single_char_checked :
  all_from (Z.to_nat 50001) 0 cap_is_twentieth = true.
Proof. vm_cast_no_check (eq_refl true). Qed.

(** Up to 50000 the cap is the integer part of a twentieth. *)
Lemma max_single_char_floor (count : Z) :
  (0 <= count <= 50000)%Z -> max_single_char count = (count / 20)%Z.
Proof.
  intros Hc. apply cap_is_twentieth_spec.
  apply (@all_from_spec _ _ _ max_single_char_checked). lia.
Qed.

Lemma single_generate_capped templates (count : Z) :
  (0 <= count)%Z ->
  Ensures (fun out => (Z.of_nat (single_char_count out) <= max_single_char count)%Z)
          (SingleCommandGenerator.generate templates count).
Proof.
  intros Hc. pose proof (max_single_char_not_negative Hc) as Hmax.
  unfold SingleCommandGenerator.generate.
  apply Ensures_after. intros examples.
  apply Ensures_after. intros l1.
  apply Ensures_after. intros l2.
  apply Ensures_bind.
  eapply Ensures_mono; [|apply Ensures_shuffle].
  intros l3 Hperm. constructor.
  etransitivity; [apply inj_le, single_char_count_slice|].
  unfold single_char_count. rewrite <- (filter_length_Permutation _ Hperm).
  now apply single_cap_count.
Qed.

Lemma tools_generate_capped (count : Z) :
  (0 <= count)%Z ->
  Ensures (fun out => (Z.of_nat (single_char_count out) <= max_single_char count)%Z)
          (ToolsGenerator.generate count).
Proof.
  intros Hc. pose proof (max_single_char_not_negative Hc) as Hmax.
  unfold ToolsGenerator.generate.
  apply Ensures_after. intros examples.
  apply Ensures_after. intros l1.
  apply Ensures_after. intros l2.
  apply Ensures_bind.
  eapply Ensures_mono; [|apply Ensures_shuffle].
  intros l3 Hperm. constructor.
  etransitivity; [apply inj_le, single_char_count_slice|].
  unfold single_char_count. rewrite <- (filter_length_Permutation _ Hperm).
  now apply tools_cap_count.
Qed.




(** Counterexample to C2 as stated: the chained generator applies no
    cap.  With target count 2 it returns two single-character
    corrections, more than [ceil(2 * 0.05) = 1]. *)
Lemma C2_counterexample :
  run (ChainedCommandGenerator.generate 2) chained_tape
  = (inr [chained_uncapped_example; chained_uncapped_example], [])
  /\ single_char_count [chained_uncapped_example; chained_uncapped_example] = 2
  /\ ceil_5_percent 2 = 1%Z
  /\ ~ chained_capped.
Proof.
  assert (E : run (ChainedCommandGenerator.generate 2) chained_tape
              = (inr [chained_uncapped_example; chained_uncapped_example], []))
    by (vm_compute; reflexivity).
  split; [exact E|]. split; [reflexivity|]. split; [reflexivity|].
  intros H. specialize (H 2%Z _ _ _ _ _ E).
  vm_compute in H. apply H. reflexivity.
Qed.

(** C2 (amended). In the single-command and the tools generator, for a
    target count [N >= 0], the list returned holds at most
    [int(N * 0.05)] single-character corrections: after generation the
    single-character examples are cut down to that many, the others are
    kept, and nothing is added afterwards.  Up to [N = 50000] the cap is
    the integer part of [N / 20], which does not exceed
    [ceil(N * 0.05)].  The chained and the natural-language generator
    apply no cap. *)
Theorem C2_single_char_cap :
  (forall templates (count : Z) (R : Type) (G : RandomGen R) (r : R) out r',
      (0 <= count)%Z ->
      run (SingleCommandGenerator.generate templates count) r = (inr out, r') ->
      (Z.of_nat (single_char_count out) <= max_single_char count)%Z)
  /\ (forall (count : Z) (R : Type) (G : RandomGen R) (r : R) out r',
      (0 <= count)%Z ->
      run (ToolsGenerator.generate count) r = (inr out, r') ->
      (Z.of_nat (single_char_count out) <= max_single_char count)%Z)
  /\ (forall count, (0 <= count <= 50000)%Z ->
        max_single_char count = (count / 20)%Z
        /\ (max_single_char count <= ceil_5_percent count)%Z).
Proof.
  split; [|split].
  - intros templates count R G r out r' Hc E.
    exact (Ensures_run (single_generate_capped templates Hc) _ E).
  - intros count R G r out r' Hc E.
    exact (Ensures_run (tools_generate_capped Hc) _ E).
  - intros count Hc. rewrite max_single_char_floor by exact Hc.
    split; [reflexivity|]. unfold ceil_5_percent.
    apply Z.div_le_lower_bound; [lia|].
    pose proof (Z.mul_div_le count 20 ltac:(lia)).
    pose proof (Z.mul_div_le (count * 5 + 99) 100 ltac:(lia)).
    pose proof (Z.mod_pos_bound (count * 5 + 99) 100 ltac:(lia)).
    pose proof (Z.div_mod (count * 5 + 99) 100 ltac:(lia)).
    lia.
Qed.

Lemma tools_run_seed_7 :
  exists out,
    fst (run (ToolsGenerator.generate 20) (@seed_state _ Tape_RandomGen 7)) = inr out
    /\ length out = 18.
Proof. vm_compute. eexists. split; reflexivity. Qed.

(** A run of the tools generator, target count 20, from the seed 7. *)
Lemma C2_single_char_cap_witness :
  exists out r',
    (0 <= 20)%Z
    /\ run (ToolsGenerator.generate 20) (@seed_state _ Tape_RandomGen 7) = (inr out, r')
    /\ length out = 18
    /\ max_single_char 20 = 1%Z
    /\ (Z.of_nat (single_char_count out) <= max_single_char 20)%Z.
Proof.
  destruct tools_run_seed_7 as (out & E & L).
  exists out.
  exists (snd (run (ToolsGenerator.generate 20) (@seed_state _ Tape_RandomGen 7))).
  assert (E' : run (ToolsGenerator.generate 20) (@seed_state _ Tape_RandomGen 7)
               = (inr out,
                  snd (run (ToolsGenerator.generate 20) (@seed_state _ Tape_RandomGen 7))))
    by (rewrite <- E; apply surjective_pairing).
  split; [lia|]. split; [exact E'|]. split; [exact L|]. split; [reflexivity|].
  exact (proj1 (proj2 C2_single_char_cap) 20%Z (list Z) Tape_RandomGen
               (@seed_state _ Tape_RandomGen 7) out _ ltac:(lia) E').
Defined.

(** ** Placeholders that the binding does not know *)

Lemma Ensures_bind_possible {A B : Type} (P : B -> Prop) (m : Rand A) (f : A -> Rand B) :
  (forall a, Possible m a -> Ensures P (f a)) -> Ensures P (bind m f).
Proof.
  induction m as [a|e|k IH|n k IH]; intros H; simpl.
  - apply H. constructor.
  - constructor.
  - constructor. intros x Hx. apply IH. intros a Ha. apply H. econstructor; eauto.
  - constructor. intros x Hx. apply IH. intros a Ha. apply H. econstructor; eauto.
Qed.

Lemma Possible_Random_inv {A : Type} (k : Z -> Rand A) (a : A) :
  Possible (Random k) a -> exists x, (0 <= x < two53)%Z /\ Possible (k x) a.
Proof. intros H. inversion H; subst. eauto. Qed.

Lemma Possible_Randbelow_inv {A : Type} (n : Z) (k : Z -> Rand A) (a : A) :
  Possible (Randbelow n k) a -> exists x, (0 <= x < n)%Z /\ Possible (k x) a.
Proof. intros H. inversion H; subst. eauto. Qed.

Lemma Possible_bind_inv {A B : Type} (m : Rand A) (f : A -> Rand B) (b : B) :
  Possible (bind m f) b -> exists a, Possible m a /\ Possible (f a) b.
Proof.
  induction m as [a|e|k IH|n k IH]; simpl; intros H.
  - exists a. split; [constructor|exact H].
  - inversion H.
  - apply Possible_Random_inv in H as (x & Hx & H).
    destruct (IH _ H) as (a & Ha & Hb).
    exists a. split; [econstructor; eauto|exact Hb].
  - apply Possible_Randbelow_inv in H as (x & Hx & H).
    destruct (IH _ H) as (a & Ha & Hb).
    exists a. split; [econstructor; eauto|exact Hb].
Qed.

Lemma Possible_Ret_inv {A : Type} (a b : A) : Possible (Ret a) b -> b = a.
Proof. intros H. now inversion H. Qed.

Lemma is_word_not_brace (c : ascii) : is_word c = true -> is_brace c = false.
Proof.
  intros Hw. unfold is_brace.
  destruct (Ascii.eqb c lbrace) eqn:El.
  - apply Ascii.eqb_eq in El. subst. discriminate Hw.
  - destruct (Ascii.eqb c rbrace) eqn:Er; [|reflexivity].
    apply Ascii.eqb_eq in Er. subst. discriminate Hw.
Qed.

Lemma word_brace_free (w : str) : forallb is_word w = true -> brace_free w = true.
Proof.
  induction w as [|c w IH]; [reflexivity|].
  simpl. intros H. apply andb_true_iff in H as [Hc Hw].
  unfold brace_free. simpl. rewrite (is_word_not_brace c Hc). simpl. now apply IH.
Qed.

Lemma span_word_spec (s w r : str) :
  span_word s = (w, r) -> s = w ++ r /\ forallb is_word w = true.
Proof.
  revert w r; induction s as [|c s IH]; intros w r H; simpl in H.
  - inversion H; subst. auto.
  - destruct (is_word c) eqn:Ec.
    + destruct (span_word s) as [w' r'] eqn:E. inversion H; subst.
      destruct (IH w' r eq_refl) as [-> Hw]. simpl. rewrite Ec. auto.
    + inversion H; subst. auto.
Qed.

Lemma placeholder_at_spec (s w : str) :
  placeholder_at s = Some w ->
  (exists rest, s = ph w ++ rest) /\ forallb is_word w = true.
Proof.
  unfold placeholder_at. destruct s as [|c s]; [discriminate|].
  destruct (Ascii.eqb c lbrace) eqn:Ec; [|discriminate].
  apply Ascii.eqb_eq in Ec. subst c.
  destruct (span_word s) as [w' r] eqn:E.
  destruct w' as [|a w']; [discriminate|].
  destruct r as [|d r]; [discriminate|].
  destruct (Ascii.eqb d rbrace) eqn:Ed; [|discriminate].
  apply Ascii.eqb_eq in Ed. subst d.
  intros H; inversion H; subst.
  destruct (span_word_spec s E) as [-> Hw]. split; [|exact Hw].
  exists r. unfold ph. simpl. now rewrite <- app_assoc.
Qed.

Lemma findall_In (s w : str) :
  In w (findall_placeholders s) ->
  contains (ph w) s = true /\ forallb is_word w = true.
Proof.
  induction s as [|c s IH]; [intros []|].
  cbn [findall_placeholders]. intros H.
  assert (Htail : In w (findall_placeholders s) ->
                  contains (ph w) (c :: s) = true /\ forallb is_word w = true).
  { intros Hin. destruct (IH Hin) as [Hc Hw]. split; [|exact Hw].
    rewrite contains_cons, Hc. apply orb_true_r. }
  destruct (placeholder_at (c :: s)) as [w'|] eqn:E; [|auto].
  destruct H as [->|H]; [|auto].
  destruct (placeholder_at_spec _ E) as [[rest Hs] Hw]. split; [|exact Hw].
  rewrite Hs. apply contains_startswith, startswith_app.
Qed.

(** *** The keys of an extracted binding *)

Lemma dict_get_None {V : Type} (k : str) (d : list (str * V)) :
  ~ In k (map fst d) -> dict_get k d = None.
Proof.
  induction d as [|[k' v] d IH]; [reflexivity|].
  simpl. intros H. destruct (str_eqb k k') eqn:E.
  - apply str_eqb_eq in E. subst. exfalso. apply H. now left.
  - apply IH. intros Hin. apply H. now right.
Qed.


Lemma extract_variables_fold (template : str) :
  extract_variables template
  = fold_left extract_step (findall_placeholders template) (Ret []).
Proof. reflexivity. Qed.

Lemma Ensures_extract_fold (I : list (str * str) -> Prop) (l : list str) :
  (forall vars p v, In p l -> I vars -> I (vars ++ [(p, v)])) ->
  forall acc, Ensures I acc -> Ensures I (fold_left extract_step l acc).
Proof.
  induction l as [|p l IH]; intros Hstep acc Hacc; [exact Hacc|].
  cbn [fold_left]. apply IH.
  - intros vars q v Hq. apply Hstep. now right.
  - unfold extract_step. apply Ensures_bind.
    eapply Ensures_mono; [|exact Hacc].
    intros vars Hv. destruct (dict_mem p vars); [now constructor|].
    apply Ensures_after. intros v. constructor. apply Hstep; [now left|exact Hv].
Qed.

Lemma extract_variables_keys (template : str) :
  Ensures (fun vars => forall k, In k (map fst vars) ->
                                 In k (findall_placeholders template))
          (extract_variables template).
Proof.
  rewrite extract_variables_fold. apply Ensures_extract_fold.
  - intros vars p v Hp Hv k Hk. rewrite map_app, in_app_iff in Hk.
    destruct Hk as [Hk|[<-|[]]]; auto.
  - constructor. intros k [].
Qed.

(** *** An unbound placeholder survives every replacement *)

Lemma contains_nil (sub : str) : contains sub [] = startswith sub [].
Proof. simpl. apply orb_false_r. Qed.

Lemma contains_ph_passes (x u s : str) :
  forallb (fun c => negb (Ascii.eqb c lbrace)) u = true ->
  contains (ph x) (u ++ s) = contains (ph x) s.
Proof.
  induction u as [|c u IH]; intros H; [reflexivity|].
  simpl in H. apply andb_true_iff in H as [Hc Hu]. apply negb_true_iff in Hc.
  change ((c :: u) ++ s) with (c :: (u ++ s)).
  rewrite contains_cons, startswith_ph_cons, Hc. now apply IH.
Qed.

Lemma same_name (x k rest : str) :
  brace_free x = true -> brace_free k = true ->
  startswith (x ++ [rbrace]) (k ++ rbrace :: rest) = true -> x = k.
Proof.
  revert k; induction x as [|a x IH]; intros k Hx Hk H.
  - destruct k as [|c k]; [reflexivity|].
    apply brace_free_cons in Hk as (_ & Hr & _).
    change ([] ++ [rbrace]) with [rbrace] in H.
    change ((c :: k) ++ rbrace :: rest) with (c :: (k ++ rbrace :: rest)) in H.
    rewrite startswith_cons, Ascii.eqb_sym, Hr in H. discriminate.
  - apply brace_free_cons in Hx as (_ & Hr & Hx).
    change ((a :: x) ++ [rbrace]) with (a :: (x ++ [rbrace])) in H.
    destruct k as [|c k].
    + change ([] ++ rbrace :: rest) with (rbrace :: rest) in H.
      rewrite startswith_cons, Hr in H. discriminate.
    + apply brace_free_cons in Hk as (_ & _ & Hk).
      change ((c :: k) ++ rbrace :: rest) with (c :: (k ++ rbrace :: rest)) in H.
      rewrite startswith_cons in H. apply andb_true_iff in H as [Hac H].
      apply Ascii.eqb_eq in Hac. subst. f_equal. now apply IH.
Qed.

Lemma ph_app (k rest : str) : ph k ++ rest = lbrace :: (k ++ rbrace :: rest).
Proof. unfold ph. simpl. now rewrite <- app_assoc. Qed.

Lemma startswith_ph_ph (x k rest : str) :
  brace_free x = true -> brace_free k = true ->
  startswith (ph x) (ph k ++ rest) = true -> x = k.
Proof.
  intros Hx Hk H. rewrite ph_app, startswith_ph_cons in H.
  apply andb_true_iff in H as [_ H]. eapply same_name; eauto.
Qed.

Lemma contains_ph_after (x k rest : str) :
  brace_free x = true -> brace_free k = true -> x <> k ->
  contains (ph x) (ph k ++ rest) = true -> contains (ph x) rest = true.
Proof.
  intros Hx Hk Hne H.
  destruct (startswith (ph x) (ph k ++ rest)) eqn:E.
  - exfalso. apply Hne. eapply startswith_ph_ph; eauto.
  - rewrite ph_app in *. rewrite contains_cons, E in H. cbn [orb] in H.
    rewrite contains_ph_passes in H by now apply brace_free_no_lbrace.
    rewrite contains_cons, startswith_ph_cons, rbrace_not_lbrace in H. exact H.
Qed.

Lemma replace_all_keeps_unbound (x k v : str) :
  brace_free x = true -> brace_free k = true -> x <> k ->
  forall n s, length s <= n ->
    contains (ph x) s = true -> contains (ph x) (replace_all (ph k) v s) = true.
Proof.
  intros Hx Hk Hne. induction n as [|n IH]; intros s Hn H.
  - destruct s; [|simpl in Hn; lia]. rewrite contains_nil in H. discriminate.
  - destruct s as [|c s]; [rewrite contains_nil in H; discriminate|].
    destruct (startswith (ph k) (c :: s)) eqn:Ek.
    + pose proof Ek as Ek'. apply startswith_spec in Ek' as [rest E].
      assert (Hlen : length rest <= n).
      { assert (length (c :: s) = length (ph k ++ rest)) as HL by now rewrite E.
        rewrite length_app, length_ph in HL. cbn [length] in HL, Hn. lia. }
      rewrite E in H |- *. rewrite replace_all_hit.
      apply contains_app_r, IH; [exact Hlen|].
      eapply contains_ph_after; eauto.
    + rewrite replace_all_step by exact Ek.
      destruct (startswith (ph x) (c :: s)) eqn:Ex.
      * pose proof Ex as Ex'. apply startswith_spec in Ex' as [rest E].
        rewrite <- (replace_all_step k v c s Ek).
        rewrite E in Ek |- *. rewrite replace_all_over by assumption.
        apply contains_startswith, startswith_app.
      * rewrite contains_cons, Ex in H. cbn [orb] in H.
        rewrite contains_cons. apply orb_true_iff. right.
        apply IH; [cbn [length] in Hn; lia|exact H].
Qed.

Lemma expand_template_keeps_unbound (x : str) (b : list (str * str)) :
  brace_free x = true ->
  (forall k, In k (map fst b) -> brace_free k = true /\ x <> k) ->
  forall t, contains (ph x) t = true ->
            contains (ph x) (expand_template t b) = true.
Proof.
  intros Hx. induction b as [|[k v] b IH]; intros Hb t H; [exact H|].
  rewrite expand_template_cons. apply IH.
  - intros k' Hk'. apply Hb. now right.
  - destruct (Hb k) as [Hk Hne]; [now left|].
    eapply replace_all_keeps_unbound; eauto.
Qed.

(** A placeholder of the wrong template that the correct template does
    not have is not among the extracted names and stays in the expanded
    wrong template. *)
Lemma unbound_placeholder_kept (correct_template error_template x : str)
      (variables : list (str * str)) :
  In x (findall_placeholders error_template) ->
  ~ In x (findall_placeholders correct_template) ->
  Possible (extract_variables correct_template) variables ->
  dict_get x variables = None
  /\ contains (ph x) (expand_template error_template variables) = true.
Proof.
  intros Hx Hnot Hposs.
  pose proof (Ensures_Possible (extract_variables_keys correct_template) Hposs) as Hkeys.
  destruct (findall_In _ _ Hx) as [Hc Hw].
  split.
  - apply dict_get_None. intros Hin. apply Hnot, Hkeys, Hin.
  - apply expand_template_keeps_unbound; [now apply word_brace_free| |exact Hc].
    intros k Hk. specialize (Hkeys k Hk). split.
    + apply word_brace_free. now destruct (findall_In _ _ Hkeys).
    + intros ->. contradiction.
Qed.

(** ** One binding for both sides of a pair *)

Lemma Ensures_self {A : Type} (m : Rand A) : Ensures (Possible m) m.
Proof.
  induction m as [a|e|k IH|n k IH]; constructor.
  - constructor.
  - intros x Hx. eapply Ensures_mono; [|apply IH]. intros a Ha. econstructor; eauto.
  - intros x Hx. eapply Ensures_mono; [|apply IH]. intros a Ha. econstructor; eauto.
Qed.

Lemma dict_mem_false_not_In {V : Type} (k : str) (d : list (str * V)) :
  dict_mem k d = false -> ~ In k (map fst d).
Proof.
  unfold dict_mem. induction d as [|[k' v] d IH]; [intros _ []|].
  simpl. destruct (str_eqb k k') eqn:E; [discriminate|].
  intros H [Hk|Hk].
  - subst. now rewrite str_eqb_refl in E.
  - now apply IH.
Qed.

Lemma Ensures_extract_fold_fresh (I : list (str * str) -> Prop) (l : list str) :
  (forall vars p v, I vars -> dict_mem p vars = false -> I (vars ++ [(p, v)])) ->
  forall acc, Ensures I acc -> Ensures I (fold_left extract_step l acc).
Proof.
  intros Hstep. induction l as [|p l IH]; intros acc Hacc; [exact Hacc|].
  cbn [fold_left]. apply IH.
  unfold extract_step. apply Ensures_bind.
  eapply Ensures_mono; [|exact Hacc].
  intros vars Hv. destruct (dict_mem p vars) eqn:E; [now constructor|].
  apply Ensures_after. intros v. constructor. now apply Hstep.
Qed.

Lemma extract_variables_NoDup (template : str) :
  Ensures (fun vars => NoDup (map fst vars)) (extract_variables template).
Proof.
  rewrite extract_variables_fold. apply Ensures_extract_fold_fresh.
  - intros vars p v Hv Hp. rewrite map_app. simpl.
    apply NoDup_app; [exact Hv|repeat constructor; intros []|].
    intros k Hk [<-|[]]. now apply (dict_mem_false_not_In _ _ Hp).
  - constructor. constructor.
Qed.

Lemma Ensures_wrong_template (errors : list str) (variables : list (str * str)) :
  Ensures (from_wrong_template errors variables)
          (error_template <- choice errors ;;
           Ret (expand_template error_template variables)).
Proof.
  apply Ensures_bind, Ensures_choice. intros e He. constructor. now exists e.
Qed.

Lemma chained_select_error_outcomes errors variables correct_cmd error_type shell :
  Ensures (fun inc => from_wrong_template errors variables inc
                      \/ Possible (ChainedCommandGenerator._generate_synthetic_error
                                     correct_cmd error_type shell) inc)
          (ChainedCommandGenerator.select_error errors variables correct_cmd error_type shell).
Proof.
  unfold ChainedCommandGenerator.select_error.
  assert (Hsyn : Ensures (fun inc => from_wrong_template errors variables inc
                      \/ Possible (ChainedCommandGenerator._generate_synthetic_error
                                     correct_cmd error_type shell) inc)
                   (ChainedCommandGenerator._generate_synthetic_error
                      correct_cmd error_type shell))
    by (eapply Ensures_mono; [|apply Ensures_self]; auto).
  destruct errors as [|e errors]; [exact Hsyn|].
  apply Ensures_after. intros x. destruct (fltb x (dec 7 10)); [|exact Hsyn].
  eapply Ensures_mono; [|apply Ensures_wrong_template]. auto.
Qed.

Lemma chained_null_gate_outcomes correct_cmd error_type shell incorrect_cmd :
  Ensures (fun gated => match gated with
                        | Some inc => inc = incorrect_cmd
                                      \/ chained_corrupted correct_cmd error_type shell inc
                        | None => True
                        end)
          (ChainedCommandGenerator.null_gate correct_cmd error_type shell incorrect_cmd).
Proof.
  unfold ChainedCommandGenerator.null_gate, chained_corrupted.
  destruct (str_eqb (strip incorrect_cmd) (strip correct_cmd)); [|constructor; auto].
  apply Ensures_bind_possible. intros inc1 H1.
  apply Ensures_bind_possible. intros inc2 H2.
  destruct (str_eqb (strip inc2) (strip correct_cmd)); constructor; [exact I|].
  right. destruct (str_eqb (strip inc1) (strip correct_cmd)).
  - now right.
  - apply Possible_Ret_inv in H2. subst. now left.
Qed.

Lemma chained_paired shell p error_type :
  Ensures (fun res => match res with
                      | Some ex =>
                          paired_by_one_binding (get_or (entry_correct p) [])
                            (get_or (entry_errors p) [])
                            (fun correct inc => chained_corrupted correct error_type shell inc)
                            ex
                      | None => True
                      end)
          (ChainedCommandGenerator._create_example_from_pattern shell p error_type).
Proof.
  unfold ChainedCommandGenerator._create_example_from_pattern.
  destruct (get_or (entry_correct p) []) as [|c0 c] eqn:Ec; [now constructor|].
  apply Ensures_bind_possible. intros variables Hv.
  apply Ensures_bind.
  eapply Ensures_mono; [|apply chained_select_error_outcomes].
  intros inc0 H0. apply Ensures_bind.
  eapply Ensures_mono; [|apply chained_null_gate_outcomes].
  intros [inc|] Hg; constructor; [|exact I].
  exists variables. split; [exact Hv|].
  split; [exact (Ensures_Possible (extract_variables_NoDup _) Hv)|].
  split; [reflexivity|]. cbn [incorrect_command correct_command].
  destruct Hg as [->|Hg]; [|now right].
  destruct H0 as [H0|H0]; [now left|right; now left].
Qed.

Lemma tools_select_error_outcomes errors variables correct :
  Ensures (fun inc => from_wrong_template errors variables inc
                      \/ tools_corrupted correct inc)
          (ToolsGenerator.select_error errors variables correct).
Proof.
  unfold ToolsGenerator.select_error, tools_corrupted.
  assert (Htypo : Ensures (fun inc => from_wrong_template errors variables inc
                      \/ (Possible (generate_typo correct (of_Z 1)) inc
                          \/ Possible (remove_space correct) inc))
                   (generate_typo correct (of_Z 1)))
    by (eapply Ensures_mono; [|apply Ensures_self]; auto).
  destruct errors as [|e errors]; [exact Htypo|].
  apply Ensures_after. intros x. destruct (fltb x (dec 7 10)); [|exact Htypo].
  eapply Ensures_mono; [|apply Ensures_wrong_template]. auto.
Qed.

Lemma tools_retry_outcomes errors variables correct (retries : nat) :
  forall incorrect,
    from_wrong_template errors variables incorrect \/ tools_corrupted correct incorrect ->
    Ensures (fun inc => from_wrong_template errors variables inc
                        \/ tools_corrupted correct inc)
            (ToolsGenerator.retry_multi_char retries errors variables correct incorrect).
Proof.
  induction retries as [|retries IH]; intros incorrect H;
    cbn [ToolsGenerator.retry_multi_char]; [now constructor|].
  destruct (ToolsGenerator._is_single_char_correction incorrect correct);
    [|now constructor].
  apply Ensures_bind_possible. intros inc1 H1.
  apply Ensures_bind.
  match goal with
  | |- Ensures _ (if ?c then _ else _) => destruct c
  end.
  - destruct errors as [|e errors].
    + eapply Ensures_mono; [|apply Ensures_self].
      intros inc2 H2. apply IH. right. now left.
    + eapply Ensures_mono; [|apply Ensures_wrong_template].
      intros inc2 H2. apply IH. now left.
  - constructor. apply IH. right. now right.
Qed.

Lemma tools_paired shell category tool_name cmd :
  Ensures (fun res => match res with
                      | Some ex =>
                          paired_by_one_binding (get_or (entry_correct cmd) [])
                            (get_or (entry_errors cmd) []) tools_corrupted ex
                      | None => True
                      end)
          (ToolsGenerator._create_example shell category tool_name cmd).
Proof.
  unfold ToolsGenerator._create_example.
  destruct (get_or (entry_correct cmd) []) as [|c0 c] eqn:Ec; [now constructor|].
  apply Ensures_bind_possible. intros variables Hv.
  apply Ensures_bind.
  eapply Ensures_mono; [|apply tools_select_error_outcomes].
  intros inc0 H0. apply Ensures_bind.
  eapply Ensures_mono; [|apply tools_retry_outcomes, H0].
  intros inc H.
  match goal with
  | |- Ensures _ (if ?c then _ else _) => destruct c
  end; constructor; [exact I|].
  exists variables. split; [exact Hv|].
  split; [exact (Ensures_Possible (extract_variables_NoDup _) Hv)|].
  split; [reflexivity|]. exact H.
Qed.

Lemma single_generate_incorrect_outcomes correct e error_type shell variables :
  Ensures (fun inc => from_wrong_template (get_or (entry_errors e) []) variables inc
                      \/ single_corrupted error_type shell correct inc)
          (SingleCommandGenerator._generate_incorrect correct e error_type shell variables).
Proof.
  assert (Hby : Ensures (fun inc => from_wrong_template (get_or (entry_errors e) []) variables inc
                      \/ single_corrupted error_type shell correct inc)
                   (single_by_type correct error_type shell)).
  { eapply Ensures_mono; [|apply Ensures_self]. intros inc H. right. now left. }
  unfold SingleCommandGenerator._generate_incorrect.
  destruct (entry_errors e) as [[|e0 errors]|]; try exact Hby.
  apply Ensures_after. intros x. destruct (fltb x (dec 6 10)); [|exact Hby].
  eapply Ensures_mono; [|apply Ensures_wrong_template]. auto.
Qed.

Lemma single_retry_outcomes errors variables error_type shell correct (retries : nat) :
  forall incorrect,
    from_wrong_template errors variables incorrect
    \/ single_corrupted error_type shell correct incorrect ->
    Ensures (fun inc => from_wrong_template errors variables inc
                        \/ single_corrupted error_type shell correct inc)
            (SingleCommandGenerator.retry_multi_char retries correct shell incorrect).
Proof.
  induction retries as [|retries IH]; intros incorrect H;
    cbn [SingleCommandGenerator.retry_multi_char]; [now constructor|].
  destruct (SingleCommandGenerator._is_single_char_correction incorrect correct);
    [|now constructor].
  apply Ensures_bind_possible. intros inc1 H1.
  apply Ensures_bind.
  assert (J1 : single_corrupted error_type shell correct inc1)
    by (right; right; now left).
  assert (Hflag : Ensures (single_corrupted error_type shell correct)
                    (SingleCommandGenerator._generate_flag_error correct shell)).
  { eapply Ensures_mono; [|apply Ensures_self]. intros i Hi.
    right; right; right; now left. }
  assert (Hpath : Ensures (single_corrupted error_type shell correct)
                    (SingleCommandGenerator._generate_path_error correct)).
  { eapply Ensures_mono; [|apply Ensures_self]. intros i Hi.
    right; right; right; now right. }
  assert (Hstep2 : forall inc2, single_corrupted error_type shell correct inc2 ->
             Ensures (fun inc => from_wrong_template errors variables inc
                                 \/ single_corrupted error_type shell correct inc)
               (incorrect3 <-
                  (if str_eqb inc2 correct
                      || SingleCommandGenerator._is_single_char_correction inc2 correct
                   then SingleCommandGenerator._generate_path_error correct
                   else Ret inc2) ;;
                SingleCommandGenerator.retry_multi_char retries correct shell incorrect3)).
  { intros inc2 J2. apply Ensures_bind.
    match goal with
    | |- Ensures _ (if ?c then _ else _) => destruct c
    end.
    - eapply Ensures_mono; [|exact Hpath]. intros i Hi. apply IH. now right.
    - constructor. apply IH. now right. }
  match goal with
  | |- Ensures _ (if ?c then _ else _) => destruct c
  end.
  - eapply Ensures_mono; [|exact Hflag]. intros i Hi. now apply Hstep2.
  - constructor. now apply Hstep2.
Qed.

Lemma single_paired shell category e :
  Ensures (fun res => match res with
                      | Some ex =>
                          paired_by_one_binding (get_or (entry_correct e) [])
                            (get_or (entry_errors e) [])
                            (single_corrupted (error_type ex) shell) ex
                      | None => True
                      end)
          (SingleCommandGenerator._create_example_from_entry shell category e).
Proof.
  unfold SingleCommandGenerator._create_example_from_entry.
  destruct (get_or (entry_correct e) []) as [|c0 c] eqn:Ec; [now constructor|].
  apply Ensures_bind_possible. intros variables Hv.
  apply Ensures_after. intros et.
  apply Ensures_bind.
  eapply Ensures_mono; [|apply single_generate_incorrect_outcomes].
  intros inc0 H0. apply Ensures_bind.
  assert (H1 : Ensures (fun inc => from_wrong_template (get_or (entry_errors e) []) variables inc
                           \/ single_corrupted et shell
                                (expand_template (c0 :: c) variables) inc)
                 (if str_eqb inc0 (expand_template (c0 :: c) variables)
                  then generate_typo (expand_template (c0 :: c) variables) (of_Z 1)
                  else Ret inc0)).
  { destruct (str_eqb inc0 _); [|now constructor].
    eapply Ensures_mono; [|apply Ensures_self]. intros i Hi. right; right; now left. }
  eapply Ensures_mono; [|exact H1].
  intros inc1 J1. apply Ensures_bind.
  eapply Ensures_mono; [|apply single_retry_outcomes, J1].
  intros inc J.
  match goal with
  | |- Ensures _ (if ?c then _ else _) => destruct c
  end; constructor; [exact I|].
  exists variables. split; [exact Hv|].
  split; [exact (Ensures_Possible (extract_variables_NoDup _) Hv)|].
  split; [reflexivity|]. exact J.
Qed.

(** C5. In every synthesis attempt of the chained, the tools and the
    single-command generator, one binding is drawn for the correct
    template (one value per name) and the emitted pair is built from it:
    the correct command is the correct template expanded with it, and
    the incorrect command is either a wrong template of the entry
    expanded with the very same binding, so that a placeholder of both
    templates receives the same value on both sides, or a corruption of
    the expanded correct command. *)
Theorem C5_same_binding :
  (forall shell p error_type (R : Type) (G : RandomGen R) (r : R) ex r',
      run (ChainedCommandGenerator._create_example_from_pattern shell p error_type) r
      = (inr (Some ex), r') ->
      paired_by_one_binding (get_or (entry_correct p) []) (get_or (entry_errors p) [])
        (fun correct inc => chained_corrupted correct error_type shell inc) ex)
  /\ (forall shell category tool_name cmd (R : Type) (G : RandomGen R) (r : R) ex r',
      run (ToolsGenerator._create_example shell category tool_name cmd) r
      = (inr (Some ex), r') ->
      paired_by_one_binding (get_or (entry_correct cmd) []) (get_or (entry_errors cmd) [])
        tools_corrupted ex)
  /\ (forall shell category e (R : Type) (G : RandomGen R) (r : R) ex r',
      run (SingleCommandGenerator._create_example_from_entry shell category e) r
      = (inr (Some ex), r') ->
      paired_by_one_binding (get_or (entry_correct e) []) (get_or (entry_errors e) [])
        (single_corrupted (error_type ex) shell) ex).
Proof.
  split; [|split].
  - intros shell p error_type R G r ex r' E.
    exact (Ensures_run (chained_paired shell p error_type) _ E).
  - intros shell category tool_name cmd R G r ex r' E.
    exact (Ensures_run (tools_paired shell category tool_name cmd) _ E).
  - intros shell category e R G r ex r' E.
    exact (Ensures_run (single_paired shell category e) _ E).
Qed.


(** The tools entry for [git commit], the message drawn first, then the
    wrong-template branch (0.5) and its first wrong template. *)
Lemma C5_same_binding_witness :
  exists ex r',
    run (ToolsGenerator._create_example (py "bash") (py "version_control") (py "git")
           git_commit_command) [1; frac 1 2; 0]%Z = (inr (Some ex), r')
    /\ correct_command ex = py "git commit -m 'Fix bug'"
    /\ incorrect_command ex = py "git commit 'Fix bug'"
    /\ paired_by_one_binding (py "git commit -m '{message}'")
         [py "git commit '{message}'"; py "git comit -m '{message}'";
          py "git commit -m {message}"] tools_corrupted ex.
Proof.
  eexists. eexists.
  assert (E : run (ToolsGenerator._create_example (py "bash") (py "version_control")
                     (py "git") git_commit_command) [1; frac 1 2; 0]%Z
              = (inr (Some _), _)) by (vm_compute; reflexivity).
  split; [exact E|]. split; [reflexivity|]. split; [reflexivity|].
  exact (proj1 (proj2 C5_same_binding) (py "bash") (py "version_control") (py "git")
               git_commit_command (list Z) Tape_RandomGen _ _ _ E).
Defined.

(** ** What becomes of the chosen wrong template *)

Section RunBind.
Context {R : Type} `{G : RandomGen R}.

Lemma run_bind {A B : Type} (m : Rand A) (f : A -> Rand B) (r : R) :
  run (bind m f) r
  = match run m r with
    | (inr a, r1) => run (f a) r1
    | (inl e, r1) => (inl e, r1)
    end.
Proof.
  revert r; induction m as [a|e|k IH|n k IH]; intros r; simpl; try reflexivity.
  - destruct (next_random r) as [x r1]. apply IH.
  - destruct (0 <? n)%Z; [|reflexivity].
    destruct (next_below n r) as [x r1]. apply IH.
Qed.

Lemma run_random (r : R) :
  run random r = (inr (of_frac53 (fst (next_random r))), snd (next_random r)).
Proof. simpl. now destruct (next_random r). Qed.
End RunBind.



Section Chosen.
Context {R : Type} `{G : RandomGen R}.

(** What [chosen_wrong_template] says about the runs. *)
Lemma chosen_wrong_template_inv (c : str) (errors : list str) (r : R)
      variables e r3 :
  chosen_wrong_template c errors r = Some (variables, e, r3) ->
  exists r1,
    run (extract_variables c) r = (inr variables, r1)
    /\ errors <> []
    /\ fltb (of_frac53 (fst (next_random r1))) (dec 7 10) = true
    /\ run (choice errors) (snd (next_random r1)) = (inr e, r3)
    /\ In e errors.
Proof.
  unfold chosen_wrong_template.
  destruct (run (extract_variables c) r) as [[exn|vars] r1] eqn:E1; [discriminate|].
  destruct errors as [|e0 errors]; [discriminate|].
  destruct (next_random r1) as [k r2] eqn:E2.
  destruct (fltb (of_frac53 k) (dec 7 10)) eqn:Hlt; [|discriminate].
  destruct (run (choice (e0 :: errors)) r2) as [[exn|e'] r3'] eqn:E3; [discriminate|].
  intros H; inversion H; subst.
  exists r1. rewrite E2. cbn [fst snd].
  repeat split; auto; try discriminate.
  exact (Ensures_run (Ensures_choice (fun a => In a (e0 :: errors)) (e0 :: errors)
                        (fun a Ha => Ha)) _ E3).
Qed.

Lemma chained_candidate_emitted shell p error_type (r : R) variables e r3 :
  get_or (entry_correct p) [] <> [] ->
  chosen_wrong_template (get_or (entry_correct p) []) (get_or (entry_errors p) []) r
  = Some (variables, e, r3) ->
  strip (expand_template e variables)
  <> strip (expand_template (get_or (entry_correct p) []) variables) ->
  run (ChainedCommandGenerator._create_example_from_pattern shell p error_type) r
  = (inr (Some {| shell := shell;
                  incorrect_command := expand_template e variables;
                  correct_command :=
                    expand_template (get_or (entry_correct p) []) variables;
                  category := get_or (entry_category p) (py "chained");
                  error_type := error_type;
                  source := py "chained_pattern";
                  metadata := [] |}), r3).
Proof.
  intros Hc Hch Hnn.
  apply chosen_wrong_template_inv in Hch as (r1 & E1 & Hne & Hlt & E3 & _).
  unfold ChainedCommandGenerator._create_example_from_pattern.
  destruct (get_or (entry_correct p) []) as [|c0 c] eqn:Ec; [contradiction|].
  rewrite run_bind, E1.
  destruct (get_or (entry_errors p) []) as [|e0 errors] eqn:Ee; [contradiction|].
  rewrite run_bind.
  unfold ChainedCommandGenerator.select_error.
  rewrite run_bind, run_random, Hlt, run_bind, E3.
  cbn [run].
  unfold ChainedCommandGenerator.null_gate.
  apply str_eqb_neq in Hnn. rewrite Hnn. reflexivity.
Qed.

Lemma tools_retry_skipped (retries : nat) errors variables correct incorrect :
  ToolsGenerator._is_single_char_correction incorrect correct = false ->
  ToolsGenerator.retry_multi_char retries errors variables correct incorrect
  = Ret incorrect.
Proof. intros H. destruct retries; simpl; [reflexivity|]. now rewrite H. Qed.

Lemma tools_candidate_emitted shell category tool_name cmd (r : R) variables e r3 :
  get_or (entry_correct cmd) [] <> [] ->
  chosen_wrong_template (get_or (entry_correct cmd) []) (get_or (entry_errors cmd) []) r
  = Some (variables, e, r3) ->
  ToolsGenerator._is_single_char_correction (expand_template e variables)
    (expand_template (get_or (entry_correct cmd) []) variables) = false ->
  strip (expand_template e variables)
  <> strip (expand_template (get_or (entry_correct cmd) []) variables) ->
  run (ToolsGenerator._create_example shell category tool_name cmd) r
  = (inr (Some {| shell := shell;
                  incorrect_command := expand_template e variables;
                  correct_command :=
                    expand_template (get_or (entry_correct cmd) []) variables;
                  category := py "tools_" ++ category;
                  error_type := py "tool_specific";
                  source := py "tools_pattern";
                  metadata := [(py "tool", tool_name)] |}), r3).
Proof.
  intros Hc Hch Hsc Hnn.
  apply chosen_wrong_template_inv in Hch as (r1 & E1 & Hne & Hlt & E3 & _).
  unfold ToolsGenerator._create_example.
  destruct (get_or (entry_correct cmd) []) as [|c0 c] eqn:Ec; [contradiction|].
  rewrite run_bind, E1.
  destruct (get_or (entry_errors cmd) []) as [|e0 errors] eqn:Ee; [contradiction|].
  rewrite run_bind.
  unfold ToolsGenerator.select_error.
  rewrite run_bind, run_random, Hlt, run_bind, E3.
  cbn [run].
  rewrite tools_retry_skipped by exact Hsc.
  rewrite run_bind. cbn [run].
  apply str_eqb_neq in Hnn. rewrite Hnn. reflexivity.
Qed.
End Chosen.

(** *** The catalogs *)

Lemma strs_eqb_eq (a b : list str) : strs_eqb a b = true -> a = b.
Proof.
  revert b; induction a as [|x a IH]; intros [|y b] H; try discriminate; [reflexivity|].
  cbn [strs_eqb] in H. apply andb_true_iff in H as [Hx Ha].
  apply str_eqb_eq in Hx. subst. f_equal. now apply IH.
Qed.

Lemma closed_entry_spec (p : entry) (e x : str) :
  closed_entry p = true ->
  In e (get_or (entry_errors p) []) ->
  In x (findall_placeholders e) ->
  In x (findall_placeholders (get_or (entry_correct p) [])).
Proof.
  unfold closed_entry, placeholders_within. intros H He Hx.
  rewrite forallb_forall in H. specialize (H e He).
  rewrite forallb_forall in H. specialize (H x Hx).
  apply existsb_exists in H as (y & Hy & E). apply str_eqb_eq in E. now subst.
Qed.

Lemma chained_catalog_closed (p : entry) :
  In p chained_catalog -> closed_entry p = true.
Proof.
  assert (C : forallb closed_entry chained_catalog = true) by (vm_compute; reflexivity).
  rewrite forallb_forall in C. apply C.
Qed.

Lemma tools_catalog_closed_but_awk (tool_category tool_name : str) (cmd : entry) :
  In (tool_category, tool_name, cmd) ToolsGenerator.all_tools ->
  closed_entry cmd = true
  \/ (get_or (entry_correct cmd) [] = awk_correct
      /\ get_or (entry_errors cmd) [] = awk_errors).
Proof.
  assert (C : forallb (fun t : str * str * entry =>
                         closed_entry (snd t) || is_awk_entry (snd t))
                      ToolsGenerator.all_tools = true) by (vm_compute; reflexivity).
  rewrite forallb_forall in C. intros Hin. specialize (C _ Hin). cbn [snd] in C.
  apply orb_true_iff in C as [C|C]; [now left|right].
  unfold is_awk_entry in C. apply andb_true_iff in C as [C1 C2].
  apply str_eqb_eq in C1. apply strs_eqb_eq in C2. now split.
Qed.

(** *** The awk entry *)

Lemma file_values_eq : dict_get (py "file") COMMON_VARIABLES = Some file_values.
Proof. reflexivity. Qed.

Lemma awk_binding :
  Ensures (fun variables => exists v, In v file_values /\ variables = [(py "file", v)])
          (extract_variables awk_correct).
Proof.
  rewrite extract_variables_fold.
  change (findall_placeholders awk_correct) with [py "file"].
  cbn [fold_left]. unfold extract_step. cbn [bind].
  change (dict_mem (py "file") (@nil (str * str))) with false. cbv iota.
  unfold get_random_variable. rewrite file_values_eq.
  apply Ensures_bind. apply Ensures_choice. intros v Hv. constructor.
  exists v. split; [exact Hv|reflexivity].
Qed.

Lemma awk_candidates_pass (v : str) :
  In v file_values -> awk_candidate_passes v = true.
Proof.
  assert (C : forallb awk_candidate_passes file_values = true)
    by (vm_compute; reflexivity).
  rewrite forallb_forall in C. apply C.
Qed.

Lemma awk_unbound (e x : str) :
  In e awk_errors ->
  In x (findall_placeholders e) ->
  ~ In x (findall_placeholders awk_correct) ->
  e = py "awk '{{print}}' {file}" /\ x = py "print".
Proof.
  intros He Hx Hn.
  change (findall_placeholders awk_correct) with [py "file"] in Hn.
  destruct He as [<-|[<-|[]]].
  - change (findall_placeholders (py "awk {print $1} {file}")) with [py "file"] in Hx.
    contradiction.
  - change (findall_placeholders (py "awk '{{print}}' {file}"))
      with [py "print"; py "file"] in Hx.
    destruct Hx as [<-|Hx]; [now split|contradiction].
Qed.

(** C10. The binding of a synthesis attempt is extracted from the
    correct template only: its keys are placeholder names of the correct
    template.  For every entry of the catalogs of the chained and of the
    tools generator and every attempt that chooses a wrong template with
    a placeholder name that the correct template does not have, the
    name is not bound, the example is emitted with the expansion of
    that wrong template as its incorrect command, and ["{name}"], braces
    included, occurs in it verbatim.  In the chained catalogs no wrong
    template has such a placeholder; in the tools catalog only the awk
    entry has one, [print]. *)
Theorem C10_unbound_placeholder_verbatim :
  (forall correct_template errors (R : Type) (G : RandomGen R) (r : R)
          variables e r3 k,
      chosen_wrong_template correct_template errors r = Some (variables, e, r3) ->
      In k (map fst variables) -> In k (findall_placeholders correct_template))
  /\ (forall sh tool_category tool_name cmd (R : Type) (G : RandomGen R) (r : R)
             variables e r3 x,
      In (tool_category, tool_name, cmd) ToolsGenerator.all_tools ->
      chosen_wrong_template (get_or (entry_correct cmd) []) (get_or (entry_errors cmd) []) r
      = Some (variables, e, r3) ->
      In x (findall_placeholders e) ->
      ~ In x (findall_placeholders (get_or (entry_correct cmd) [])) ->
      exists ex,
        run (ToolsGenerator._create_example sh tool_category tool_name cmd) r
        = (inr (Some ex), r3)
        /\ dict_get x variables = None
        /\ incorrect_command ex = expand_template e variables
        /\ contains (ph x) (incorrect_command ex) = true)
  /\ (forall sh p et (R : Type) (G : RandomGen R) (r : R) variables e r3 x,
      In p chained_catalog ->
      chosen_wrong_template (get_or (entry_correct p) []) (get_or (entry_errors p) []) r
      = Some (variables, e, r3) ->
      In x (findall_placeholders e) ->
      ~ In x (findall_placeholders (get_or (entry_correct p) [])) ->
      exists ex,
        run (ChainedCommandGenerator._create_example_from_pattern sh p et) r
        = (inr (Some ex), r3)
        /\ dict_get x variables = None
        /\ incorrect_command ex = expand_template e variables
        /\ contains (ph x) (incorrect_command ex) = true)
  /\ (forall p e x,
      In p chained_catalog ->
      In e (get_or (entry_errors p) []) ->
      In x (findall_placeholders e) ->
      In x (findall_placeholders (get_or (entry_correct p) [])))
  /\ (forall tool_category tool_name cmd e x,
      In (tool_category, tool_name, cmd) ToolsGenerator.all_tools ->
      In e (get_or (entry_errors cmd) []) ->
      In x (findall_placeholders e) ->
      ~ In x (findall_placeholders (get_or (entry_correct cmd) [])) ->
      get_or (entry_correct cmd) [] = awk_correct
      /\ e = py "awk '{{print}}' {file}" /\ x = py "print").
Proof.
  split; [|split; [|split; [|split]]].
  - intros c errors R G r variables e r3 k Hch Hk.
    apply chosen_wrong_template_inv in Hch as (r1 & E1 & _).
    exact (Ensures_run (extract_variables_keys c) _ E1 k Hk).
  - intros sh tool_category tool_name cmd R G r variables e r3 x Hin Hch Hx Hn.
    pose proof Hch as Hinv.
    apply chosen_wrong_template_inv in Hinv as (r1 & E1 & _ & _ & _ & He).
    destruct (@tools_catalog_closed_but_awk _ _ _ Hin) as [Hclosed|[Ec Ee]].
    { exfalso. apply Hn. exact (@closed_entry_spec _ _ _ Hclosed He Hx). }
    rewrite Ec in E1, Hn. rewrite Ee in He.
    destruct (@awk_unbound _ _ He Hx Hn) as [-> ->].
    destruct (Ensures_run awk_binding _ E1) as (v & Hv & ->).
    pose proof (@awk_candidates_pass _ Hv) as Hpass.
    unfold awk_candidate_passes in Hpass. cbv zeta in Hpass.
    apply andb_true_iff in Hpass as [Hpass Hcontains].
    apply andb_true_iff in Hpass as [Hsingle Hnull].
    apply negb_true_iff in Hsingle, Hnull. apply str_eqb_neq in Hnull.
    eexists. split.
    { apply tools_candidate_emitted.
      - rewrite Ec. discriminate.
      - exact Hch.
      - rewrite Ec. exact Hsingle.
      - rewrite Ec. exact Hnull. }
    cbn [incorrect_command].
    split; [reflexivity|]. split; [reflexivity|exact Hcontains].
  - intros sh p et R G r variables e r3 x Hin Hch Hx Hn.
    apply chosen_wrong_template_inv in Hch as (r1 & _ & _ & _ & _ & He).
    exfalso. apply Hn.
    exact (@closed_entry_spec _ _ _ (@chained_catalog_closed _ Hin) He Hx).
  - intros p e x Hin He Hx.
    exact (@closed_entry_spec _ _ _ (@chained_catalog_closed _ Hin) He Hx).
  - intros tool_category tool_name cmd e x Hin He Hx Hn.
    destruct (@tools_catalog_closed_but_awk _ _ _ Hin) as [Hclosed|[Ec Ee]].
    { exfalso. apply Hn. exact (@closed_entry_spec _ _ _ Hclosed He Hx). }
    rewrite Ec in Hn. rewrite Ee in He.
    destruct (@awk_unbound _ _ He Hx Hn) as [-> ->]. now split.
Qed.

Lemma awk_in_all_tools : In (py "text", py "awk", awk_command) ToolsGenerator.all_tools.
Proof.
  assert (E : nth 143 ToolsGenerator.all_tools (py "text", py "awk", awk_command)
              = (py "text", py "awk", awk_command)) by (vm_compute; reflexivity).
  rewrite <- E. apply nth_In. vm_compute. lia.
Qed.

(** The awk entry of the tools catalog at a run that chooses its second
    wrong template, whose placeholder [print] the correct template does
    not have. *)
Lemma C10_unbound_placeholder_verbatim_witness :
  In (py "text", py "awk", awk_command) ToolsGenerator.all_tools
  /\ chosen_wrong_template awk_correct awk_errors [0; frac 1 2; 1]%Z
     = Some ([(py "file", py "file.txt")], py "awk '{{print}}' {file}", [])
  /\ In (py "print") (findall_placeholders (py "awk '{{print}}' {file}"))
  /\ ~ In (py "print") (findall_placeholders awk_correct)
  /\ exists ex,
       run (ToolsGenerator._create_example (py "bash") (py "text") (py "awk") awk_command)
           [0; frac 1 2; 1]%Z = (inr (Some ex), [])
       /\ dict_get (py "print") [(py "file", py "file.txt")] = None
       /\ incorrect_command ex
          = expand_template (py "awk '{{print}}' {file}") [(py "file", py "file.txt")]
       /\ contains (ph (py "print")) (incorrect_command ex) = true.
Proof.
  assert (Hch : chosen_wrong_template awk_correct awk_errors [0; frac 1 2; 1]%Z
                = Some ([(py "file", py "file.txt")], py "awk '{{print}}' {file}", []))
    by (vm_compute; reflexivity).
  assert (Hx : In (py "print") (findall_placeholders (py "awk '{{print}}' {file}")))
    by (left; reflexivity).
  assert (Hn : ~ In (py "print") (findall_placeholders awk_correct))
    by (intros [H|[]]; discriminate H).
  split; [exact awk_in_all_tools|]. split; [exact Hch|].
  split; [exact Hx|]. split; [exact Hn|].
  exact (proj1 (proj2 C10_unbound_placeholder_verbatim)
           (py "bash") (py "text") (py "awk") awk_command (list Z) Tape_RandomGen
           [0; frac 1 2; 1]%Z [(py "file", py "file.txt")]
           (py "awk '{{print}}' {file}") [] (py "print")
           awk_in_all_tools Hch Hx Hn).
Defined.

(** ** Generators that answer alike give the same run *)

Lemma run_same_draws {R1 R2 : Type} (G1 : RandomGen R1) (G2 : RandomGen R2)
      (sim : R1 -> R2 -> Prop) :
  same_draws G1 G2 sim ->
  forall (A : Type) (m : Rand A) r1 r2, sim r1 r2 ->
    fst (run m r1) = fst (run m r2) /\ sim (snd (run m r1)) (snd (run m r2)).
Proof.
  intros Hs A m. induction m as [a|e|k IH|n k IH]; intros r1 r2 Hr; simpl.
  - auto.
  - auto.
  - destruct (Hs r1 r2 Hr) as [[Hx Hn] _].
    destruct (next_random r1) as [x1 s1], (next_random r2) as [x2 s2].
    simpl in Hx, Hn. subst x2. now apply IH.
  - destruct (0 <? n)%Z; [|auto].
    destruct (Hs r1 r2 Hr) as [_ Hb]. destruct (Hb n) as [Hx Hn].
    destruct (next_below n r1) as [x1 s1], (next_below n r2) as [x2 s2].
    simpl in Hx, Hn. subst x2. now apply IH.
Qed.

Lemma same_draws_eq {R : Type} (G : RandomGen R) : same_draws G G eq.
Proof. intros r1 r2 ->. auto. Qed.

(** ** Further properties of the classifier *)

Lemma one_substituted_sym (a b : str) : one_substituted a b -> one_substituted b a.
Proof.
  intros (p & x & y & s & Ha & Hb & N). exists p, y, x, s. auto.
Qed.

Lemma single_char_spec_sym (a b : str) : single_char_spec a b -> single_char_spec b a.
Proof.
  intros [H|[H|H]].
  - left. now apply one_substituted_sym.
  - right. right. exact H.
  - right. left. exact H.
Qed.

Lemma single_char_spec_irrefl (s : str) : ~ single_char_spec s s.
Proof.
  intros [(p & x & y & t & Ha & Hb & N)|[[L _]|[L _]]]; [|lia|lia].
  rewrite Ha in Hb. apply app_inv_head in Hb. congruence.
Qed.

Lemma single_char_spec_lengths (a b : str) :
  single_char_spec a b ->
  length a = length b \/ length b = S (length a) \/ length a = S (length b).
Proof.
  intros [H|[[L _]|[L _]]]; auto. left. now apply one_substituted_length.
Qed.

(** X1. The classification does not depend on the order of its arguments, a
    pair that is equal after trimming is never a single-character
    correction, and neither is a pair whose trimmed lengths differ by two
    or more. *)
Theorem is_single_char_correction_symmetric :
  (forall a b,
      SingleCommandGenerator._is_single_char_correction a b
      = SingleCommandGenerator._is_single_char_correction b a)
  /\ (forall a b,
      ToolsGenerator._is_single_char_correction a b
      = ToolsGenerator._is_single_char_correction b a)
  /\ (forall a b, strip a = strip b ->
      SingleCommandGenerator._is_single_char_correction a b = false)
  /\ (forall a b, 2 + length (strip a) <= length (strip b) ->
      SingleCommandGenerator._is_single_char_correction a b = false).
Proof.
  assert (S : forall a b,
             SingleCommandGenerator._is_single_char_correction a b
             = SingleCommandGenerator._is_single_char_correction b a).
  { intros a b. apply eq_true_iff_eq.
    rewrite !is_single_char_correction_spec. split; apply single_char_spec_sym. }
  split; [exact S|]. split; [exact S|]. split.
  - intros a b E.
    destruct (SingleCommandGenerator._is_single_char_correction a b) eqn:H; [|reflexivity].
    apply is_single_char_correction_spec in H. rewrite E in H.
    now apply single_char_spec_irrefl in H.
  - intros a b L.
    destruct (SingleCommandGenerator._is_single_char_correction a b) eqn:H; [|reflexivity].
    apply is_single_char_correction_spec, single_char_spec_lengths in H. lia.
Qed.

(** The statement at a command with surrounding blanks and at the pair
    of the specification's negative example. *)
Lemma is_single_char_correction_symmetric_witness :
  SingleCommandGenerator._is_single_char_correction (py " ls -la") (py "ls -la ") = false
  /\ SingleCommandGenerator._is_single_char_correction (py "ls") (py "ls -la") = false.
Proof.
  split.
  - apply (proj1 (proj2 (proj2 is_single_char_correction_symmetric))). reflexivity.
  - apply (proj2 (proj2 (proj2 is_single_char_correction_symmetric))). vm_compute. lia.
Defined.

(** ** The per-shell targets and the size of the result *)

Lemma fmul_not_negative (x : float) (m : positive) (e : Z) :
  not_negative x -> not_negative (fmul x (S754_finite false m e)).
Proof.
  unfold fmul, SFmul.
  destruct x as [s|s| |s mx ex]; cbn [not_negative]; intros H.
  - exact I.
  - subst s. reflexivity.
  - exact I.
  - subst s. apply binary_round_aux_not_negative.
Qed.

Lemma shell_weights_finite :
  Forall (fun sw => exists m e, snd sw = S754_finite false m e) SHELL_WEIGHTS.
Proof. repeat constructor; eexists; eexists; reflexivity. Qed.

Lemma truncated_counts_not_negative (count : Z) :
  (0 <= count)%Z -> Forall (fun sc => (0 <= snd sc)%Z) (truncated_counts count).
Proof.
  intros Hc. unfold truncated_counts. apply Forall_map.
  eapply Forall_impl; [|apply shell_weights_finite].
  intros [s w] (m & e & E). cbn [fst snd] in *. subst w.
  apply trunc_not_negative, fmul_not_negative, of_Z_not_negative, Hc.
Qed.

Lemma shell_counts_shape (count : Z) :
  exists c1 c2 c3 c4 c5 c6 : Z,
    truncated_counts count
    = [ (py "bash", c1); (py "zsh", c2); (py "powershell", c3);
        (py "cmd", c4); (py "fish", c5); (py "tcsh", c6) ].
Proof. unfold truncated_counts, SHELL_WEIGHTS. cbn [map fst snd]. repeat eexists. Qed.

Lemma shell_counts_unfold (count : Z) :
  shell_counts count
  = if (total_count (truncated_counts count) <? count)%Z
    then map (fun sc => if str_eqb (fst sc) (py "bash")
                        then (fst sc,
                              (snd sc + (count - total_count (truncated_counts count)))%Z)
                        else sc) (truncated_counts count)
    else truncated_counts count.
Proof. reflexivity. Qed.

Lemma shell_counts_keys (count : Z) :
  map fst (shell_counts count) = map fst SHELL_WEIGHTS /\ True.
Proof.
  split; [|exact I]. rewrite shell_counts_unfold.
  destruct (shell_counts_shape count) as (c1 & c2 & c3 & c4 & c5 & c6 & E).
  rewrite E. destruct (_ <? _)%Z; reflexivity.
Qed.

(** X2. The per-shell targets of [generate(count)] are keyed by the six
    shells in the order of [SHELL_WEIGHTS]; they add up to at least
    [count], and to exactly [count] whenever the truncated shares do not
    exceed it (the remainder goes to bash); none is negative when
    [count] is not. *)
Theorem shell_counts_total (count : Z) :
  map fst (shell_counts count) = map fst SHELL_WEIGHTS
  /\ (count <= total_count (shell_counts count))%Z
  /\ ((total_count (truncated_counts count) <= count)%Z ->
      total_count (shell_counts count) = count)
  /\ ((0 <= count)%Z -> Forall (fun sc => (0 <= snd sc)%Z) (shell_counts count)).
Proof.
  rewrite shell_counts_unfold.
  pose proof (truncated_counts_not_negative (count := count)) as Hpos.
  destruct (shell_counts_shape count) as (c1 & c2 & c3 & c4 & c5 & c6 & E).
  rewrite E in *. unfold total_count.
  cbn [map fst snd fold_left].
  destruct (Z.ltb_spec (0 + c1 + c2 + c3 + c4 + c5 + c6) count) as [Hlt|Hge].
  - change (str_eqb (py "bash") (py "bash")) with true.
    change (str_eqb (py "zsh") (py "bash")) with false.
    change (str_eqb (py "powershell") (py "bash")) with false.
    change (str_eqb (py "cmd") (py "bash")) with false.
    change (str_eqb (py "fish") (py "bash")) with false.
    change (str_eqb (py "tcsh") (py "bash")) with false.
    cbn [map fst snd fold_left].
    split; [reflexivity|]. split; [lia|]. split; [lia|].
    intros Hc. specialize (Hpos Hc).
    repeat match goal with
           | H : Forall _ (_ :: _) |- _ => inversion H; clear H; subst
           end.
    cbn [snd] in *. repeat constructor; cbn [snd]; lia.
  - cbn [map fst snd fold_left].
    split; [reflexivity|]. split; [lia|]. split; [lia|]. exact Hpos.
Qed.

(** The statement at the target count 20, whose truncated shares add up
    to 19. *)
Lemma shell_counts_total_witness :
  total_count (truncated_counts 20) = 19%Z
  /\ total_count (shell_counts 20) = 20%Z
  /\ Forall (fun sc => (0 <= snd sc)%Z) (shell_counts 20).
Proof.
  split; [reflexivity|]. split.
  - apply (proj1 (proj2 (proj2 (shell_counts_total 20)))). vm_compute. discriminate.
  - apply (proj2 (proj2 (proj2 (shell_counts_total 20)))). lia.
Defined.

(** ** The size of the list that [generate] returns *)

Lemma Ensures_slice_tail {A B : Type} (P : list B -> Prop) (m : Rand A)
      (f : A -> list B) (count : Z) :
  (forall l, P (slice_to l count)) ->
  Ensures P (x <- m ;; Ret (slice_to (f x) count)).
Proof. intros H. apply Ensures_after. intros a. constructor. apply H. Qed.

Lemma generate_length_ensured (count : Z) :
  (0 <= count)%Z ->
  (forall templates,
      Ensures (fun out => (Z.of_nat (length out) <= count)%Z)
              (SingleCommandGenerator.generate templates count))
  /\ Ensures (fun out => (Z.of_nat (length out) <= count)%Z)
             (ChainedCommandGenerator.generate count)
  /\ Ensures (fun out => (Z.of_nat (length out) <= count)%Z)
             (NaturalLanguageGenerator.generate count)
  /\ Ensures (fun out => (Z.of_nat (length out) <= count)%Z)
             (ToolsGenerator.generate count).
Proof.
  intros Hc.
  split; [intros templates; unfold SingleCommandGenerator.generate|].
  2: split; [unfold ChainedCommandGenerator.generate|].
  3: split; [unfold NaturalLanguageGenerator.generate
            |unfold ToolsGenerator.generate].
  all: repeat (apply Ensures_after; intros ?).
  all: constructor; now apply length_slice_to_le.
Qed.

(** X3. For a target count that is not negative, no generator returns more
    than [count] examples. *)
Theorem generate_at_most_count :
  forall (count : Z) (R : Type) (G : RandomGen R) (r : R)
         (out : list TrainingExample) (r' : R),
    (0 <= count)%Z ->
    (forall templates,
        run (SingleCommandGenerator.generate templates count) r = (inr out, r') ->
        (Z.of_nat (length out) <= count)%Z)
    /\ (run (ChainedCommandGenerator.generate count) r = (inr out, r') ->
        (Z.of_nat (length out) <= count)%Z)
    /\ (run (NaturalLanguageGenerator.generate count) r = (inr out, r') ->
        (Z.of_nat (length out) <= count)%Z)
    /\ (run (ToolsGenerator.generate count) r = (inr out, r') ->
        (Z.of_nat (length out) <= count)%Z).
Proof.
  intros count R G r out r' Hc.
  destruct (generate_length_ensured Hc) as (H1 & H2 & H3 & H4).
  split; [intros templates E; exact (Ensures_run (H1 templates) _ E)|].
  split; [intros E; exact (Ensures_run H2 _ E)|].
  split; [intros E; exact (Ensures_run H3 _ E)|].
  intros E; exact (Ensures_run H4 _ E).
Qed.

(** A run of the tools generator from the seed 7 with target count 20:
    the list is shorter than the target. *)
Lemma generate_at_most_count_witness :
  exists out r',
    run (ToolsGenerator.generate 20) (@seed_state _ Tape_RandomGen 7) = (inr out, r')
    /\ length out = 18
    /\ (Z.of_nat (length out) <= 20)%Z.
Proof.
  destruct tools_run_seed_7 as (out & E & L).
  exists out.
  exists (snd (run (ToolsGenerator.generate 20) (@seed_state _ Tape_RandomGen 7))).
  assert (E' : run (ToolsGenerator.generate 20) (@seed_state _ Tape_RandomGen 7)
               = (inr out,
                  snd (run (ToolsGenerator.generate 20) (@seed_state _ Tape_RandomGen 7))))
    by (rewrite <- E; apply surjective_pairing).
  split; [exact E'|]. split; [exact L|].
  exact (proj2 (proj2 (proj2 (@generate_at_most_count 20%Z (list Z) Tape_RandomGen
           (@seed_state _ Tape_RandomGen 7) out _ ltac:(lia)))) E').
Defined.

(** ** Templates without usable entries *)

Lemma single_for_shell_without_entries templates shell count :
  SingleCommandGenerator.collect_entries (get_or (dict_get shell templates) []) = [] ->
  SingleCommandGenerator._generate_for_shell templates shell count = Ret [].
Proof. intros H. unfold SingleCommandGenerator._generate_for_shell. now rewrite H. Qed.

Lemma single_regenerate_without_entries templates count (retries : nat) :
  SingleCommandGenerator.collect_entries (get_or (dict_get (py "bash") templates) []) = [] ->
  SingleCommandGenerator.regenerate templates retries count [] = Ret [].
Proof.
  intros H. induction retries as [|retries IH]; cbn [SingleCommandGenerator.regenerate].
  - reflexivity.
  - destruct (_ <? _)%Z; [|reflexivity].
    rewrite single_for_shell_without_entries by exact H.
    cbn [bind filter app]. exact IH.
Qed.

Lemma slice_to_nil {A : Type} (count : Z) : slice_to ([] : list A) count = [].
Proof. unfold slice_to. destruct (0 <=? count)%Z; apply firstn_nil. Qed.

Lemma single_cap_nil (count : Z) : SingleCommandGenerator.cap_single_char count [] = [].
Proof.
  unfold SingleCommandGenerator.cap_single_char. cbn [filter app length].
  destruct (_ <? _)%Z; [apply slice_to_nil|reflexivity].
Qed.

Lemma shuffle_nil {A : Type} : shuffle ([] : list A) = Ret [].
Proof. reflexivity. Qed.



(** ** Where the examples of a generated list come from *)

Lemma Ensures_conj {A : Type} (P Q : A -> Prop) (m : Rand A) :
  Ensures P m -> Ensures Q m -> Ensures (fun a => P a /\ Q a) m.
Proof.
  induction m as [a|e|k IH|n k IH]; intros H1 H2;
    inversion H1; inversion H2; subst; constructor; auto.
Qed.

Lemma Ensures_choices {A : Type} (P : A -> Prop) (population : list A)
      (weights : list float) :
  (forall a, In a population -> P a) -> Ensures P (choices population weights).
Proof.
  intros H. unfold choices.
  destruct (negb _); [constructor|].
  destruct population as [|d pop]; [constructor|].
  destruct (fleb _ _); [constructor|].
  destruct (negb (is_finite _)); [constructor|].
  apply Ensures_after. intros x. constructor. apply H.
  destruct (nth_in_or_default (bisect (accumulate weights)
                                 (fmul x (fadd (last (accumulate weights) fzero) fzero))
                                 0 (length (d :: pop) - 1)) (d :: pop) d) as [Hin | ->].
  - exact Hin.
  - now left.
Qed.

Lemma Ensures_fold_bind {S X : Type} (I : S -> Prop) (body : X -> S -> Rand S)
      (l : list X) :
  (forall x s, In x l -> I s -> Ensures I (body x s)) ->
  forall acc, Ensures I acc ->
    Ensures I (fold_left (fun acc x => s <- acc ;; body x s) l acc).
Proof.
  induction l as [|x l IH]; intros Hbody acc Hacc; [exact Hacc|].
  cbn [fold_left]. apply IH.
  - intros y s Hy. apply Hbody. now right.
  - apply Ensures_bind. eapply Ensures_mono; [|exact Hacc].
    intros s Hs. apply Hbody; [now left|exact Hs].
Qed.

Lemma shell_counts_shells (count : Z) (sc : str * Z) :
  In sc (shell_counts count) -> In (fst sc) shells.
Proof.
  intros H. unfold shells.
  rewrite <- (proj1 (shell_counts_keys count)). now apply in_map.
Qed.

Lemma bash_in_shells : In (py "bash") shells.
Proof. now left. Qed.

(** *** The chained generator *)

Lemma chained_create_fields (sh : str) (p : entry) (et : str) :
  Ensures (when_some (fun ex =>
             shell ex = sh /\ error_type ex = et
             /\ source ex = py "chained_pattern" /\ metadata ex = []
             /\ category ex = get_or (entry_category p) (py "chained")))
          (ChainedCommandGenerator._create_example_from_pattern sh p et).
Proof.
  unfold ChainedCommandGenerator._create_example_from_pattern.
  destruct (get_or (entry_correct p) []); [now constructor|].
  repeat (apply Ensures_after; intros ?).
  match goal with |- Ensures _ (match ?g with _ => _ end) => destruct g end;
    constructor; cbn; auto.
Qed.

Lemma chained_create_provenance (sh : str) (p : entry) (et : str) :
  In sh shells ->
  In et (map fst ChainedCommandGenerator.ERROR_DISTRIBUTION) ->
  In p (chained_patterns sh) ->
  Ensures (when_some chained_provenance)
          (ChainedCommandGenerator._create_example_from_pattern sh p et).
Proof.
  intros Hs Ht Hp.
  eapply Ensures_mono;
    [|apply (Ensures_conj (chained_create_fields sh p et)
                          (chained_paired sh p et))].
  intros [ex|] [Hf Hpair]; [|exact I]. cbn [when_some] in *.
  destruct Hf as (E1 & E2 & E3 & E4 & E5).
  unfold chained_provenance. rewrite E1, E2.
  split; [exact Hs|]. split; [exact E3|]. split; [exact Ht|]. split; [exact E4|].
  exists p. auto.
Qed.

Section ChainedForall.
Variable P : TrainingExample -> Prop.
Hypothesis create_ok :
  forall sh p et,
    In sh shells ->
    In et (map fst ChainedCommandGenerator.ERROR_DISTRIBUTION) ->
    In p (chained_patterns sh) ->
    Ensures (when_some P)
            (ChainedCommandGenerator._create_example_from_pattern sh p et).

Lemma chained_for_shell_Forall (sh : str) (count : Z) :
  In sh shells ->
  Ensures (Forall P) (ChainedCommandGenerator._generate_for_shell sh count).
Proof.
  intros Hs. unfold ChainedCommandGenerator._generate_for_shell. cbv zeta.
  apply Ensures_for_range with (I := Forall P); [|constructor].
  intros examples Hex. apply Ensures_bind.
  eapply Ensures_mono;
    [|apply Ensures_choices
        with (P := fun t => In t (map fst ChainedCommandGenerator.ERROR_DISTRIBUTION));
      auto].
  intros et Ht.
  assert (C : forall patterns,
             incl patterns (chained_patterns sh) ->
             Ensures (Forall P)
               (p <- choice patterns ;;
                example <-
                  ChainedCommandGenerator._create_example_from_pattern sh p et ;;
                match example with
                | Some ex => Ret (examples ++ [ex])
                | None => Ret examples
                end)).
  { intros patterns Hincl. apply Ensures_bind.
    eapply Ensures_mono; [|apply Ensures_choice with (P := fun p => In p patterns); auto].
    intros p Hp. apply Ensures_bind.
    eapply Ensures_mono; [|apply create_ok; [exact Hs|exact Ht|apply Hincl, Hp]].
    intros [ex|] Hx; constructor; [|exact Hex].
    apply Forall_app. split; [exact Hex|]. constructor; [exact Hx|constructor]. }
  unfold chained_patterns in C.
  repeat match goal with
         | |- Ensures _ (if ?b then _ else _) => destruct b
         end.
  - apply C. intros p Hp. apply in_or_app. now left.
  - apply C. intros p Hp. apply in_or_app. right. apply in_or_app. now left.
  - apply C. intros p Hp. apply in_or_app. right. apply in_or_app. now right.
  - apply C. intros p Hp. exact Hp.
  - now constructor.
Qed.

Lemma chained_regenerate_Forall (retries : nat) (count : Z) :
  forall examples, Forall P examples ->
    Ensures (Forall P) (ChainedCommandGenerator.regenerate retries count examples).
Proof.
  induction retries as [|retries IH]; intros examples H;
    cbn [ChainedCommandGenerator.regenerate].
  - now constructor.
  - destruct (_ <? _)%Z; [|now constructor].
    apply Ensures_bind.
    eapply Ensures_mono; [|apply chained_for_shell_Forall, bash_in_shells].
    intros extra Hextra. apply IH.
    apply Forall_app. split; [exact H|now apply Forall_filter_keep].
Qed.

Lemma chained_generate_Forall (count : Z) :
  Ensures (Forall P) (ChainedCommandGenerator.generate count).
Proof.
  unfold ChainedCommandGenerator.generate.
  apply Ensures_bind.
  eapply Ensures_mono;
    [|apply Ensures_fold_bind
        with (I := Forall P)
             (body := fun (sc : str * Z) examples =>
                        shell_examples <-
                          ChainedCommandGenerator._generate_for_shell (fst sc) (snd sc) ;;
                        Ret (examples ++ shell_examples))].
  - intros examples H. apply Ensures_bind.
    eapply Ensures_mono;
      [|apply chained_regenerate_Forall, Forall_filter_keep, H].
    intros l1 H1. apply Ensures_bind.
    eapply Ensures_mono; [|apply Ensures_shuffle_Forall, H1].
    intros l2 H2. constructor. now apply Forall_slice_to.
  - intros sc examples Hsc Hex. apply Ensures_bind.
    eapply Ensures_mono;
      [|apply chained_for_shell_Forall, (shell_counts_shells _ _ Hsc)].
    intros l Hl. constructor. apply Forall_app. now split.
  - constructor. constructor.
Qed.
End ChainedForall.

(** X5. Every example that the chained generator returns comes from the
    catalogs: its shell is one of the six, its error type a key of the
    error distribution, its source ["chained_pattern"], and its commands
    are built from one pattern that serves its shell, with one binding:
    the correct command is the pattern's correct template expanded, the
    incorrect command one of its wrong templates expanded alike or a
    corruption of the correct command. *)
Theorem chained_generate_provenance :
  forall (count : Z) (R : Type) (G : RandomGen R) (r : R)
         (out : list TrainingExample) (r' : R),
    run (ChainedCommandGenerator.generate count) r = (inr out, r') ->
    Forall chained_provenance out.
Proof.
  intros count R G r out r' E.
  exact (Ensures_run (chained_generate_Forall chained_create_provenance count) _ E).
Qed.

(** A run of the chained generator, target count 3, from the seed 1. *)
Lemma chained_generate_provenance_witness :
  exists out r',
    run (ChainedCommandGenerator.generate 3) (@seed_state _ Tape_RandomGen 1) = (inr out, r')
    /\ length out = 3
    /\ Forall chained_provenance out.
Proof.
  destruct chained_run_seed_1 as (out & E & L).
  exists out.
  exists (snd (run (ChainedCommandGenerator.generate 3) (@seed_state _ Tape_RandomGen 1))).
  assert (E' : run (ChainedCommandGenerator.generate 3) (@seed_state _ Tape_RandomGen 1)
               = (inr out,
                  snd (run (ChainedCommandGenerator.generate 3)
                           (@seed_state _ Tape_RandomGen 1))))
    by (rewrite <- E; apply surjective_pairing).
  split; [exact E'|]. split; [exact L|].
  exact (@chained_generate_provenance 3%Z (list Z) Tape_RandomGen
           (@seed_state _ Tape_RandomGen 1) out _ E').
Defined.

(** *** The tools generator *)

Lemma tools_create_fields (sh tool_category tool_name : str) (cmd : entry) :
  Ensures (when_some (fun ex =>
             shell ex = sh /\ error_type ex = py "tool_specific"
             /\ source ex = py "tools_pattern"
             /\ category ex = py "tools_" ++ tool_category
             /\ metadata ex = [(py "tool", tool_name)]))
          (ToolsGenerator._create_example sh tool_category tool_name cmd).
Proof.
  unfold ToolsGenerator._create_example.
  destruct (get_or (entry_correct cmd) []); [now constructor|].
  repeat (apply Ensures_after; intros ?).
  match goal with |- Ensures _ (if ?g then _ else _) => destruct g end;
    constructor; cbn; auto.
Qed.

Lemma tools_create_provenance (sh tool_category tool_name : str) (cmd : entry) :
  In sh shells ->
  In (tool_category, tool_name, cmd) ToolsGenerator.all_tools ->
  Ensures (when_some tools_provenance)
          (ToolsGenerator._create_example sh tool_category tool_name cmd).
Proof.
  intros Hs Hin.
  eapply Ensures_mono;
    [|apply (Ensures_conj (tools_create_fields sh tool_category tool_name cmd)
                          (tools_paired sh tool_category tool_name cmd))].
  intros [ex|] [Hf Hpair]; [|exact I]. cbn [when_some] in *.
  destruct Hf as (E1 & E2 & E3 & E4 & E5).
  unfold tools_provenance. rewrite E1.
  split; [exact Hs|]. split; [exact E3|]. split; [exact E2|].
  exists tool_category, tool_name, cmd. auto.
Qed.

Section ToolsForall.
Variable P : TrainingExample -> Prop.
Hypothesis create_ok :
  forall sh tool_category tool_name cmd,
    In sh shells ->
    In (tool_category, tool_name, cmd) ToolsGenerator.all_tools ->
    Ensures (when_some P) (ToolsGenerator._create_example sh tool_category tool_name cmd).

Lemma tools_draw_example_ok (sh : str) :
  In sh shells -> Ensures (when_some P) (ToolsGenerator.draw_example sh).
Proof.
  intros Hs. unfold ToolsGenerator.draw_example. apply Ensures_bind.
  eapply Ensures_mono;
    [|apply Ensures_choice with (P := fun x => In x ToolsGenerator.all_tools); auto].
  intros [[c t] cmd] Hin. now apply create_ok.
Qed.

Lemma tools_regenerate_Forall (retries : nat) (count : Z) :
  forall examples, Forall P examples ->
    Ensures (Forall P) (ToolsGenerator.regenerate retries count examples).
Proof.
  induction retries as [|retries IH]; intros examples H; cbn [ToolsGenerator.regenerate].
  - now constructor.
  - destruct (_ <? _)%Z; [|now constructor].
    apply Ensures_bind.
    eapply Ensures_mono; [|apply Ensures_for_range with (I := Forall P)].
    + intros l Hl. now apply IH.
    + intros s Hs. apply Ensures_bind.
      eapply Ensures_mono; [|apply tools_draw_example_ok, bash_in_shells].
      intros [ex|] Hx; [|now constructor].
      destruct (not_null ex); constructor; [|exact Hs].
      apply Forall_app. split; [exact Hs|]. constructor; [exact Hx|constructor].
    + exact H.
Qed.

Lemma tools_generate_Forall (count : Z) :
  Ensures (Forall P) (ToolsGenerator.generate count).
Proof.
  unfold ToolsGenerator.generate.
  apply Ensures_bind.
  eapply Ensures_mono;
    [|apply Ensures_fold_bind
        with (I := Forall P)
             (body := fun (sc : str * Z) examples =>
                        for_range (Z.to_nat (snd sc))
                          (fun examples =>
                             example <- ToolsGenerator.draw_example (fst sc) ;;
                             match example with
                             | Some ex => Ret (examples ++ [ex])
                             | None => Ret examples
                             end)
                          examples)].
  - intros examples H. apply Ensures_bind.
    eapply Ensures_mono;
      [|apply tools_regenerate_Forall, Forall_filter_keep, H].
    intros l1 H1. apply Ensures_bind.
    eapply Ensures_mono; [|apply Ensures_shuffle_Forall, H1].
    intros l2 H2. apply Ensures_bind.
    eapply Ensures_mono; [|apply Ensures_shuffle_Forall, tools_cap_Forall, H2].
    intros l3 H3. constructor. now apply Forall_slice_to.
  - intros sc examples Hsc Hex.
    apply Ensures_for_range with (I := Forall P); [|exact Hex].
    intros s Hs. apply Ensures_bind.
    eapply Ensures_mono;
      [|apply tools_draw_example_ok, (shell_counts_shells _ _ Hsc)].
    intros [ex|] Hx; constructor; [|exact Hs].
    apply Forall_app. split; [exact Hs|]. constructor; [exact Hx|constructor].
  - constructor. constructor.
Qed.
End ToolsForall.

(** X6. Every example that the tools generator returns comes from the
    [TOOLS] catalog: its shell is one of the six, its error type
    ["tool_specific"], its source ["tools_pattern"], its category and
    metadata name a catalog category and tool, and its commands are
    built from one command entry of that tool with one binding. *)
Theorem tools_generate_provenance :
  forall (count : Z) (R : Type) (G : RandomGen R) (r : R)
         (out : list TrainingExample) (r' : R),
    run (ToolsGenerator.generate count) r = (inr out, r') ->
    Forall tools_provenance out.
Proof.
  intros count R G r out r' E.
  exact (Ensures_run (tools_generate_Forall tools_create_provenance count) _ E).
Qed.

(** A run of the tools generator, target count 20, from the seed 7. *)
Lemma tools_generate_provenance_witness :
  exists out r',
    run (ToolsGenerator.generate 20) (@seed_state _ Tape_RandomGen 7) = (inr out, r')
    /\ length out = 18
    /\ Forall tools_provenance out.
Proof.
  destruct tools_run_seed_7 as (out & E & L).
  exists out.
  exists (snd (run (ToolsGenerator.generate 20) (@seed_state _ Tape_RandomGen 7))).
  assert (E' : run (ToolsGenerator.generate 20) (@seed_state _ Tape_RandomGen 7)
               = (inr out,
                  snd (run (ToolsGenerator.generate 20) (@seed_state _ Tape_RandomGen 7))))
    by (rewrite <- E; apply surjective_pairing).
  split; [exact E'|]. split; [exact L|].
  exact (@tools_generate_provenance 20%Z (list Z) Tape_RandomGen
           (@seed_state _ Tape_RandomGen 7) out _ E').
Defined.

(** *** The single-command generator *)

Lemma collect_entries_category (template : list (str * SingleCommandGenerator.yaml_value))
      (c : str) (e : entry) :
  In (c, e) (SingleCommandGenerator.collect_entries template) ->
  In c SingleCommandGenerator.CATEGORIES /\ entry_correct e <> None.
Proof.
  unfold SingleCommandGenerator.collect_entries. rewrite in_flat_map.
  intros (cat & Hcat & Hin).
  destruct (dict_get cat template) as [[items|]|]; try contradiction.
  rewrite in_flat_map in Hin. destruct Hin as ([e0|] & _ & Hin); [|contradiction].
  destruct (entry_correct e0) eqn:Ec; [|contradiction].
  destruct Hin as [Heq|[]]. injection Heq as <- <-.
  split; [exact Hcat|congruence].
Qed.

Lemma single_create_fields (sh cat : str) (e : entry) :
  Ensures (when_some (fun ex =>
             shell ex = sh /\ category ex = cat
             /\ source ex = py "template"
             /\ metadata ex = [(py "template", get_or (entry_correct e) [])]
             /\ In (error_type ex) (map fst SingleCommandGenerator.ERROR_DISTRIBUTION)))
          (SingleCommandGenerator._create_example_from_entry sh cat e).
Proof.
  unfold SingleCommandGenerator._create_example_from_entry.
  destruct (get_or (entry_correct e) []); [now constructor|].
  apply Ensures_after. intros variables. apply Ensures_bind.
  eapply Ensures_mono;
    [|apply Ensures_choices
        with (P := fun t => In t (map fst SingleCommandGenerator.ERROR_DISTRIBUTION));
      auto].
  intros et Ht.
  repeat (apply Ensures_after; intros ?).
  match goal with |- Ensures _ (if ?g then _ else _) => destruct g end;
    constructor; cbn; auto.
Qed.

Section SingleForall.
Variable templates : SingleCommandGenerator.templates_t.

Lemma single_create_provenance (sh cat : str) (e : entry) :
  In sh shells ->
  In (cat, e)
     (SingleCommandGenerator.collect_entries (get_or (dict_get sh templates) [])) ->
  Ensures (when_some (single_provenance templates))
          (SingleCommandGenerator._create_example_from_entry sh cat e).
Proof.
  intros Hs Hin.
  eapply Ensures_mono;
    [|apply (Ensures_conj (single_create_fields sh cat e) (single_paired sh cat e))].
  intros [ex|] [Hf Hpair]; [|exact I]. cbn [when_some] in *.
  destruct Hf as (E1 & E2 & E3 & E4 & E5).
  unfold single_provenance. rewrite E1, E2.
  split; [exact Hs|]. split; [exact E3|]. split; [exact E5|].
  split; [exact (proj1 (collect_entries_category _ _ _ Hin))|].
  exists e. auto.
Qed.

Variable P : TrainingExample -> Prop.
Hypothesis create_ok :
  forall sh cat e,
    In sh shells ->
    In (cat, e)
       (SingleCommandGenerator.collect_entries (get_or (dict_get sh templates) [])) ->
    Ensures (when_some P) (SingleCommandGenerator._create_example_from_entry sh cat e).

Lemma single_for_shell_Forall (sh : str) (count : Z) :
  In sh shells ->
  Ensures (Forall P) (SingleCommandGenerator._generate_for_shell templates sh count).
Proof.
  intros Hs. unfold SingleCommandGenerator._generate_for_shell. cbv zeta.
  destruct (SingleCommandGenerator.collect_entries (get_or (dict_get sh templates) []))
    as [|e0 entries] eqn:Ec; [constructor; constructor|].
  rewrite <- Ec.
  apply Ensures_for_range with (I := Forall P); [|constructor].
  intros examples Hex. apply Ensures_bind.
  eapply Ensures_mono;
    [|apply Ensures_choice
        with (P := fun x => In x (SingleCommandGenerator.collect_entries
                                    (get_or (dict_get sh templates) [])));
      auto].
  intros [cat e] Hin. apply Ensures_bind.
  eapply Ensures_mono; [|apply create_ok; [exact Hs|exact Hin]].
  intros [ex|] Hx; constructor; [|exact Hex].
  apply Forall_app. split; [exact Hex|]. constructor; [exact Hx|constructor].
Qed.

Lemma single_regenerate_Forall (retries : nat) (count : Z) :
  forall examples, Forall P examples ->
    Ensures (Forall P) (SingleCommandGenerator.regenerate templates retries count examples).
Proof.
  induction retries as [|retries IH]; intros examples H;
    cbn [SingleCommandGenerator.regenerate].
  - now constructor.
  - destruct (_ <? _)%Z; [|now constructor].
    apply Ensures_bind.
    eapply Ensures_mono; [|apply single_for_shell_Forall, bash_in_shells].
    intros extra Hextra. apply IH.
    apply Forall_app. split; [exact H|now apply Forall_filter_keep].
Qed.

Lemma single_generate_Forall (count : Z) :
  Ensures (Forall P) (SingleCommandGenerator.generate templates count).
Proof.
  unfold SingleCommandGenerator.generate.
  apply Ensures_bind.
  eapply Ensures_mono;
    [|apply Ensures_fold_bind
        with (I := Forall P)
             (body := fun (sc : str * Z) examples =>
                        if dict_mem (fst sc) templates then
                          shell_examples <-
                            SingleCommandGenerator._generate_for_shell
                              templates (fst sc) (snd sc) ;;
                          Ret (examples ++ shell_examples)
                        else Ret examples)].
  - intros examples H. apply Ensures_bind.
    eapply Ensures_mono;
      [|apply single_regenerate_Forall, Forall_filter_keep, H].
    intros l1 H1. apply Ensures_bind.
    eapply Ensures_mono; [|apply Ensures_shuffle_Forall, H1].
    intros l2 H2. apply Ensures_bind.
    eapply Ensures_mono; [|apply Ensures_shuffle_Forall, single_cap_Forall, H2].
    intros l3 H3. constructor. now apply Forall_slice_to.
  - intros sc examples Hsc Hex.
    destruct (dict_mem (fst sc) templates); [|now constructor].
    apply Ensures_bind.
    eapply Ensures_mono;
      [|apply single_for_shell_Forall, (shell_counts_shells _ _ Hsc)].
    intros l Hl. constructor. apply Forall_app. now split.
  - constructor. constructor.
Qed.
End SingleForall.

(** X7. Every example that the single-command generator returns comes from
    the loaded templates: its shell is one of the six, its category one
    of the known categories, its error type a key of the error
    distribution, its source ["template"], and its commands are built,
    with one binding, from an entry listed under that category in the
    template of that shell, whose correct template the metadata
    records. *)
Theorem single_generate_provenance :
  forall templates (count : Z) (R : Type) (G : RandomGen R) (r : R)
         (out : list TrainingExample) (r' : R),
    run (SingleCommandGenerator.generate templates count) r = (inr out, r') ->
    Forall (single_provenance templates) out.
Proof.
  intros templates count R G r out r' E.
  exact (Ensures_run (@single_generate_Forall templates _
                        (single_create_provenance templates) count) _ E).
Qed.

Lemma single_run_seed_3 :
  exists out,
    fst (run (SingleCommandGenerator.generate single_templates_example 4)
             (@seed_state _ Tape_RandomGen 3)) = inr out
    /\ length out = 4.
Proof. vm_compute. eexists. split; reflexivity. Qed.

(** A run on a template with one bash category, target count 4, from
    the seed 3. *)
Lemma single_generate_provenance_witness :
  exists out r',
    run (SingleCommandGenerator.generate single_templates_example 4)
        (@seed_state _ Tape_RandomGen 3) = (inr out, r')
    /\ length out = 4
    /\ Forall (single_provenance single_templates_example) out.
Proof.
  destruct single_run_seed_3 as (out & E & L).
  exists out.
  exists (snd (run (SingleCommandGenerator.generate single_templates_example 4)
                   (@seed_state _ Tape_RandomGen 3))).
  assert (E' : run (SingleCommandGenerator.generate single_templates_example 4)
                   (@seed_state _ Tape_RandomGen 3)
               = (inr out,
                  snd (run (SingleCommandGenerator.generate single_templates_example 4)
                           (@seed_state _ Tape_RandomGen 3))))
    by (rewrite <- E; apply surjective_pairing).
  split; [exact E'|]. split; [exact L|].
  exact (@single_generate_provenance single_templates_example 4%Z (list Z) Tape_RandomGen
           (@seed_state _ Tape_RandomGen 3) out _ E').
Defined.

(** *** The natural-language generator *)

Lemma dict_get_In {V : Type} (k : str) (d : list (str * V)) (v : V) :
  dict_get k d = Some v -> In (k, v) d.
Proof.
  induction d as [|[k' v'] d IH]; cbn [dict_get]; [discriminate|].
  destruct (str_eqb k k') eqn:E.
  - intros [= ->]. apply str_eqb_eq in E. subst. now left.
  - intros H. right. now apply IH.
Qed.

Lemma nl_typed_patterns_incl (sh nl_type : str) :
  incl (get_or (dict_get nl_type
                  (get_or (dict_get sh NaturalLanguageGenerator.NL_PATTERNS)
                     (get_or (dict_get (py "bash") NaturalLanguageGenerator.NL_PATTERNS) [])))
               [])
       (nl_pool sh).
Proof.
  intros x Hx. unfold nl_pool. apply in_or_app. left.
  destruct (dict_get nl_type _) as [v|] eqn:E; [|contradiction].
  apply in_flat_map. exists (nl_type, v). split; [|exact Hx].
  now apply dict_get_In.
Qed.

Lemma nl_shared_pools_incl (sh : str) :
  incl NaturalLanguageGenerator.GIT_PATTERNS (nl_pool sh)
  /\ incl NaturalLanguageGenerator.DOCKER_PATTERNS (nl_pool sh)
  /\ incl NaturalLanguageGenerator.K8S_PATTERNS (nl_pool sh)
  /\ incl NaturalLanguageGenerator.WORKFLOW_PATTERNS (nl_pool sh)
  /\ incl NaturalLanguageGenerator.DEBUG_PATTERNS (nl_pool sh).
Proof.
  unfold nl_pool, incl. repeat split; intros x Hx; rewrite !in_app_iff; tauto.
Qed.

Lemma maybe_prepend_incl (threshold : float) (pool tp all : list (str * str)) :
  incl pool all -> incl tp all ->
  Ensures (fun tp' => incl tp' all)
          (NaturalLanguageGenerator.maybe_prepend threshold pool tp).
Proof.
  intros Hp Ht. unfold NaturalLanguageGenerator.maybe_prepend.
  apply Ensures_after. intros x. destruct (fltb x threshold); constructor.
  - now apply incl_app.
  - exact Ht.
Qed.

Lemma nl_for_shell_provenance (sh : str) (count : Z) :
  In sh shells ->
  Ensures (Forall nl_provenance) (NaturalLanguageGenerator._generate_for_shell sh count).
Proof.
  intros Hs. unfold NaturalLanguageGenerator._generate_for_shell. cbv zeta.
  apply Ensures_for_range with (I := Forall nl_provenance); [|constructor].
  intros examples Hex. apply Ensures_bind.
  eapply Ensures_mono;
    [|apply Ensures_choices
        with (P := fun t => In t (map fst NaturalLanguageGenerator.NL_TYPE_DISTRIBUTION));
      auto].
  intros nl_type Ht.
  pose proof (nl_typed_patterns_incl sh nl_type) as Htyped.
  pose proof (nl_typed_patterns_incl sh (py "imperative")) as Himp.
  destruct (nl_shared_pools_incl sh) as (Hgit & Hdocker & Hk8s & Hwork & Hdebug).
  apply Ensures_bind.
  eapply Ensures_mono with (P := fun tp => incl tp (nl_pool sh)).
  - intros tp Htp.
    match goal with
    | |- Ensures _ (match ?sel with [] => _ | _ :: _ => _ end) =>
        assert (Hsel : incl sel (nl_pool sh))
          by (destruct tp; [exact Himp|exact Htp]);
        destruct sel as [|x0 rest]
    end; [now constructor|].
    apply Ensures_bind.
    eapply Ensures_mono;
      [|apply Ensures_choice with (P := fun x => In x (x0 :: rest)); auto].
    intros [nl_text command] Hin. cbv beta iota.
    apply Ensures_bind_possible. intros variables Hv.
    apply Ensures_bind_possible. intros nl_text' Hnl.
    constructor. apply Forall_app. split; [exact Hex|].
    constructor; [|constructor].
    unfold nl_provenance. cbn [shell source category error_type metadata
                                 correct_command incorrect_command].
    repeat (split; [auto; fail|]).
    exists nl_text, command, variables. auto.
  - destruct (_ && _); [|constructor; exact Htyped].
    apply Ensures_bind.
    eapply Ensures_mono; [|apply maybe_prepend_incl; [exact Hgit|exact Htyped]].
    intros tp1 H1. apply Ensures_bind.
    eapply Ensures_mono; [|apply maybe_prepend_incl; [exact Hdocker|exact H1]].
    intros tp2 H2. apply Ensures_bind.
    eapply Ensures_mono; [|apply maybe_prepend_incl; [exact Hk8s|exact H2]].
    intros tp3 H3. apply Ensures_bind.
    eapply Ensures_mono; [|apply maybe_prepend_incl; [exact Hwork|exact H3]].
    intros tp4 H4. apply maybe_prepend_incl; [exact Hdebug|exact H4].
Qed.

Lemma nl_generate_provenance_ensured (count : Z) :
  Ensures (Forall nl_provenance) (NaturalLanguageGenerator.generate count).
Proof.
  unfold NaturalLanguageGenerator.generate.
  apply Ensures_bind.
  eapply Ensures_mono;
    [|apply Ensures_fold_bind
        with (I := Forall nl_provenance)
             (body := fun (sc : str * Z) examples =>
                        shell_examples <-
                          NaturalLanguageGenerator._generate_for_shell (fst sc) (snd sc) ;;
                        Ret (examples ++ shell_examples))].
  - intros examples H. apply Ensures_bind.
    eapply Ensures_mono; [|apply Ensures_shuffle_Forall, Forall_filter_keep, H].
    intros l2 H2. constructor. now apply Forall_slice_to.
  - intros sc examples Hsc Hex. apply Ensures_bind.
    eapply Ensures_mono;
      [|apply nl_for_shell_provenance, (shell_counts_shells _ _ Hsc)].
    intros l Hl. constructor. apply Forall_app. now split.
  - constructor. constructor.
Qed.

(** X8. Every example that the natural-language generator returns pairs a
    phrase with a command of one catalog entry: its shell is one of the
    six, its category ["natural_language"], its source ["nl_pattern"],
    its error type a key of the type distribution; the command is the
    entry's command and the phrase a variation of the entry's phrase,
    both expanded with one binding drawn for the two together. *)
Theorem nl_generate_provenance :
  forall (count : Z) (R : Type) (G : RandomGen R) (r : R)
         (out : list TrainingExample) (r' : R),
    run (NaturalLanguageGenerator.generate count) r = (inr out, r') ->
    Forall nl_provenance out.
Proof.
  intros count R G r out r' E.
  exact (Ensures_run (nl_generate_provenance_ensured count) _ E).
Qed.

Lemma nl_run_seed_5 :
  exists out,
    fst (run (NaturalLanguageGenerator.generate 3) (@seed_state _ Tape_RandomGen 5))
    = inr out
    /\ length out = 3.
Proof. vm_compute. eexists. split; reflexivity. Qed.

(** A run of the natural-language generator, target count 3, from the
    seed 5. *)
Lemma nl_generate_provenance_witness :
  exists out r',
    run (NaturalLanguageGenerator.generate 3) (@seed_state _ Tape_RandomGen 5)
    = (inr out, r')
    /\ length out = 3
    /\ Forall nl_provenance out.
Proof.
  destruct nl_run_seed_5 as (out & E & L).
  exists out.
  exists (snd (run (NaturalLanguageGenerator.generate 3) (@seed_state _ Tape_RandomGen 5))).
  assert (E' : run (NaturalLanguageGenerator.generate 3) (@seed_state _ Tape_RandomGen 5)
               = (inr out,
                  snd (run (NaturalLanguageGenerator.generate 3)
                           (@seed_state _ Tape_RandomGen 5))))
    by (rewrite <- E; apply surjective_pairing).
  split; [exact E'|]. split; [exact L|].
  exact (@nl_generate_provenance 3%Z (list Z) Tape_RandomGen
           (@seed_state _ Tape_RandomGen 5) out _ E').
Defined.

(** ** Computations that never raise *)

Lemma Always_strengthen {A : Type} (P Q : A -> Prop) (m : Rand A) :
  Always Q m -> Ensures P m -> Always (fun a => Q a /\ P a) m.
Proof.
  intros H; induction H as [a Ha|k Hk IH|n k Hn Hk IH]; intros HE;
    inversion HE; subst; constructor; auto.
Qed.

Lemma Always_after {A B : Type} (Q : A -> Prop) (P : B -> Prop) (m : Rand A)
      (f : A -> Rand B) :
  Always Q m -> (forall a, Q a -> Always P (f a)) -> Always P (bind m f).
Proof.
  intros Hm Hf. apply Always_bind. eapply Always_mono; [|exact Hm]. exact Hf.
Qed.

Lemma Always_for_range {S : Type} (I : S -> Prop) (n : nat) (body : S -> Rand S) :
  (forall s, I s -> Always I (body s)) ->
  forall s, I s -> Always I (for_range n body s).
Proof.
  intros Hbody; induction n as [|n IH]; intros s Hs; simpl.
  - now constructor.
  - eapply Always_after; [apply Hbody, Hs|]. auto.
Qed.

Lemma Always_fold_bind {S X : Type} (I : S -> Prop) (body : X -> S -> Rand S)
      (l : list X) :
  (forall x s, In x l -> I s -> Always I (body x s)) ->
  forall acc, Always I acc ->
    Always I (fold_left (fun acc x => s <- acc ;; body x s) l acc).
Proof.
  induction l as [|x l IH]; intros Hbody acc Hacc; [exact Hacc|].
  cbn [fold_left]. apply IH.
  - intros y s Hy. apply Hbody. now right.
  - eapply Always_after; [exact Hacc|].
    intros s Hs. apply Hbody; [now left|exact Hs].
Qed.

Lemma Always_random (P : float -> Prop) :
  (forall k, (0 <= k < two53)%Z -> P (of_frac53 k)) -> Always P random.
Proof. intros H. constructor. intros x Hx. constructor. now apply H. Qed.

Lemma Always_choice {A : Type} (P : A -> Prop) (seq : list A) :
  seq <> [] -> (forall a, In a seq -> P a) -> Always P (choice seq).
Proof.
  intros Hne H. destruct seq as [|d seq']; [contradiction|].
  unfold choice. constructor.
  - cbn [length]. lia.
  - intros x Hx. constructor. apply H. apply nth_In. lia.
Qed.

Lemma Always_choices {A : Type} (P : A -> Prop) (population : list A)
      (weights : list float) :
  population <> [] ->
  (length (accumulate weights) =? length population) = true ->
  fleb (fadd (last (accumulate weights) fzero) fzero) fzero = false ->
  is_finite (fadd (last (accumulate weights) fzero) fzero) = true ->
  (forall a, In a population -> P a) ->
  Always P (choices population weights).
Proof.
  intros Hne Hlen Hpos Hfin H. unfold choices.
  rewrite Hlen. cbn [negb].
  destruct population as [|d pop]; [contradiction|].
  rewrite Hpos, Hfin. cbn [negb].
  apply Always_after with (Q := fun _ => True); [now apply Always_random|].
  intros x _. constructor. apply H.
  destruct (nth_in_or_default (bisect (accumulate weights)
                                 (fmul x (fadd (last (accumulate weights) fzero) fzero))
                                 0 (length (d :: pop) - 1)) (d :: pop) d) as [Hin | ->].
  - exact Hin.
  - now left.
Qed.

Lemma Returns_shuffle_from {A : Type} (i : nat) (x : list A) :
  Returns (shuffle_from i x).
Proof.
  unfold Returns. revert x; induction i as [|i IH]; intros x; cbn [shuffle_from].
  - now constructor.
  - constructor; [lia|]. intros j _. apply IH.
Qed.

Lemma Returns_shuffle {A : Type} (x : list A) : Returns (shuffle x).
Proof. apply Returns_shuffle_from. Qed.

(** *** The weighted selections *)

Lemma select_nl_type_always :
  Always (fun t => In t (map fst NaturalLanguageGenerator.NL_TYPE_DISTRIBUTION))
         NaturalLanguageGenerator._select_nl_type.
Proof. apply Always_choices; try reflexivity; try discriminate; auto. Qed.

(** X9. The four weighted selections never raise, and each returns a key of
    its table: [select_shell] a shell of [SHELL_WEIGHTS], the two
    [_select_error_type] a key of their [ERROR_DISTRIBUTION],
    [_select_nl_type] a key of [NL_TYPE_DISTRIBUTION]. *)
Theorem weighted_selections_return_keys :
  Always (fun s => In s shells) select_shell
  /\ Always (fun t => In t (map fst SingleCommandGenerator.ERROR_DISTRIBUTION))
            SingleCommandGenerator._select_error_type
  /\ Always (fun t => In t (map fst ChainedCommandGenerator.ERROR_DISTRIBUTION))
            ChainedCommandGenerator._select_error_type
  /\ Always (fun t => In t (map fst NaturalLanguageGenerator.NL_TYPE_DISTRIBUTION))
            NaturalLanguageGenerator._select_nl_type.
Proof.
  split; [|split; [|split; [|exact select_nl_type_always]]];
    apply Always_choices; try reflexivity; try discriminate; auto.
Qed.

(** *** The binding of a template *)

Lemma common_variables_nonempty (k : str) (values : list str) :
  dict_get k COMMON_VARIABLES = Some values -> values <> [].
Proof.
  intros H. apply dict_get_In in H.
  assert (F : Forall (fun kv => snd kv <> []) COMMON_VARIABLES).
  { apply Forall_forall. intros kv Hin.
    assert (C : forallb (fun kv : str * list str =>
                           match snd kv with [] => false | _ :: _ => true end)
                        COMMON_VARIABLES = true) by (vm_compute; reflexivity).
    rewrite forallb_forall in C. specialize (C kv Hin).
    destruct (snd kv); [discriminate|discriminate]. }
  rewrite Forall_forall in F. exact (F _ H).
Qed.

Lemma get_random_variable_ok (k : str) :
  Always (fun v => value_ok (k, v)) (get_random_variable k).
Proof.
  unfold get_random_variable, value_ok. cbn [fst snd].
  destruct (dict_get k COMMON_VARIABLES) as [values|] eqn:E.
  - apply Always_choice; [now apply (common_variables_nonempty k)|auto].
  - now constructor.
Qed.

Lemma dict_mem_true_In {V : Type} (k : str) (d : list (str * V)) :
  dict_mem k d = true -> In k (map fst d).
Proof.
  unfold dict_mem. destruct (dict_get k d) as [v|] eqn:E; [|discriminate].
  intros _. apply dict_get_In in E. now apply (in_map fst) in E.
Qed.

Lemma extract_fold_extracted (l : list str) :
  forall done acc,
    Always (extracted done) acc ->
    Always (extracted (done ++ l)) (fold_left extract_step l acc).
Proof.
  induction l as [|p l IH]; intros done acc Hacc.
  - rewrite app_nil_r. exact Hacc.
  - cbn [fold_left].
    replace (done ++ p :: l) with ((done ++ [p]) ++ l)
      by (rewrite <- app_assoc; reflexivity).
    apply IH. unfold extract_step.
    eapply Always_after; [exact Hacc|].
    intros vars (Hk & Hn & Hv).
    destruct (dict_mem p vars) eqn:Em.
    + constructor. split; [|now split].
      intros k. rewrite Hk, in_app_iff. cbn [In].
      split; [auto|]. intros [H|[<-|[]]]; [exact H|].
      apply Hk. now apply dict_mem_true_In.
    + eapply Always_after; [apply get_random_variable_ok|].
      intros v Hval. constructor. split; [|split].
      * intros k. rewrite map_app, !in_app_iff, Hk. cbn [map fst In]. tauto.
      * rewrite map_app. cbn [map fst].
        apply NoDup_app; [exact Hn|repeat constructor; intros []|].
        intros k Hin [<-|[]]. now apply (dict_mem_false_not_In _ _ Em).
      * apply Forall_app. split; [exact Hv|]. constructor; [exact Hval|constructor].
Qed.

Lemma extract_variables_always (template : str) :
  Always (binding_of template) (extract_variables template).
Proof.
  rewrite extract_variables_fold.
  apply (@extract_fold_extracted (findall_placeholders template) [] (Ret [])).
  constructor. split; [|split].
  - intros k. reflexivity.
  - constructor.
  - constructor.
Qed.

(** X10. [_extract_variables] never raises, and the binding it returns has
    exactly the placeholder names of the template as keys, each once,
    each bound to a value listed for it in [COMMON_VARIABLES], or to the
    name itself when the name is not listed. *)
Theorem extract_variables_binding :
  forall (template : str) (R : Type) (G : RandomGen R) (r : R),
  exists variables r',
    run (extract_variables template) r = (inr variables, r')
    /\ binding_of template variables.
Proof.
  intros template R G r.
  exact (Always_run (extract_variables_always template) r).
Qed.

(** *** The natural-language generator never raises *)

Lemma add_nl_variation_always (text nl_type : str) :
  Always (fun out => exists pre suf, out = pre ++ text ++ suf)
         (NaturalLanguageGenerator._add_nl_variation text nl_type).
Proof.
  unfold NaturalLanguageGenerator._add_nl_variation. cbv zeta.
  apply Always_after
    with (Q := fun v : str -> str => exists pre suf, forall t, v t = pre ++ t ++ suf).
  - unfold NaturalLanguageGenerator.variations. cbn [dict_get].
    repeat match goal with
           | |- context [if ?b then _ else _] => destruct b
           end;
      cbn [get_or];
      (apply Always_choice; [discriminate|]);
      intros v Hin; cbn [In] in Hin;
      repeat (destruct Hin as [<-|Hin];
              [first [ exists [], []; intros t; now rewrite app_nil_r
                     | eexists; exists []; intros t; now rewrite app_nil_r
                     | exists []; eexists; intros t; reflexivity ]|]);
      contradiction.
  - intros v (pre & suf & Hv). constructor. exists pre, suf. apply Hv.
Qed.

(** X11. [_add_nl_variation] never raises, and it only adds words around the
    text: the result is the text with a prefix and a suffix, both
    possibly empty. *)
Theorem add_nl_variation_keeps_text :
  forall (text nl_type : str) (R : Type) (G : RandomGen R) (r : R),
  exists out r',
    run (NaturalLanguageGenerator._add_nl_variation text nl_type) r = (inr out, r')
    /\ exists pre suf, out = pre ++ text ++ suf.
Proof.
  intros text nl_type R G r.
  exact (Always_run (add_nl_variation_always text nl_type) r).
Qed.

Lemma maybe_prepend_returns (threshold : float) (pool tp : list (str * str)) :
  Returns (NaturalLanguageGenerator.maybe_prepend threshold pool tp).
Proof.
  unfold Returns, NaturalLanguageGenerator.maybe_prepend.
  apply Always_after with (Q := fun _ => True); [now apply Always_random|].
  intros x _. destruct (fltb x threshold); now constructor.
Qed.

Lemma Returns_after {A B : Type} (m : Rand A) (f : A -> Rand B) :
  Returns m -> (forall a, Returns (f a)) -> Returns (bind m f).
Proof. intros Hm Hf. eapply Always_after; [exact Hm|]. intros a _. apply Hf. Qed.

Lemma Always_Returns {A : Type} (P : A -> Prop) (m : Rand A) :
  Always P m -> Returns m.
Proof. apply Always_mono. auto. Qed.

Lemma nl_for_shell_returns (sh : str) (count : Z) :
  Returns (NaturalLanguageGenerator._generate_for_shell sh count).
Proof.
  unfold Returns, NaturalLanguageGenerator._generate_for_shell. cbv zeta.
  apply Always_for_range with (I := fun _ => True); [|exact I].
  intros examples _.
  apply Returns_after; [exact (Always_Returns select_nl_type_always)|].
  intros nl_type. apply Returns_after.
  - destruct (_ && _); [|now constructor].
    repeat (apply Returns_after; [apply maybe_prepend_returns|intros ?]).
    apply maybe_prepend_returns.
  - intros tp.
    match goal with
    | |- Returns (match ?sel with [] => _ | _ :: _ => _ end) =>
        destruct sel as [|x0 rest]
    end; [now constructor|].
    apply Returns_after.
    + apply Always_choice; [discriminate|auto].
    + intros [nl_text command]. cbv beta iota.
      apply Returns_after;
        [exact (Always_Returns (extract_variables_always _))|].
      intros variables.
      apply Returns_after;
        [exact (Always_Returns (add_nl_variation_always _ _))|].
      intros nl_text'. now constructor.
Qed.

Lemma nl_generate_returns (count : Z) :
  Returns (NaturalLanguageGenerator.generate count).
Proof.
  unfold NaturalLanguageGenerator.generate.
  apply Returns_after.
  - apply Always_fold_bind
      with (I := fun _ : list TrainingExample => True)
           (body := fun (sc : str * Z) examples =>
                      shell_examples <-
                        NaturalLanguageGenerator._generate_for_shell (fst sc) (snd sc) ;;
                      Ret (examples ++ shell_examples)).
    + intros sc examples _ _.
      apply Returns_after; [apply nl_for_shell_returns|].
      intros l. now constructor.
    + now constructor.
  - intros examples. cbv zeta.
    apply Returns_after; [apply Returns_shuffle|].
    intros l. now constructor.
Qed.


(** ** A removed space is a single-character change *)

Lemma merged_tokens_head (a b : str) (rest : list str) :
  merged_tokens (a :: b :: rest) 0 = (a ++ b) :: rest.
Proof. reflexivity. Qed.

Lemma merged_tokens_cons (a : str) (parts : list str) (i : nat) :
  merged_tokens (a :: parts) (S i) = a :: merged_tokens parts i.
Proof. reflexivity. Qed.

Lemma join_cons2 (sep a b : str) (rest : list str) :
  join sep (a :: b :: rest) = a ++ sep ++ join sep (b :: rest).
Proof. reflexivity. Qed.

Lemma join_merged (parts : list str) :
  forall i, i + 1 < length parts ->
  exists l1 l2,
    join (py " ") parts = l1 ++ " "%char :: l2
    /\ join (py " ") (merged_tokens parts i) = l1 ++ l2.
Proof.
  induction parts as [|a parts IH]; intros i Hi; [cbn [length] in Hi; lia|].
  destruct i as [|i].
  - destruct parts as [|b rest]; [cbn [length] in Hi; lia|].
    exists a, (join (py " ") (b :: rest)).
    split; [reflexivity|].
    rewrite merged_tokens_head.
    destruct rest as [|c rest]; [reflexivity|].
    rewrite !join_cons2. rewrite <- app_assoc. reflexivity.
  - cbn [length] in Hi.
    destruct (IH i ltac:(lia)) as (l1 & l2 & E1 & E2).
    exists (a ++ py " " ++ l1), l2.
    rewrite merged_tokens_cons.
    assert (Hlen : length (merged_tokens parts i) = length parts - 1)
      by (apply length_merged_tokens; lia).
    destruct parts as [|b rest]; [cbn [length] in Hi; lia|].
    destruct (merged_tokens (b :: rest) i) as [|m ms] eqn:Em;
      [cbn [length] in Hlen, Hi; lia|].
    rewrite !join_cons2, E1, E2. rewrite <- !app_assoc. split; reflexivity.
Qed.

Lemma token_first (w : str) :
  token w -> exists c w', w = c :: w' /\ is_space c = false.
Proof.
  destruct w as [|c w']; intros H; [destruct H as [H _]; contradiction|].
  apply token_cons in H as [Hc _]. eauto.
Qed.

Lemma token_last (w : str) :
  token w -> exists w' c, w = w' ++ [c] /\ is_space c = false.
Proof.
  intros [Hne Hall].
  destruct (exists_last Hne) as (w' & c & ->).
  exists w', c. split; [reflexivity|].
  rewrite forallb_app in Hall. apply andb_true_iff in Hall as [_ Hc].
  cbn [forallb] in Hc. rewrite andb_true_r in Hc. now apply negb_true_iff in Hc.
Qed.

Lemma join_first (ws : list str) :
  Forall token ws -> ws <> [] ->
  exists c s, join (py " ") ws = c :: s /\ is_space c = false.
Proof.
  intros H Hne. destruct H as [|w ws Hw Hws]; [contradiction|].
  destruct (token_first Hw) as (c & w' & -> & Hc).
  destruct ws as [|w2 ws']; [cbn [join]; eauto|].
  rewrite join_cons2. cbn [app]. eauto.
Qed.

Lemma join_last (ws : list str) :
  Forall token ws -> ws <> [] ->
  exists s c, join (py " ") ws = s ++ [c] /\ is_space c = false.
Proof.
  induction 1 as [|w ws Hw Hws IH]; intros Hne; [contradiction|].
  destruct ws as [|w2 ws'].
  - cbn [join]. now apply token_last.
  - destruct (IH ltac:(discriminate)) as (s & c & E & Hc).
    exists (w ++ py " " ++ s), c. rewrite join_cons2, E.
    rewrite <- !app_assoc. split; [reflexivity|exact Hc].
Qed.

Lemma strip_fixed (s : str) (c d : ascii) (t u : str) :
  s = c :: t -> s = u ++ [d] -> is_space c = false -> is_space d = false ->
  strip s = s.
Proof.
  intros E1 E2 Hc Hd. unfold strip.
  assert (D1 : drop_while is_space s = s)
    by (rewrite E1; cbn [drop_while]; now rewrite Hc).
  rewrite D1.
  assert (D2 : drop_while is_space (rev s) = rev s)
    by (rewrite E2, rev_app_distr; cbn [rev app drop_while]; now rewrite Hd).
  rewrite D2. apply rev_involutive.
Qed.

Lemma strip_join (ws : list str) :
  Forall token ws -> ws <> [] -> strip (join (py " ") ws) = join (py " ") ws.
Proof.
  intros H Hne.
  destruct (join_first H Hne) as (c & t & E1 & Hc).
  destruct (join_last H Hne) as (u & d & E2 & Hd).
  exact (@strip_fixed _ c d t u E1 E2 Hc Hd).
Qed.

Lemma merged_tokens_are_tokens (parts : list str) (i : nat) :
  Forall token parts -> i + 1 < length parts -> Forall token (merged_tokens parts i).
Proof.
  intros Ht Hi. unfold merged_tokens.
  apply Forall_pop_nth. apply Forall_set_nth; [exact Ht|].
  apply token_app; apply Forall_nth'; auto; lia.
Qed.

Lemma remove_space_single_char (text : str) :
  join (py " ") (split_ws text) = text ->
  2 <= length (split_ws text) ->
  Always (fun out =>
            SingleCommandGenerator._is_single_char_correction out text = true
            /\ length text = S (length out))
         (remove_space text).
Proof.
  intros Hnorm Hn. unfold remove_space.
  destruct (Nat.ltb_spec (length (split_ws text)) 2) as [Hlt|_]; [lia|].
  apply Always_bind. apply Always_randint; [lia|].
  intros z Hz. constructor.
  set (i := Z.to_nat z).
  assert (Hi : i + 1 < length (split_ws text)) by (unfold i; lia).
  change (pop_nth (set_nth (split_ws text) i
                           (nth i (split_ws text) [] ++ nth (i + 1) (split_ws text) []))
                  (i + 1))
    with (merged_tokens (split_ws text) i).
  pose proof (split_ws_tokens text) as Ht.
  pose proof (@merged_tokens_are_tokens _ _ Ht Hi) as Hm.
  destruct (@join_merged (split_ws text) i Hi) as (l1 & l2 & E1 & E2).
  assert (Hlen : length text = S (length (join (py " ") (merged_tokens (split_ws text) i)))).
  { rewrite <- Hnorm at 1. rewrite E1, E2, !length_app. cbn [length]. lia. }
  split; [|exact Hlen].
  assert (St : strip (join (py " ") (split_ws text)) = join (py " ") (split_ws text)).
  { apply strip_join; [exact Ht|].
    intros E. rewrite E in Hn. cbn [length] in Hn. lia. }
  rewrite Hnorm in St.
  assert (Sm : strip (join (py " ") (merged_tokens (split_ws text) i))
               = join (py " ") (merged_tokens (split_ws text) i)).
  { apply strip_join; [exact Hm|].
    intros E.
    pose proof (@length_merged_tokens (split_ws text) i Hi) as L.
    rewrite E in L. cbn [length] in L. lia. }
  apply is_single_char_correction_spec. rewrite St, Sm.
  right. left. split; [exact Hlen|].
  exists l1, " "%char, l2. split; [|exact E2].
  rewrite <- Hnorm. exact E1.
Qed.

(** X13. On a command whose tokens are separated by single blanks, with no
    blank at either end, [remove_space] always returns a string that is
    one character shorter and that both generators classify as a
    single-character correction of the command. *)
Theorem remove_space_is_single_char (text : str) :
  join (py " ") (split_ws text) = text ->
  2 <= length (split_ws text) ->
  forall (R : Type) (G : RandomGen R) (r : R),
  exists out r',
    run (remove_space text) r = (inr out, r')
    /\ length text = S (length out)
    /\ SingleCommandGenerator._is_single_char_correction out text = true
    /\ ToolsGenerator._is_single_char_correction out text = true.
Proof.
  intros Hnorm Hn R G r.
  destruct (Always_run (@remove_space_single_char text Hnorm Hn) r)
    as (out & r' & E & Hs & Hl).
  exists out, r'. split; [exact E|]. split; [exact Hl|]. split; exact Hs.
Qed.

(** The statement at ["mkdir -p path"] with the tape generator. *)
Lemma remove_space_is_single_char_witness :
  exists out r',
    run (remove_space (py "mkdir -p path")) (@seed_state _ Tape_RandomGen 1)
    = (inr out, r')
    /\ length (py "mkdir -p path") = S (length out)
    /\ SingleCommandGenerator._is_single_char_correction out (py "mkdir -p path") = true
    /\ ToolsGenerator._is_single_char_correction out (py "mkdir -p path") = true.
Proof.
  apply (@remove_space_is_single_char (py "mkdir -p path")).
  - reflexivity.
  - vm_compute. lia.
Defined.

(** ** The permission error *)

Lemma permission_error_cases (correct sh : str) :
  SingleCommandGenerator._generate_permission_error correct sh
  = if startswith (py "sudo ") correct then skipn 5 correct else correct.
Proof.
  unfold SingleCommandGenerator._generate_permission_error.
  destruct (startswith (py "sudo ") correct); [reflexivity|].
  destruct (_ && _); [reflexivity|].
  destruct (str_eqb sh (py "powershell")); reflexivity.
Qed.

(** X14. [_generate_permission_error] only ever removes a leading ["sudo "]:
    a command that starts with it comes back without it, every other
    command comes back unchanged, whatever the shell; so for an entry
    without wrong templates the error type ["permission"] yields the
    command itself unless the command starts with ["sudo "]. *)
Theorem permission_error_strips_sudo (correct sh : str) :
  (forall rest,
      SingleCommandGenerator._generate_permission_error (py "sudo " ++ rest) sh = rest)
  /\ (startswith (py "sudo ") correct = false ->
      SingleCommandGenerator._generate_permission_error correct sh = correct)
  /\ (forall e variables,
      startswith (py "sudo ") correct = false ->
      entry_errors e = None \/ entry_errors e = Some [] ->
      SingleCommandGenerator._generate_incorrect correct e (py "permission") sh variables
      = Ret correct).
Proof.
  split; [|split].
  - intros rest. rewrite permission_error_cases.
    rewrite (startswith_app (py "sudo ") rest). reflexivity.
  - intros H. rewrite permission_error_cases, H. reflexivity.
  - intros e variables H He.
    unfold SingleCommandGenerator._generate_incorrect.
    change (str_eqb (py "permission") (py "typo")) with false.
    change (str_eqb (py "permission") (py "wrong_flag")) with false.
    change (str_eqb (py "permission") (py "permission")) with true.
    cbv zeta. rewrite permission_error_cases, H.
    destruct He as [-> | ->]; reflexivity.
Qed.

(** The statement at ["sudo apt update"] and at ["apt update"], a
    command of the sudo list. *)
Lemma permission_error_strips_sudo_witness :
  SingleCommandGenerator._generate_permission_error (py "sudo apt update") (py "bash")
  = py "apt update"
  /\ SingleCommandGenerator._generate_permission_error (py "apt update") (py "bash")
     = py "apt update"
  /\ SingleCommandGenerator._generate_incorrect (py "apt update")
       (command (py "apt update") []) (py "permission") (py "bash") []
     = Ret (py "apt update").
Proof.
  split; [|split].
  - exact (proj1 (permission_error_strips_sudo (py "apt update") (py "bash"))
                 (py "apt update")).
  - apply (proj1 (proj2 (permission_error_strips_sudo (py "apt update") (py "bash")))).
    reflexivity.
  - apply (proj2 (proj2 (permission_error_strips_sudo (py "apt update") (py "bash")))).
    + reflexivity.
    + right. reflexivity.
Defined.

(** ** What the cap keeps *)

Lemma filter_idem {A : Type} (f : A -> bool) (l : list A) :
  filter f (filter f l) = filter f l.
Proof.
  induction l as [|x l IH]; [reflexivity|].
  cbn [filter]. destruct (f x) eqn:E; [|exact IH].
  cbn [filter]. rewrite E, IH. reflexivity.
Qed.

Lemma filter_none_firstn {A : Type} (f : A -> bool) (n : nat) (l : list A) :
  filter f l = [] -> filter f (firstn n l) = [].
Proof.
  revert n; induction l as [|x l IH]; intros [|n] H; try reflexivity.
  cbn [firstn filter] in *. destruct (f x); [discriminate|]. now apply IH.
Qed.

Lemma filter_partition_Permutation {A : Type} (f : A -> bool) (l : list A) :
  Permutation (filter (fun x => negb (f x)) l ++ filter f l) l.
Proof.
  induction l as [|x l IH]; [constructor|].
  cbn [filter]. destruct (f x); cbn [negb app].
  - rewrite <- Permutation_middle. now constructor.
  - now constructor.
Qed.

Lemma firstn_incl {A : Type} (n : nat) (l : list A) : incl (firstn n l) l.
Proof.
  intros x Hx. rewrite <- (firstn_skipn n l). apply in_or_app. now left.
Qed.

Lemma single_cap_shape (count : Z) (l : list TrainingExample) :
  exists n,
    SingleCommandGenerator.cap_single_char count l
    = filter (fun ex => negb (is_single_char ex)) l ++ firstn n (filter is_single_char l)
    /\ ((Z.of_nat (length (filter is_single_char l)) <= max_single_char count)%Z ->
        firstn n (filter is_single_char l) = filter is_single_char l).
Proof.
  unfold SingleCommandGenerator.cap_single_char. cbv zeta.
  fold is_single_char.
  change (fun ex => SingleCommandGenerator._is_single_char_correction
                      (incorrect_command ex) (correct_command ex))
    with is_single_char.
  change (trunc (fmul (of_Z count) SingleCommandGenerator.MAX_SINGLE_CHAR_PERCENTAGE))
    with (max_single_char count).
  destruct (Z.ltb_spec (max_single_char count)
                       (Z.of_nat (length (filter is_single_char l)))) as [Hlt|Hge].
  - destruct (slice_to_firstn (filter is_single_char l) (max_single_char count))
      as [m ->].
    exists m. split; [reflexivity|]. intros H. lia.
  - exists (length (filter is_single_char l)).
    rewrite firstn_all. split; reflexivity.
Qed.

(** X15. The cap on single-character corrections never touches the others:
    every example that is not a single-character correction is kept, in
    its order; of the single-character ones a leading part is kept; when
    they do not exceed [int(count * 0.05)] nothing is dropped at all; and
    the caps of the single-command and of the tools generator are the
    same function. *)
Theorem cap_keeps_multi_char (count : Z) (l : list TrainingExample) :
  filter (fun ex => negb (is_single_char ex))
         (SingleCommandGenerator.cap_single_char count l)
  = filter (fun ex => negb (is_single_char ex)) l
  /\ (exists n,
        filter is_single_char (SingleCommandGenerator.cap_single_char count l)
        = firstn n (filter is_single_char l))
  /\ incl (SingleCommandGenerator.cap_single_char count l) l
  /\ ((Z.of_nat (single_char_count l) <= max_single_char count)%Z ->
      Permutation (SingleCommandGenerator.cap_single_char count l) l)
  /\ ToolsGenerator.cap_single_char count l
     = SingleCommandGenerator.cap_single_char count l.
Proof.
  destruct (single_cap_shape count l) as (n & E & Hall).
  rewrite E. split; [|split; [|split; [|split]]].
  - rewrite filter_app, filter_idem.
    rewrite (filter_none_firstn _ n (filter is_single_char l));
      [apply app_nil_r|].
    clear. induction l as [|x l IH]; [reflexivity|].
    cbn [filter]. destruct (is_single_char x) eqn:Ex; [|exact IH].
    cbn [filter]. rewrite Ex. exact IH.
  - exists n. rewrite filter_app, filter_negb_none. cbn [app].
    assert (F : forall m (k : list TrainingExample),
               filter is_single_char k = k ->
               filter is_single_char (firstn m k) = firstn m k).
    { intros m k. revert m. induction k as [|x k IH]; intros [|m] H; try reflexivity.
      cbn [firstn filter] in *. destruct (is_single_char x) eqn:Ex.
      - injection H as H. now rewrite IH.
      - exfalso.
        assert (L : length (filter is_single_char k) <= length k)
          by apply filter_length_le.
        rewrite H in L. cbn [length] in L. lia. }
    apply F, filter_idem.
  - intros x Hx. apply in_app_or in Hx as [Hx|Hx].
    + now apply filter_In in Hx.
    + apply firstn_incl in Hx. now apply filter_In in Hx.
  - intros Hle. rewrite (Hall Hle). apply filter_partition_Permutation.
  - rewrite <- E. reflexivity.
Qed.

(** The statement on a list with one single-character correction, at a
    target count of 100. *)
Lemma cap_keeps_multi_char_witness :
  (Z.of_nat (single_char_count [chained_uncapped_example]) <= max_single_char 100)%Z
  /\ Permutation (SingleCommandGenerator.cap_single_char 100 [chained_uncapped_example])
                 [chained_uncapped_example].
Proof.
  assert (H : (Z.of_nat (single_char_count [chained_uncapped_example])
               <= max_single_char 100)%Z) by (vm_compute; discriminate).
  split; [exact H|].
  exact (proj1 (proj2 (proj2 (proj2
           (cap_keeps_multi_char 100 [chained_uncapped_example])))) H).
Defined.

(** ** The split into training, validation and test data *)

Lemma firstn_clamp {A : Type} (xs : list A) (n : nat) :
  firstn n xs = firstn (Nat.min n (length xs)) xs.
Proof.
  destruct (Nat.le_gt_cases n (length xs)) as [H|H].
  - now rewrite Nat.min_l.
  - rewrite Nat.min_r by lia. rewrite firstn_all. apply firstn_all2. lia.
Qed.

Lemma three_slices {A : Type} (xs : list A) (a b : Z) :
  (0 <= a <= b)%Z ->
  slice_to xs a ++ GenerateData.slice xs a b ++ GenerateData.slice_from xs b = xs.
Proof.
  intros [Ha Hab].
  unfold slice_to, GenerateData.slice, GenerateData.slice_from, GenerateData.clamp.
  destruct (Z.leb_spec 0 a) as [_|]; [|lia].
  destruct (Z.leb_spec 0 b) as [_|]; [|lia].
  rewrite (firstn_clamp xs (Z.to_nat a)).
  set (a' := Nat.min (Z.to_nat a) (length xs)).
  set (b' := Nat.min (Z.to_nat b) (length xs)).
  assert (Hle : a' <= b') by (unfold a', b'; lia).
  replace (skipn b' xs) with (skipn (b' - a') (skipn a' xs))
    by (rewrite skipn_skipn; f_equal; lia).
  rewrite (firstn_skipn (b' - a') (skipn a' xs)).
  apply firstn_skipn.
Qed.

Lemma shuffle_always {A : Type} (x : list A) : Always (Permutation x) (shuffle x).
Proof.
  eapply Always_mono;
    [|apply (Always_strengthen (Returns_shuffle x) (Ensures_shuffle x))].
  intros l [_ H]. exact H.
Qed.

Lemma combine_datasets_always {A : Type} (all_examples : list A)
      (m1 m2 : positive) (e1 e2 : Z) :
  all_examples <> [] ->
  Always (fun o => match o with
                   | GenerateData.Saved train_data val_data test_data =>
                       Permutation (train_data ++ val_data ++ test_data) all_examples
                   | GenerateData.ZeroDivisionError => False
                   end)
         (GenerateData.combine_datasets all_examples
            (S754_finite false m1 e1) (S754_finite false m2 e2)).
Proof.
  intros Hne. unfold GenerateData.combine_datasets.
  eapply Always_after; [apply shuffle_always|].
  intros l Hperm. cbv zeta.
  destruct (Z.eqb_spec (Z.of_nat (length l)) 0) as [H0|_].
  - exfalso. destruct l; [|cbn [length] in H0; lia].
    apply Permutation_sym, Permutation_nil in Hperm. contradiction.
  - constructor. rewrite three_slices; [now symmetry|].
    assert (H1 : (0 <= trunc (fmul (of_Z (Z.of_nat (length l))) (S754_finite false m1 e1)))%Z)
      by (apply trunc_not_negative, fmul_not_negative, of_Z_not_negative; lia).
    assert (H2 : (0 <= trunc (fmul (of_Z (Z.of_nat (length l))) (S754_finite false m2 e2)))%Z)
      by (apply trunc_not_negative, fmul_not_negative, of_Z_not_negative; lia).
    lia.
Qed.



(** ** What [generate_typo] changes *)

Lemma nospace_firstn (n : nat) (w : str) :
  forallb (fun c => negb (is_space c)) w = true ->
  forallb (fun c => negb (is_space c)) (firstn n w) = true.
Proof.
  intros H. rewrite <- (firstn_skipn n w), forallb_app in H.
  now apply andb_true_iff in H as [H _].
Qed.

Lemma nospace_skipn (n : nat) (w : str) :
  forallb (fun c => negb (is_space c)) w = true ->
  forallb (fun c => negb (is_space c)) (skipn n w) = true.
Proof.
  intros H. rewrite <- (firstn_skipn n w), forallb_app in H.
  now apply andb_true_iff in H as [_ H].
Qed.

Lemma nospace_char_at (w : str) (i : nat) :
  forallb (fun c => negb (is_space c)) w = true -> i < length w ->
  negb (is_space (char_at w i)) = true.
Proof.
  intros H Hi. rewrite forallb_forall in H. apply H. unfold char_at. now apply nth_In.
Qed.

Lemma token_insert (a b : str) (c : ascii) :
  forallb (fun c => negb (is_space c)) a = true ->
  negb (is_space c) = true ->
  forallb (fun c => negb (is_space c)) b = true ->
  token (a ++ c :: b).
Proof.
  intros Ha Hc Hb. split; [destruct a; discriminate|].
  rewrite forallb_app. cbn [forallb]. now rewrite Ha, Hc, Hb.
Qed.

Lemma lowercase_nospace (c : ascii) :
  In c ascii_lowercase -> negb (is_space c) = true.
Proof.
  assert (C : forallb (fun c => negb (is_space c)) ascii_lowercase = true)
    by reflexivity.
  rewrite forallb_forall in C. apply C.
Qed.

Lemma adjacent_keys_In (c : ascii) (t : list (ascii * str)) (adjacent : str) :
  adjacent_keys c t = Some adjacent -> exists k, In (k, adjacent) t.
Proof.
  induction t as [|[k v] t IH]; cbn [adjacent_keys]; [discriminate|].
  destruct (Ascii.eqb c k).
  - intros [= ->]. exists k. now left.
  - intros H. destruct (IH H) as [k' Hk']. exists k'. now right.
Qed.

Lemma adjacent_nospace (c x : ascii) (adjacent : str) :
  adjacent_keys c KEYBOARD_ADJACENT = Some adjacent ->
  In x adjacent -> negb (is_space x) = true.
Proof.
  intros H Hx. destruct (adjacent_keys_In _ _ H) as [k Hk].
  assert (C : forallb (fun kv : ascii * str =>
                         forallb (fun c => negb (is_space c)) (snd kv))
                      KEYBOARD_ADJACENT = true) by reflexivity.
  rewrite forallb_forall in C. specialize (C _ Hk). cbn [snd] in C.
  rewrite forallb_forall in C. now apply C.
Qed.

Lemma typo_of_refl (word : str) : token word -> typo_of word word.
Proof. intros H. split; [exact H|now left]. Qed.

Lemma typo_word (word typo_type : str) :
  token word -> 2 <= length word ->
  Ensures (typo_of word)
    (let n := Z.of_nat (length word) in
     if str_eqb typo_type (py "swap") && (3 <=? length word) then
       pos <- randint 0 (n - 2) ;;
       let p := Z.to_nat pos in
       Ret (firstn p word ++ char_at word (p + 1) :: char_at word p
              :: skipn (p + 2) word)
     else if str_eqb typo_type (py "delete") && (3 <=? length word) then
       pos <- randint 1 (n - 1) ;;
       let p := Z.to_nat pos in
       Ret (firstn p word ++ skipn (p + 1) word)
     else if str_eqb typo_type (py "insert") then
       pos <- randint 1 (n - 1) ;;
       let p := Z.to_nat pos in
       char <- choice ascii_lowercase ;;
       Ret (firstn p word ++ char :: skipn p word)
     else if str_eqb typo_type (py "adjacent") then
       pos <- randint 0 (n - 1) ;;
       let p := Z.to_nat pos in
       let char := lower (char_at word p) in
       match adjacent_keys char KEYBOARD_ADJACENT with
       | Some adjacent =>
           new_char <- choice adjacent ;;
           Ret (firstn p word ++ new_char :: skipn (p + 1) word)
       | None => Ret word
       end
     else if str_eqb typo_type (py "double") && (2 <=? length word) then
       pos <- randint 0 (n - 1) ;;
       let p := Z.to_nat pos in
       Ret (firstn p word ++ char_at word p :: skipn p word)
     else Ret word).
Proof.
  intros Ht Hlen. pose proof Ht as [Hne Hns]. cbv zeta.
  destruct (str_eqb typo_type (py "swap") && (3 <=? length word)) eqn:C1.
  { apply andb_true_iff in C1 as [_ C1]. apply Nat.leb_le in C1.
    apply Ensures_bind. apply Ensures_randint. intros z Hz. constructor.
    split.
    - apply token_insert; [now apply nospace_firstn|apply nospace_char_at; [exact Hns|lia]|].
      cbn [forallb]. rewrite nospace_char_at by (try exact Hns; lia).
      now apply nospace_skipn.
    - left. rewrite length_app, length_firstn. cbn [length]. rewrite length_skipn. lia. }
  destruct (str_eqb typo_type (py "delete") && (3 <=? length word)) eqn:C2.
  { apply andb_true_iff in C2 as [_ C2]. apply Nat.leb_le in C2.
    apply Ensures_bind. apply Ensures_randint. intros z Hz. constructor.
    split.
    - split.
      + intros E. apply (f_equal (@length ascii)) in E.
        rewrite length_app, length_firstn, length_skipn in E. cbn [length] in E. lia.
      + rewrite forallb_app, nospace_firstn, nospace_skipn by exact Hns. reflexivity.
    - right. right. rewrite length_app, length_firstn, length_skipn. lia. }
  destruct (str_eqb typo_type (py "insert")) eqn:C3.
  { apply Ensures_bind. apply Ensures_randint. intros z Hz.
    apply Ensures_bind. apply Ensures_choice. intros c Hc. constructor.
    split.
    - apply token_insert; [now apply nospace_firstn|now apply lowercase_nospace|].
      now apply nospace_skipn.
    - right. left. rewrite length_app, length_firstn. cbn [length].
      rewrite length_skipn. lia. }
  destruct (str_eqb typo_type (py "adjacent")) eqn:C4.
  { apply Ensures_bind. apply Ensures_randint. intros z Hz.
    destruct (adjacent_keys _ KEYBOARD_ADJACENT) as [adjacent|] eqn:Ea.
    - apply Ensures_bind. apply Ensures_choice. intros c Hc. constructor.
      split.
      + apply token_insert;
          [now apply nospace_firstn|exact (adjacent_nospace _ _ Ea Hc)|].
        now apply nospace_skipn.
      + left. rewrite length_app, length_firstn. cbn [length].
        rewrite length_skipn. lia.
    - constructor. now apply typo_of_refl. }
  destruct (str_eqb typo_type (py "double") && (2 <=? length word)) eqn:C5.
  { apply Ensures_bind. apply Ensures_randint. intros z Hz. constructor.
    split.
    - apply token_insert; [now apply nospace_firstn|apply nospace_char_at; [exact Hns|lia]|].
      now apply nospace_skipn.
    - right. left. rewrite length_app, length_firstn. cbn [length].
      rewrite length_skipn. lia. }
  constructor. now apply typo_of_refl.
Qed.

Lemma generate_typo_ensured (text : str) (typo_rate : float) :
  Ensures (one_token_typo text) (generate_typo text typo_rate).
Proof.
  unfold generate_typo.
  destruct text as [|c0 text0] eqn:Et; [constructor; now left|].
  rewrite <- Et.
  apply Ensures_after. intros x.
  destruct (fltb typo_rate x); [constructor; now left|].
  destruct (split_ws text) as [|w0 ws] eqn:Ew; [constructor; now left|].
  rewrite <- Ew. cbv zeta.
  apply Ensures_bind.
  eapply Ensures_mono;
    [|apply Ensures_choices with (P := fun i => i < length (split_ws text));
      intros i Hi; apply in_seq in Hi; lia].
  intros idx Hidx.
  pose proof (split_ws_tokens text) as Htok.
  assert (Hw : token (nth idx (split_ws text) []))
    by (apply Forall_nth'; [exact Htok|exact Hidx]).
  destruct (Nat.ltb_spec (length (nth idx (split_ws text) [])) 2) as [Hlt|Hge];
    [constructor; now left|].
  apply Ensures_after. intros typo_type.
  apply Ensures_bind.
  eapply Ensures_mono; [|apply (typo_word typo_type Hw Hge)].
  intros word' Hword. constructor. right.
  exists idx, word'. split; [exact Hidx|]. split; [exact Hword|].
  split; [reflexivity|].
  apply split_ws_join. apply Forall_set_nth; [exact Htok|exact (proj1 Hword)].
Qed.

(** X17. Whatever [generate_typo] returns is the text itself or differs from
    it in one token only: the tokens of the text come back joined by
    single blanks, with the token at one position replaced by a token
    that is as long, one character longer or one character shorter; the
    number of tokens never changes. *)
Theorem generate_typo_changes_one_token :
  forall (text : str) (typo_rate : float) (R : Type) (G : RandomGen R) (r : R)
         (out : str) (r' : R),
    run (generate_typo text typo_rate) r = (inr out, r') ->
    one_token_typo text out
    /\ length (split_ws out) = length (split_ws text).
Proof.
  intros text typo_rate R G r out r' E.
  pose proof (Ensures_run (generate_typo_ensured text typo_rate) _ E) as H.
  split; [exact H|].
  destruct H as [->|(idx & word' & Hidx & _ & _ & ->)]; [reflexivity|].
  apply length_set_nth. exact Hidx.
Qed.

Lemma typo_run_seed_2 :
  exists out,
    fst (run (generate_typo (py "git status") (of_Z 1)) (@seed_state _ Tape_RandomGen 2))
    = inr out
    /\ out <> py "git status".
Proof. vm_compute. eexists. split; [reflexivity|discriminate]. Qed.

(** A run on ["git status"] at the rate 1, from the seed 2. *)
Lemma generate_typo_changes_one_token_witness :
  exists out r',
    run (generate_typo (py "git status") (of_Z 1)) (@seed_state _ Tape_RandomGen 2)
    = (inr out, r')
    /\ out <> py "git status"
    /\ one_token_typo (py "git status") out
    /\ length (split_ws out) = 2.
Proof.
  destruct typo_run_seed_2 as (out & E & N).
  exists out.
  exists (snd (run (generate_typo (py "git status") (of_Z 1))
                   (@seed_state _ Tape_RandomGen 2))).
  assert (E' : run (generate_typo (py "git status") (of_Z 1))
                   (@seed_state _ Tape_RandomGen 2)
               = (inr out,
                  snd (run (generate_typo (py "git status") (of_Z 1))
                           (@seed_state _ Tape_RandomGen 2))))
    by (rewrite <- E; apply surjective_pairing).
  split; [exact E'|]. split; [exact N|].
  exact (@generate_typo_changes_one_token (py "git status") (of_Z 1) (list Z)
           Tape_RandomGen (@seed_state _ Tape_RandomGen 2) out _ E').
Defined.

(** ** [wrong_flag] changes one character *)

Lemma replace_first_spec (old new s : str) :
  contains old s = true ->
  exists u r, s = u ++ old ++ r /\ replace_first old new s = u ++ new ++ r.
Proof.
  induction s as [|c s IH]; intros H.
  - change (contains old []) with (startswith old [] || false) in H.
    rewrite orb_false_r in H. cbn [replace_first]. rewrite H.
    apply startswith_spec in H as [r E].
    symmetry in E. apply app_eq_nil in E as [-> ->].
    exists [], []. split; reflexivity.
  - cbn [replace_first]. rewrite contains_cons in H.
    destruct (startswith old (c :: s)) eqn:Es.
    + apply startswith_spec in Es as [r E].
      exists [], r. split; [exact E|].
      rewrite E. now rewrite skipn_prefix.
    + cbn [orb] in H. destruct (IH H) as (u & r & E1 & E2).
      exists (c :: u), r. cbn [app]. now rewrite <- E1, E2.
Qed.

Lemma wrong_flag_always (text : str) :
  Always (fun out => out = text \/ one_removed out text \/ one_removed text out)
         (wrong_flag text).
Proof.
  unfold wrong_flag. cbv zeta.
  assert (P : (if contains (py " -") text && negb (contains (py " --") text)
               then replace_first (py " -") (py " --") text else text) = text
              \/ one_removed text
                   (if contains (py " -") text && negb (contains (py " --") text)
                    then replace_first (py " -") (py " --") text else text)).
  { destruct (contains (py " -") text && negb (contains (py " --") text)) eqn:C;
      [|now left].
    apply andb_true_iff in C as [C _].
    destruct (replace_first_spec (py " -") (py " --") text C) as (u & r & E1 & E2).
    right. exists (u ++ py " -"), "-"%char, r. rewrite E2.
    split; rewrite <- !app_assoc; [reflexivity|exact E1]. }
  destruct (contains (py " --") text) eqn:C2.
  - apply Always_after with (Q := fun _ => True); [now apply Always_random|].
    intros x _. destruct (fltb (dec 5 10) x); constructor.
    + destruct (replace_first_spec (py " --") (py " -") text C2) as (u & r & E1 & E2).
      right. left. exists (u ++ py " -"), "-"%char, r. rewrite E2.
      split; rewrite <- !app_assoc; [exact E1|reflexivity].
    + destruct P as [-> | P]; [now left|right; right; exact P].
  - constructor. destruct P as [-> | P]; [now left|right; right; exact P].
Qed.

(** X18. [wrong_flag] never raises and never changes more than one
    character: the result is the input, or the input with one character
    removed (a flag demoted), or the input with one character added (a
    flag promoted). *)
Theorem wrong_flag_one_character :
  forall (text : str) (R : Type) (G : RandomGen R) (r : R),
  exists out r',
    run (wrong_flag text) r = (inr out, r')
    /\ (out = text \/ one_removed out text \/ one_removed text out).
Proof.
  intros text R G r. exact (Always_run (wrong_flag_always text) r).
Qed.
